(** * ChiveSave community backend: version registry, archive and active slot

    A shallow embedding of the request handlers of the repository and of the
    two resources they drive (the PostgreSQL tables and the two directories
    on disk), followed by the properties of the specification.

    The repository holds the service twice: the flat modules [main.py],
    [crud.py], [users.py], [database.py] (module [Legacy] below) and the
    package [app/] (module [App] below).  Both are embedded.

    Handlers are computations in a state monad over the world (file system,
    tables, history of effects) with Python's exceptions.  What lies outside
    the repository is either modelled after its documented behaviour
    ([posixpath], the file operations, the SQL statements, what the driver
    accepts as an argument and hands back as a value) or taken as a
    parameter ([json.loads], the password check, the token encoder, the
    UUID and clock readings of a call). *)

From Stdlib Require Import ZArith Ascii DecimalString Sorted Permutation.
From stdpp Require Import gmap strings list fin_maps sorting.

Local Open Scope Z_scope.

(** ** Python strings and [posixpath] *)

Module Py.

Definition slash : ascii := "/"%char.
Definition dot : ascii := "."%char.

(** [c in s] *)
Fixpoint contains (c : ascii) (s : string) : bool :=
  match s with
  | EmptyString => false
  | String a r => Ascii.eqb a c || contains c r
  end.

(** Index of the last occurrence of [c] in [s], if any. *)
Fixpoint rindex (c : ascii) (s : string) : option nat :=
  match s with
  | EmptyString => None
  | String a r =>
      match rindex c r with
      | Some i => Some (S i)
      | None => if Ascii.eqb a c then Some 0%nat else None
      end
  end.

(** [s.rfind(c)]: the index of the last occurrence, [-1] when absent. *)
Definition rfind (c : ascii) (s : string) : Z :=
  match rindex c s with
  | Some i => Z.of_nat i
  | None => -1
  end.

(** [s[:n]] and [s[n:]] for [n >= 0]. *)
Fixpoint slice_to (n : nat) (s : string) : string :=
  match n, s with
  | O, _ => EmptyString
  | S _, EmptyString => EmptyString
  | S m, String a r => String a (slice_to m r)
  end.

Fixpoint slice_from (n : nat) (s : string) : string :=
  match n, s with
  | O, _ => s
  | S _, EmptyString => EmptyString
  | S m, String _ r => slice_from m r
  end.

Definition startswith (c : ascii) (s : string) : bool :=
  match s with
  | String a _ => Ascii.eqb a c
  | EmptyString => false
  end.

Fixpoint endswith (c : ascii) (s : string) : bool :=
  match s with
  | EmptyString => false
  | String a EmptyString => Ascii.eqb a c
  | String _ r => endswith c r
  end.

Definition is_empty (s : string) : bool :=
  match s with EmptyString => true | _ => false end.

(** [s[len(pre):]] when [s.startswith(pre)]. *)
Fixpoint strip_prefix (pre s : string) : option string :=
  match pre, s with
  | EmptyString, _ => Some s
  | String a p, String b r => if Ascii.eqb a b then strip_prefix p r else None
  | String _ _, EmptyString => None
  end.

(** [posixpath.basename]: [i = p.rfind('/') + 1; return p[i:]]. *)
Definition basename (p : string) : string :=
  slice_from (Z.to_nat (rfind slash p + 1)) p.

(** [posixpath.dirname]: the head up to the last slash, with trailing
    slashes stripped unless the head consists of slashes only. *)
Fixpoint rstrip (c : ascii) (s : string) : string :=
  match s with
  | EmptyString => EmptyString
  | String a r =>
      match rstrip c r with
      | EmptyString => if Ascii.eqb a c then EmptyString else String a EmptyString
      | r' => String a r'
      end
  end.

Definition dirname (p : string) : string :=
  let head := slice_to (Z.to_nat (rfind slash p + 1)) p in
  if is_empty (rstrip slash head) then head else rstrip slash head.

(** [posixpath.join(a, b)] with one component [b]. *)
Definition join (a b : string) : string :=
  if startswith slash b then b
  else if is_empty a || endswith slash a then a +:+ b
  else a +:+ "/" +:+ b.

(** The loop of [genericpath._splitext] that skips leading dots: is there
    an index in [filenameIndex, dotIndex) whose character is not a dot? *)
Fixpoint all_dots (s : string) : bool :=
  match s with
  | EmptyString => true
  | String a r => Ascii.eqb a dot && all_dots r
  end.

(** [posixpath.splitext]. *)
Definition splitext (p : string) : string * string :=
  let sepIndex := rfind slash p in
  let dotIndex := rfind dot p in
  if (dotIndex >? sepIndex)
     && negb (all_dots (slice_from (Z.to_nat (sepIndex + 1))
                          (slice_to (Z.to_nat dotIndex) p)))
  then (slice_to (Z.to_nat dotIndex) p, slice_from (Z.to_nat dotIndex) p)
  else (p, EmptyString).

End Py.

(** ** JSON documents and the decoder

    [json.loads] belongs to the Python standard library.  The handlers take
    the decoder as a parameter (the sections [Handlers]); [Json.loads] is a
    reference decoder following the grammar of [json.decoder] and
    [json.scanner]; it instantiates the parameter in the closed examples. *)

Module Json.

#[warnings="-register-all"] Inductive json :=
| JNull
| JBool (b : bool)
| JNumber (literal : string)
| JString (raw : string)
| JArray (items : list json)
| JObject (members : list (string * json)).

(** [isinstance(v, dict)] *)
Definition is_dict (v : json) : bool :=
  match v with JObject _ => true | _ => false end.

Definition quote : ascii := "034"%char.
Definition backslash : ascii := "\"%char.

Definition is_ws (c : ascii) : bool :=
  Ascii.eqb c " " || Ascii.eqb c "009" || Ascii.eqb c "010" || Ascii.eqb c "013".

Definition is_digit (c : ascii) : bool :=
  let n := nat_of_ascii c in (48 <=? n)%nat && (n <=? 57)%nat.

Definition is_hex (c : ascii) : bool :=
  let n := nat_of_ascii c in
  is_digit c || ((65 <=? n)%nat && (n <=? 70)%nat)
  || ((97 <=? n)%nat && (n <=? 102)%nat).

Definition is_simple_escape (c : ascii) : bool :=
  Ascii.eqb c quote || Ascii.eqb c backslash || Ascii.eqb c "/"
  || Ascii.eqb c "b" || Ascii.eqb c "f" || Ascii.eqb c "n"
  || Ascii.eqb c "r" || Ascii.eqb c "t".

Fixpoint skip_ws (s : string) : string :=
  match s with
  | String c r => if is_ws c then skip_ws r else s
  | EmptyString => s
  end.

(** The body of a string literal after its opening quote, in strict mode:
    the text up to the closing quote (escape sequences checked and kept as
    written) and what follows the closing quote. *)
Fixpoint scan_string (s : string) : option (string * string) :=
  match s with
  | EmptyString => None
  | String c r =>
      if Ascii.eqb c quote then Some (EmptyString, r)
      else if Ascii.eqb c backslash then
        match r with
        | String e r1 =>
            if is_simple_escape e then
              match scan_string r1 with
              | Some (raw, rest) => Some (String c (String e raw), rest)
              | None => None
              end
            else if Ascii.eqb e "u" then
              match r1 with
              | String h1 (String h2 (String h3 (String h4 r2))) =>
                  if is_hex h1 && is_hex h2 && is_hex h3 && is_hex h4 then
                    match scan_string r2 with
                    | Some (raw, rest) =>
                        Some (String c (String e (String h1 (String h2
                                (String h3 (String h4 raw))))), rest)
                    | None => None
                    end
                  else None
              | _ => None
              end
            else None
        | EmptyString => None
        end
      else if (nat_of_ascii c <? 32)%nat then None
      else
        match scan_string r with
        | Some (raw, rest) => Some (String c raw, rest)
        | None => None
        end
  end.

Fixpoint scan_digits (s : string) : string * string :=
  match s with
  | String c r =>
      if is_digit c then let '(ds, rest) := scan_digits r in (String c ds, rest)
      else (EmptyString, s)
  | EmptyString => (EmptyString, s)
  end.

(** The integer part: a lone zero, or a non-zero digit followed by digits. *)
Definition scan_int (s : string) : option (string * string) :=
  match s with
  | String c r =>
      if Ascii.eqb c "0" then Some ("0", r)
      else if is_digit c then
        let '(ds, rest) := scan_digits r in Some (String c ds, rest)
      else None
  | EmptyString => None
  end.

(** The optional fraction: a dot followed by at least one digit. *)
Definition scan_frac (s : string) : string * string :=
  match s with
  | String c r =>
      if Ascii.eqb c "." then
        match scan_digits r with
        | (EmptyString, _) => (EmptyString, s)
        | (ds, rest) => (String c ds, rest)
        end
      else (EmptyString, s)
  | EmptyString => (EmptyString, s)
  end.

(** The optional exponent: [e] or [E], an optional sign, at least one digit. *)
Definition scan_exp (s : string) : string * string :=
  match s with
  | String c r =>
      if Ascii.eqb c "e" || Ascii.eqb c "E" then
        let '(sign, r1) :=
          match r with
          | String g r' =>
              if Ascii.eqb g "-" || Ascii.eqb g "+"
              then (String g EmptyString, r') else (EmptyString, r)
          | EmptyString => (EmptyString, r)
          end in
        match scan_digits r1 with
        | (EmptyString, _) => (EmptyString, s)
        | (ds, rest) => (String c (sign +:+ ds), rest)
        end
      else (EmptyString, s)
  | EmptyString => (EmptyString, s)
  end.

(** [NUMBER_RE]: optional minus sign, integer part, optional fraction,
    optional exponent. *)
Definition scan_number (s : string) : option (string * string) :=
  let '(sign, s1) :=
    match s with
    | String c r => if Ascii.eqb c "-" then ("-", r) else (EmptyString, s)
    | EmptyString => (EmptyString, s)
    end in
  match scan_int s1 with
  | Some (i, s2) =>
      let '(f, s3) := scan_frac s2 in
      let '(e, s4) := scan_exp s3 in
      Some (sign +:+ i +:+ f +:+ e, s4)
  | None => None
  end.

(** The constants of [scan_once]: [null], [true], [false] and the three
    non-standard floats. *)
Definition scan_constant (s : string) : option (json * string) :=
  match Py.strip_prefix "null" s with
  | Some r => Some (JNull, r)
  | None =>
  match Py.strip_prefix "true" s with
  | Some r => Some (JBool true, r)
  | None =>
  match Py.strip_prefix "false" s with
  | Some r => Some (JBool false, r)
  | None =>
  match Py.strip_prefix "NaN" s with
  | Some r => Some (JNumber "NaN", r)
  | None =>
  match Py.strip_prefix "Infinity" s with
  | Some r => Some (JNumber "Infinity", r)
  | None =>
  match Py.strip_prefix "-Infinity" s with
  | Some r => Some (JNumber "-Infinity", r)
  | None => None
  end end end end end end.

(** [scan_once], [JSONArray] and [JSONObject].  The input [s] of
    [scan_value] starts at the value (white space already skipped);
    [scan_items] starts at an array element, [scan_members] at the opening
    quote of a member name. *)
Fixpoint scan_value (fuel : nat) (s : string) : option (json * string) :=
  match fuel with
  | O => None
  | S fuel =>
      match s with
      | EmptyString => None
      | String c r =>
          if Ascii.eqb c quote then
            match scan_string r with
            | Some (raw, rest) => Some (JString raw, rest)
            | None => None
            end
          else if Ascii.eqb c "{" then
            match skip_ws r with
            | String d r1 =>
                if Ascii.eqb d "}" then Some (JObject [], r1)
                else scan_members fuel (String d r1) []
            | EmptyString => None
            end
          else if Ascii.eqb c "[" then
            match skip_ws r with
            | String d r1 =>
                if Ascii.eqb d "]" then Some (JArray [], r1)
                else scan_items fuel (String d r1) []
            | EmptyString => None
            end
          else
            match scan_number s with
            | Some (lit, rest) => Some (JNumber lit, rest)
            | None => scan_constant s
            end
      end
  end
with scan_items (fuel : nat) (s : string) (acc : list json)
     : option (json * string) :=
  match fuel with
  | O => None
  | S fuel =>
      match scan_value fuel s with
      | Some (v, rest) =>
          match skip_ws rest with
          | String d r1 =>
              if Ascii.eqb d "," then scan_items fuel (skip_ws r1) (v :: acc)
              else if Ascii.eqb d "]" then Some (JArray (rev (v :: acc)), r1)
              else None
          | EmptyString => None
          end
      | None => None
      end
  end
with scan_members (fuel : nat) (s : string) (acc : list (string * json))
     : option (json * string) :=
  match fuel with
  | O => None
  | S fuel =>
      match s with
      | String q r =>
          if Ascii.eqb q quote then
            match scan_string r with
            | Some (key, rest) =>
                match skip_ws rest with
                | String d r1 =>
                    if Ascii.eqb d ":" then
                      match scan_value fuel (skip_ws r1) with
                      | Some (v, rest') =>
                          match skip_ws rest' with
                          | String d' r2 =>
                              if Ascii.eqb d' "," then
                                scan_members fuel (skip_ws r2) ((key, v) :: acc)
                              else if Ascii.eqb d' "}" then
                                Some (JObject (rev ((key, v) :: acc)), r2)
                              else None
                          | EmptyString => None
                          end
                      | None => None
                      end
                    else None
                | EmptyString => None
                end
            | None => None
            end
          else None
      | EmptyString => None
      end
  end.

(** [json.loads(s)]: one value between optional white space, nothing after
    it; [None] stands for [JSONDecodeError]. *)
Definition loads (s : string) : option json :=
  match scan_value (2 * String.length s + 2) (skip_ws s) with
  | Some (v, rest) =>
      match skip_ws rest with
      | EmptyString => Some v
      | _ => None
      end
  | None => None
  end.

End Json.
Export Json(json(..)).


(** ** Exceptions, results and HTTP responses *)

(** [ValidationError] names the pydantic model that refused its input,
    [DataError] the query argument the driver refused to encode. *)
Inductive exn :=
| HTTPException (status_code : nat) (detail : string)
| JSONDecodeError
| ValidationError (model : string)
| FileNotFoundError (path : string)
| IsADirectoryError (path : string)
| SameFileError (path : string)
| UniqueViolationError
| StringDataRightTruncationError
| InvalidTextRepresentationError
| DataError (argument : string)
| NameError (name : string)
| AttributeError (object name : string).

(** [str(n)] for an [int]. *)
Definition str_int (n : Z) : string := NilZero.string_of_int (Z.to_int n).

(** [str(e)], as interpolated into the [detail] texts.  The texts of the
    interpreter's and the framework's own exceptions are theirs; the texts
    of the decoder, of pydantic, of the driver and of the server, which go
    on with positions, values, addresses and constraint names, are cut down
    to their head. *)
Definition str_exn (e : exn) : string :=
  match e with
  | HTTPException status_code detail =>
      str_int (Z.of_nat status_code) +:+ ": " +:+ detail
  | JSONDecodeError => "Expecting value"
  | ValidationError model => "1 validation error for " +:+ model
  | FileNotFoundError path => "[Errno 2] No such file or directory: '" +:+ path +:+ "'"
  | IsADirectoryError path => "[Errno 21] Is a directory: '" +:+ path +:+ "'"
  | SameFileError path => "'" +:+ path +:+ "' and '" +:+ path +:+ "' are the same file"
  | UniqueViolationError => "duplicate key value violates unique constraint"
  | StringDataRightTruncationError => "value too long for type character varying(255)"
  | InvalidTextRepresentationError => "invalid input syntax for type json"
  | DataError argument => "invalid input for query argument " +:+ argument
  | NameError name => "name '" +:+ name +:+ "' is not defined"
  | AttributeError object name => object +:+ " has no attribute '" +:+ name +:+ "'"
  end.

Inductive result (A : Type) :=
| Return (a : A)
| Raise (e : exn).
Arguments Return {A} a.
Arguments Raise {A} e.

(** What the framework sends back: the handler's value under the route's
    success status, the status and detail of an [HTTPException], and 500 for
    any other exception that escapes the handler. *)
Inductive response (A : Type) :=
| Response (status_code : nat) (body : A)
| ErrorResponse (status_code : nat) (detail : string).
Arguments Response {A} status_code body.
Arguments ErrorResponse {A} status_code detail.

Definition respond {A : Type} (success_status : nat) (r : result A) : response A :=
  match r with
  | Return a => Response success_status a
  | Raise (HTTPException code detail) => ErrorResponse code detail
  | Raise _ => ErrorResponse 500 "Internal Server Error"
  end.

Definition status_of {A : Type} (r : response A) : nat :=
  match r with
  | Response code _ => code
  | ErrorResponse code _ => code
  end.

(** ** Data model ([models.py], [app/models/]) *)

Module VersionCreate.
Record t := { name : string; description : option string; metadata : option json }.
End VersionCreate.

Module Version.
Record t := {
  id : Z;
  name : string;
  description : option string;
  artifact_path : string;
  created_at : Z;
  metadata : option json
}.
End Version.

Module UserInDB.
Record t := {
  id : Z;
  username : string;
  email : option string;
  hashed_password : string;
  disabled : bool;
  roles : list string
}.
End UserInDB.

Module Token.
Record t := { access_token : string; token_type : string }.
End Token.

(** The multipart file part of an upload: [file.filename] and what
    [await file.read()] yields. *)
Record UploadFile := { filename : string; content : list Byte.byte }.

(** The claims handed to [jwt.encode]. *)
Record Claims := { sub : string; claim_roles : list string; exp : Z }.

(** ** The world: directories and files on disk, the two tables, and the
    history of the operations issued to them *)

(** [dirs] are the directories that exist, [files] the regular files with
    their bytes, both by path as the program spells it.  At import the
    modules create "artifacts" and "current_active_artifact"
    ([os.makedirs(..., exist_ok=True)]). *)
Record FileSystem := {
  dirs : gset string;
  files : gmap string (list Byte.byte)
}.

(** [versions] is the heap of the table [versions] in insertion order,
    [versions_id_seq] the last value drawn from the sequence behind
    [id SERIAL]. *)
Record Database := {
  versions : list Version.t;
  versions_id_seq : Z;
  users : list UserInDB.t
}.

Inductive event :=
| EvWrite (path : string) (ok : bool)
| EvUnlink (path : string)
| EvCopy (src dst : string) (ok : bool)
| EvInsert (name : string) (ok : bool).

Record World := {
  fs : FileSystem;
  db : Database;
  trace : list event
}.

Definition with_files (w : World) (f : gmap string (list Byte.byte)) : World :=
  {| fs := {| dirs := dirs (fs w); files := f |}; db := db w; trace := trace w |}.

Definition with_db (w : World) (d : Database) : World :=
  {| fs := fs w; db := d; trace := trace w |}.

Definition log (w : World) (e : event) : World :=
  {| fs := fs w; db := db w; trace := trace w ++ [e] |}.

(** ** Effects: a state monad over the world with Python's exceptions *)

Definition M (A : Type) : Type := World → result A * World.

Definition ret {A : Type} (a : A) : M A := λ w, (Return a, w).

Definition raise {A : Type} (e : exn) : M A := λ w, (Raise e, w).

Definition bind {A B : Type} (m : M A) (k : A → M B) : M B :=
  λ w, match m w with
       | (Return a, w') => k a w'
       | (Raise e, w') => (Raise e, w')
       end.

(** [try: m except Exception as e: h(e)] *)
Definition try_except {A : Type} (m : M A) (h : exn → M A) : M A :=
  λ w, match m w with
       | (Return a, w') => (Return a, w')
       | (Raise e, w') => h e w'
       end.

#[global] Instance M_ret : MRet M := @ret.
#[global] Instance M_bind : MBind M := λ A B k m, bind m k.

(** [for x in l: body(x)] *)
Fixpoint for_each {A : Type} (l : list A) (body : A → M unit) : M unit :=
  match l with
  | [] => ret ()
  | x :: l' => body x;; for_each l' body
  end.

(** [[f(x) for x in l]] *)
Fixpoint map_m {A B : Type} (f : A → M B) (l : list A) : M (list B) :=
  match l with
  | [] => ret []
  | x :: l' => y ← f x; ys ← map_m f l'; ret (y :: ys)
  end.

(** ** Name resolution

    A global name that a function body refers to is looked up when the
    statement runs; a name the module never bound raises [NameError], an
    attribute a module does not define raises [AttributeError]. *)

Definition load_global (module_globals : list string) (x : string) : M unit :=
  if bool_decide (x ∈ module_globals) then ret () else raise (NameError x).

Definition load_attr (object : string) (attributes : list string) (x : string) : M unit :=
  if bool_decide (x ∈ attributes) then ret () else raise (AttributeError object x).

(** The attributes of the standard module [os] that the repository refers to
    and that [os] defines. *)
Definition os_attributes : list string :=
  ["path"; "makedirs"; "listdir"; "unlink"].

(** The attributes of an asyncpg connection that the repository refers to
    and that the connection has. *)
Definition connection_attributes : list string :=
  ["fetchrow"; "fetch"; "execute"; "transaction"].

(** ** File system operations ([aiofiles], [os], [shutil]) *)

Module Os.

(** [async with aiofiles.open(path, "wb") as buffer: await buffer.write(data)]:
    the directory of [path] has to exist and [path] must not be a directory,
    nor name one by a trailing slash; the file is created or replaced. *)
Definition open_wb_write (path : string) (data : list Byte.byte) : M unit :=
  λ w,
    if bool_decide (path ∈ dirs (fs w)) then
      (Raise (IsADirectoryError path), log w (EvWrite path false))
    else if bool_decide (Py.dirname path ∈ dirs (fs w)) then
      if Py.endswith Py.slash path then
        (Raise (IsADirectoryError path), log w (EvWrite path false))
      else
        (Return (), log (with_files w (<[path := data]> (files (fs w)))) (EvWrite path true))
    else
      (Raise (FileNotFoundError path), log w (EvWrite path false)).

(** The name under which [p] is an entry of directory [d], if it is one. *)
Definition entry_name (d p : string) : option string :=
  match Py.strip_prefix (d +:+ "/") p with
  | Some n => if Py.is_empty n || Py.contains Py.slash n then None else Some n
  | None => None
  end.

(** [os.listdir(d)]: the names of the files and directories directly in [d]. *)
Definition listdir (d : string) : M (list string) :=
  λ w,
    if bool_decide (d ∈ dirs (fs w)) then
      (Return (omap (entry_name d) (elements (dom (files (fs w)) ∪ dirs (fs w)))), w)
    else (Raise (FileNotFoundError d), w).

(** [os.path.isfile(p)] *)
Definition isfile (p : string) : M bool :=
  λ w, (Return (bool_decide (is_Some (files (fs w) !! p))), w).

(** [os.unlink(p)] *)
Definition unlink (p : string) : M unit :=
  λ w,
    match files (fs w) !! p with
    | Some _ => (Return (), log (with_files w (delete p (files (fs w)))) (EvUnlink p))
    | None => (Raise (FileNotFoundError p), w)
    end.

(** [shutil.copy(src, dst)]: into [dst] when it is a directory, onto [dst]
    otherwise; returns the path written. *)
Definition copy (src dst : string) : M string :=
  λ w,
    let target :=
      if bool_decide (dst ∈ dirs (fs w)) then Py.join dst (Py.basename src) else dst in
    match files (fs w) !! src with
    | None =>
        (Raise (if bool_decide (src ∈ dirs (fs w)) then IsADirectoryError src
                else FileNotFoundError src),
         log w (EvCopy src target false))
    | Some data =>
        if bool_decide (src = target) then
          (Raise (SameFileError src), log w (EvCopy src target false))
        else if bool_decide (target ∈ dirs (fs w)) then
          (Raise (IsADirectoryError target), log w (EvCopy src target false))
        else if bool_decide (Py.dirname target ∈ dirs (fs w)) then
          (Return target,
           log (with_files w (<[target := data]> (files (fs w)))) (EvCopy src target true))
        else
          (Raise (FileNotFoundError target), log w (EvCopy src target false))
    end.

End Os.

(** ** The tables ([database.py], [app/db/init_db.py])

<<
    CREATE TABLE IF NOT EXISTS versions (
        id SERIAL PRIMARY KEY,
        name VARCHAR(255) NOT NULL UNIQUE,
        description TEXT,
        artifact_path VARCHAR(255) NOT NULL,
        created_at TIMESTAMP WITH TIME ZONE DEFAULT CURRENT_TIMESTAMP,
        metadata JSONB
    );
>>
*)

Module Pg.

Definition with_versions (d : Database) (rows : list Version.t) (seq : Z) : Database :=
  {| versions := rows; versions_id_seq := seq; users := users d |}.

Definition name_taken (name : string) (rows : list Version.t) : bool :=
  existsb (λ r, String.eqb (Version.name r) name) rows.

(** What a call hands to the driver for a parameter of type [jsonb]:
    [None], a [str], or the adapter object [psycopg2.extras.Json(obj)] of
    another driver. *)
Inductive jsonb_arg :=
| ArgNone
| ArgStr (text : string)
| ArgJson (adapted : option json).

(** asyncpg encodes the argument of a [jsonb] parameter as text: [None] is
    NULL, a [str] is sent as it is, and any other object is refused with
    [DataError] before the statement is executed. *)
Definition encode_jsonb (argument : string) (a : jsonb_arg) : result (option string) :=
  match a with
  | ArgNone => Return None
  | ArgStr text => Return (Some text)
  | ArgJson _ => Raise (DataError argument)
  end.

(** The values of the column type [int4], that of [id SERIAL]; the driver
    refuses an [int] outside of it as the argument of such a parameter. *)
Definition int4 (n : Z) : bool := (-2147483648 <=? n) && (n <=? 2147483647).

(** The statement [INSERT INTO versions (name, description, artifact_path,
    metadata) VALUES ($1, $2, $3, $4::jsonb) RETURNING ...] on the server,
    with its parameters bound.  [now] is [CURRENT_TIMESTAMP] of the
    statement.  A value longer than its [VARCHAR(255)] column is refused; a
    taken [name] violates the [UNIQUE] constraint, after the statement has
    drawn its [id] from the sequence. *)
Definition insert_row (name : string) (description : option string)
    (artifact_path : string) (metadata : option json) (now : Z)
    : M (option Version.t) :=
  λ w,
    if (255 <? String.length name)%nat || (255 <? String.length artifact_path)%nat then
      (Raise StringDataRightTruncationError, log w (EvInsert name false))
    else
      let id := versions_id_seq (db w) + 1 in
      if name_taken name (versions (db w)) then
        (Raise UniqueViolationError,
         log (with_db w (with_versions (db w) (versions (db w)) id)) (EvInsert name false))
      else
        let row := {| Version.id := id; Version.name := name;
                      Version.description := description;
                      Version.artifact_path := artifact_path;
                      Version.created_at := now;
                      Version.metadata := metadata |} in
        (Return (Some row),
         log (with_db w (with_versions (db w) (versions (db w) ++ [row]) id))
             (EvInsert name true)).

(** [conn.fetchrow] of that statement with the arguments of the call: the
    driver encodes them first, the server reads the text of [$4] as JSON. *)
Definition insert_version (name : string) (description : option string)
    (artifact_path : string) (metadata : jsonb_arg) (now : Z)
    : M (option Version.t) :=
  match encode_jsonb "$4" metadata with
  | Raise e => raise e
  | Return None => insert_row name description artifact_path None now
  | Return (Some text) =>
      match Json.loads text with
      | Some value => insert_row name description artifact_path (Some value) now
      | None => λ w, (Raise InvalidTextRepresentationError, log w (EvInsert name false))
      end
  end.

(** [SELECT ... FROM versions WHERE id = $1] through [conn.fetchrow]. *)
Definition select_version (id : Z) : M (option Version.t) :=
  λ w,
    if int4 id
    then (Return (List.find (λ r, Z.eqb (Version.id r) id) (versions (db w))), w)
    else (Raise (DataError "$1"), w).

(** The only sort key of [ORDER BY created_at DESC]. *)
Definition created_at_desc (a b : Version.t) : Prop :=
  Version.created_at b ≤ Version.created_at a.

#[global] Instance created_at_desc_dec : RelDecision created_at_desc :=
  λ a b, Z_le_dec (Version.created_at b) (Version.created_at a).

(** What SQL promises of [SELECT ... FROM versions ORDER BY created_at DESC]:
    every row once, in an order that is descending in the sort key.  The
    order of rows with equal keys is left to the server. *)
Definition ordered_by_created_at_desc (rows out : list Version.t) : Prop :=
  out ≡ₚ rows ∧ Sorted created_at_desc out.

(** [SELECT ... FROM versions ORDER BY created_at DESC] through [conn.fetch],
    computed by a merge sort of the heap on that key. *)
Definition select_versions : M (list Version.t) :=
  λ w, (Return (merge_sort created_at_desc (versions (db w))), w).

(** [SELECT ... FROM users WHERE username = $1] through [conn.fetchrow]. *)
Definition select_user (username : string) : M (option UserInDB.t) :=
  λ w, (Return (List.find (λ u, String.eqb (UserInDB.username u) username) (users (db w))), w).

End Pg.

(** ** Requests *)

(** [OAuth2PasswordRequestForm] *)
Record LoginForm := { form_username : string; form_password : string }.

(** The content of the JSON message of a successful restore. *)
Record RestoreMessage := { restored_version : Z; restored_to : string }.

(** [VersionCreate(name=..., description=..., metadata=...)]: the model
    validates [metadata: Optional[Dict[str, Any]]]; the decoded [null] is
    Python's [None]. *)
Definition VersionCreate_init (name : string) (description : option string)
    (metadata : option json) : M VersionCreate.t :=
  match metadata with
  | Some JNull | None =>
      mret {| VersionCreate.name := name; VersionCreate.description := description;
              VersionCreate.metadata := None |}
  | Some v =>
      if Json.is_dict v then
        mret {| VersionCreate.name := name; VersionCreate.description := description;
                VersionCreate.metadata := Some v |}
      else raise (ValidationError "VersionCreate")
  end.

(** [Version(id=row['id'], ..., metadata=row['metadata'])]: the driver hands
    the value of a [jsonb] column back as its text, a [str], which the field
    [metadata: Optional[Dict[str, Any]]] refuses; NULL comes back as [None]
    and passes. *)
Definition Version_init (row : Version.t) : M Version.t :=
  match Version.metadata row with
  | None => mret row
  | Some _ => raise (ValidationError "Version")
  end.

(** A create-version request between its suspension points: before the
    upload is written, between the write and the [INSERT], and completed. *)
Inductive save_task :=
| Uploading (name : string) (file : UploadFile) (description : option string)
            (metadata : option string) (uuid4 : string) (now : Z)
| Inserting (name : string) (description : option string)
            (metadata : option string) (unique_filename : string) (now : Z)
| Finished (r : result Version.t).

(** ** The flat service: [crud.py], [users.py], [main.py]

    The handlers are embedded from the point where their dependencies
    ([get_db_connection], [get_current_active_user]) have been resolved;
    [current_user] only feeds the log lines.  What the process draws from
    its environment during a call is an argument: [uuid4] is
    [str(uuid.uuid4())], [now] the server's clock. *)

Module Legacy.

Definition ARTIFACTS_DIR : string := "artifacts".
Definition CURRENT_ACTIVE_ARTIFACT_DIR : string := "current_active_artifact".

(** The names bound in [main.py] when a request arrives: its imports, then
    what the module defines. *)
Definition main_globals : list string :=
  ["os"; "uuid"; "json"; "logging"; "aiofiles";
   "FastAPI"; "UploadFile"; "File"; "HTTPException"; "Depends"; "status"; "APIRouter";
   "JSONResponse"; "OAuth2PasswordRequestForm";
   "Optional"; "Dict"; "Any"; "List"; "Connection";
   "VersionCreate"; "Version"; "User"; "UserCreate"; "Token"; "TokenData"; "UserInDB";
   "create_version"; "get_version"; "get_versions"; "restore_version"; "ARTIFACTS_DIR";
   "connect_to_db"; "close_db_connection"; "get_db_connection"; "init_db_schema";
   "oauth2_scheme"; "decode_access_token"; "verify_password"; "create_access_token";
   "get_user_by_username"; "create_db_user"; "get_all_users";
   "logger"; "app"; "get_current_user"; "get_current_active_user";
   "get_current_admin_user"; "api_v1_router"; "login_for_access_token";
   "create_user_endpoint"; "read_users_me"; "read_users"; "save_artifact_version";
   "get_artifact_version"; "list_artifact_versions"; "restore_artifact_version";
   "refactor_guidance"].

Section Handlers.

(** [json.loads]; [None] is [JSONDecodeError]. *)
Variable json_loads : string → option json.
(** [verify_password] and [create_access_token] of the module [auth], which
    [main.py] imports: the token for the claims, an expiry delta in seconds
    and the clock. *)
Variable verify_password : string → string → bool.
Variable create_access_token : string → list string → Z → Z → string.

(** *** [crud.py] *)

(** [artifact_path] as [create_version] computes it. *)
Definition artifact_path (artifact_filename : string) : string :=
  Py.join ARTIFACTS_DIR artifact_filename.

Definition create_version (version : VersionCreate.t) (artifact_filename : string)
    (now : Z) : M Version.t :=
  let artifact_path := artifact_path artifact_filename in
  try_except
    (row ← Pg.insert_version (VersionCreate.name version)
             (VersionCreate.description version) artifact_path
             (Pg.ArgJson (VersionCreate.metadata version)) now;
     match row with
     | Some row => Version_init row
     | None => raise (HTTPException 500 "Failed to create version in database.")
     end)
    (λ e,
       match e with
       | UniqueViolationError =>
           raise (HTTPException 409
                    ("Version with name '" +:+ VersionCreate.name version
                     +:+ "' already exists."))
       | _ =>
           raise (HTTPException 500
                    ("Database error during version creation: " +:+ str_exn e))
       end).

Definition get_version (version_id : Z) : M (option Version.t) :=
  try_except
    (row ← Pg.select_version version_id;
     match row with
     | Some row => version ← Version_init row; mret (Some version)
     | None => mret None
     end)
    (λ e, raise (HTTPException 500
                   ("Database error during version retrieval: " +:+ str_exn e))).

Definition get_versions : M (list Version.t) :=
  try_except
    (rows ← Pg.select_versions;
     map_m Version_init rows)
    (λ e, raise (HTTPException 500
                   ("Database error during versions listing: " +:+ str_exn e))).

(** The function handed to the executor to empty the active directory:
    [lambda: [os.unlink(os.path.join(DIR, f)) for f in os.listdir(DIR)
              if os.path.isfile(os.path.join(DIR, f))]]. *)
Definition clear_active_directory : M unit :=
  names ← Os.listdir CURRENT_ACTIVE_ARTIFACT_DIR;
  for_each names
    (λ f, is_file ← Os.isfile (Py.join CURRENT_ACTIVE_ARTIFACT_DIR f);
          if is_file : bool
          then Os.unlink (Py.join CURRENT_ACTIVE_ARTIFACT_DIR f)
          else mret ()).

(** Both file operations are reached through [conn.loop]; a
    [run_in_executor] that is reached runs its function to the end on the
    worker pool and hands back its outcome. *)
Definition restore_version (version_id : Z) : M (option string) :=
  version ← get_version version_id;
  match version with
  | None => mret None
  | Some version =>
      try_except
        (load_attr "'Connection' object" connection_attributes "loop";;
         clear_active_directory;;
         let destination_path :=
           Py.join CURRENT_ACTIVE_ARTIFACT_DIR
                   (Py.basename (Version.artifact_path version)) in
         load_attr "'Connection' object" connection_attributes "loop";;
         Os.copy (Version.artifact_path version) destination_path;;
         mret (Some destination_path))
        (λ e, raise (HTTPException 500 ("Failed to restore artifact: " +:+ str_exn e)))
  end.

(** *** [users.py] *)

Definition get_user_by_username (username : string) : M (option UserInDB.t) :=
  try_except
    (Pg.select_user username)
    (λ e, raise (HTTPException 500 "Database error fetching user.")).

(** *** [main.py] *)

Definition login_for_access_token (form_data : LoginForm) (now : Z) : M Token.t :=
  user ← get_user_by_username (form_username form_data);
  match user with
  | Some user =>
      if verify_password (form_password form_data) (UserInDB.hashed_password user) then
        load_global main_globals "timedelta";;
        let access_token_expires := 30 * 60 in
        let access_token :=
          create_access_token (UserInDB.username user) (UserInDB.roles user)
                              access_token_expires now in
        mret {| Token.access_token := access_token; Token.token_type := "bearer" |}
      else raise (HTTPException 401 "Incorrect username or password")
  | None => raise (HTTPException 401 "Incorrect username or password")
  end.

(** The two [except] clauses closing [save_artifact_version]:
    [except HTTPException: raise] and
    [except Exception as e: raise HTTPException(500, ...)]. *)
Definition save_except (e : exn) : M Version.t :=
  match e with
  | HTTPException _ _ => raise e
  | _ => raise (HTTPException 500 ("Failed to save version: " +:+ str_exn e))
  end.

(** [if metadata: try: json.loads(metadata) except JSONDecodeError: raise 400] *)
Definition parse_metadata (metadata : option string) : M (option json) :=
  match metadata with
  | Some text =>
      if Py.is_empty text then mret None
      else
        match json_loads text with
        | Some v => mret (Some v)
        | None => raise (HTTPException 400 "Invalid metadata JSON format.")
        end
  | None => mret None
  end.

Definition save_artifact_version (name : string) (file : UploadFile)
    (description : option string) (metadata : option string)
    (uuid4 : string) (now : Z) : M Version.t :=
  try_except
    (let file_extension := (Py.splitext (filename file)).2 in
     let unique_filename := uuid4 +:+ file_extension in
     let file_path := Py.join ARTIFACTS_DIR unique_filename in
     Os.open_wb_write file_path (content file);;
     parsed_metadata ← parse_metadata metadata;
     version_create ← VersionCreate_init name description parsed_metadata;
     create_version version_create unique_filename now)
    save_except.

Definition get_artifact_version (version_id : Z) : M Version.t :=
  version ← get_version version_id;
  match version with
  | Some version => mret version
  | None =>
      raise (HTTPException 404
               ("Version with ID " +:+ str_int version_id +:+ " not found."))
  end.

Definition list_artifact_versions : M (list Version.t) := get_versions.

Definition restore_artifact_version (version_id : Z) : M RestoreMessage :=
  restored_path ← restore_version version_id;
  match restored_path with
  | Some path =>
      if Py.is_empty path
      then raise (HTTPException 404
                    ("Version with ID " +:+ str_int version_id
                     +:+ " not found or failed to restore."))
      else mret {| restored_version := version_id; restored_to := path |}
  | None =>
      raise (HTTPException 404
               ("Version with ID " +:+ str_int version_id
                +:+ " not found or failed to restore."))
  end.

(** One turn of a create-version request on the event loop: from its start
    to the end of the file write, and from there to its end. *)
Definition save_step (t : save_task) (w : World) : save_task * World :=
  match t with
  | Uploading name file description metadata uuid4 now =>
      let unique_filename := uuid4 +:+ (Py.splitext (filename file)).2 in
      match Os.open_wb_write (Py.join ARTIFACTS_DIR unique_filename) (content file) w with
      | (Return _, w') => (Inserting name description metadata unique_filename now, w')
      | (Raise e, w') => let '(r, w'') := save_except e w' in (Finished r, w'')
      end
  | Inserting name description metadata unique_filename now =>
      let '(r, w') :=
        try_except
          (parsed_metadata ← parse_metadata metadata;
           version_create ← VersionCreate_init name description parsed_metadata;
           create_version version_create unique_filename now)
          save_except w in
      (Finished r, w')
  | Finished r => (t, w)
  end.

End Handlers.

End Legacy.

(** ** The package: [app/services/artifact_storage.py],
    [app/crud/versions.py], [app/core/security.py], [app/api/v1/endpoints/] *)

Module App.

Definition ARTIFACTS_DIR : string := "artifacts".
Definition CURRENT_ACTIVE_ARTIFACT_DIR : string := "current_active_artifact".

(** The names bound in [app/api/v1/endpoints/auth.py]. *)
Definition auth_globals : list string :=
  ["logging"; "timedelta"; "APIRouter"; "Depends"; "HTTPException"; "status";
   "OAuth2PasswordRequestForm"; "Connection"; "User"; "UserCreate"; "Token";
   "users_crud"; "verify_password"; "create_access_token"; "get_db";
   "get_current_admin_user"; "get_settings"; "logger"; "settings"; "router";
   "login_for_access_token"; "create_user_endpoint"].

Section Handlers.

(** [json.loads]; [None] is [JSONDecodeError]. *)
Variable json_loads : string → option json.
(** [pwd_context.verify] of passlib and [jwt.encode] of jose under the
    configured key and algorithm. *)
Variable pwd_context_verify : string → string → bool.
Variable jwt_encode : Claims → string.
(** [get_settings().ACCESS_TOKEN_EXPIRE_MINUTES] *)
Variable ACCESS_TOKEN_EXPIRE_MINUTES : Z.

(** *** [app/services/artifact_storage.py] *)

Definition save_artifact_file (file : UploadFile) (unique_filename : string) : M string :=
  let file_path := Py.join ARTIFACTS_DIR unique_filename in
  try_except
    (Os.open_wb_write file_path (content file);;
     mret file_path)
    (λ e, raise (HTTPException 500 ("Failed to save artifact file: " +:+ str_exn e))).

(** The function handed to the executor to empty the active directory:
    [lambda: [os.unlink(os.path.join(DIR, f)) for f in os.listdir(DIR)
              if os.path.isfile(os.path.join(DIR, f))]]. *)
Definition clear_active_directory : M unit :=
  names ← Os.listdir CURRENT_ACTIVE_ARTIFACT_DIR;
  for_each names
    (λ f, is_file ← Os.isfile (Py.join CURRENT_ACTIVE_ARTIFACT_DIR f);
          if is_file : bool
          then Os.unlink (Py.join CURRENT_ACTIVE_ARTIFACT_DIR f)
          else mret ()).

(** Both file operations are reached through [os.get_event_loop()]. *)
Definition restore_artifact_file (source_path : string) : M (option string) :=
  try_except
    (load_attr "module 'os'" os_attributes "get_event_loop";;
     clear_active_directory;;
     let destination_path :=
       Py.join CURRENT_ACTIVE_ARTIFACT_DIR (Py.basename source_path) in
     load_attr "module 'os'" os_attributes "get_event_loop";;
     Os.copy source_path destination_path;;
     mret (Some destination_path))
    (λ e, raise (HTTPException 500 ("Failed to restore artifact: " +:+ str_exn e))).

(** *** [app/crud/versions.py] *)

(** [artifact_path] as [create_version] computes it. *)
Definition artifact_path (artifact_filename artifact_base_path : string) : string :=
  artifact_base_path +:+ "/" +:+ artifact_filename.

Definition create_version (version : VersionCreate.t) (artifact_filename : string)
    (artifact_base_path : string) (now : Z) : M Version.t :=
  let artifact_path := artifact_path artifact_filename artifact_base_path in
  try_except
    (row ← Pg.insert_version (VersionCreate.name version)
             (VersionCreate.description version) artifact_path
             (Pg.ArgJson (VersionCreate.metadata version)) now;
     match row with
     | Some row => Version_init row
     | None => raise (HTTPException 500 "Failed to create version in database.")
     end)
    (λ e,
       match e with
       | UniqueViolationError =>
           raise (HTTPException 409
                    ("Version with name '" +:+ VersionCreate.name version
                     +:+ "' already exists."))
       | _ =>
           raise (HTTPException 500
                    ("Database error during version creation: " +:+ str_exn e))
       end).

Definition get_version (version_id : Z) : M (option Version.t) :=
  try_except
    (row ← Pg.select_version version_id;
     match row with
     | Some row => version ← Version_init row; mret (Some version)
     | None => mret None
     end)
    (λ e, raise (HTTPException 500
                   ("Database error during version retrieval: " +:+ str_exn e))).

Definition get_versions : M (list Version.t) :=
  try_except
    (rows ← Pg.select_versions;
     map_m Version_init rows)
    (λ e, raise (HTTPException 500
                   ("Database error during versions listing: " +:+ str_exn e))).

(** *** [app/crud/users.py] *)

(** Modelled from the spec: [app/crud/users.py] is not among the sources;
    [get_user_by_username] is the lookup [get_by_name(username) -> record |
    NotFound] of the ledger contract. *)
Definition get_user_by_username (username : string) : M (option UserInDB.t) :=
  Pg.select_user username.

(** *** [app/core/security.py] *)

Definition verify_password (plain_password hashed_password : string) : bool :=
  pwd_context_verify plain_password hashed_password.

(** [expires_delta] in seconds; a zero [timedelta] is falsy. *)
Definition create_access_token (subject : string) (roles : list string)
    (expires_delta : option Z) (now : Z) : string :=
  let expire :=
    match expires_delta with
    | Some delta => if delta =? 0 then now + ACCESS_TOKEN_EXPIRE_MINUTES * 60
                    else now + delta
    | None => now + ACCESS_TOKEN_EXPIRE_MINUTES * 60
    end in
  jwt_encode {| sub := subject; claim_roles := roles; exp := expire |}.

(** *** [app/api/v1/endpoints/auth.py] *)

Definition login_for_access_token (form_data : LoginForm) (now : Z) : M Token.t :=
  user ← get_user_by_username (form_username form_data);
  match user with
  | Some user =>
      if verify_password (form_password form_data) (UserInDB.hashed_password user) then
        load_global auth_globals "timedelta";;
        let access_token_expires := ACCESS_TOKEN_EXPIRE_MINUTES * 60 in
        let access_token :=
          create_access_token (UserInDB.username user) (UserInDB.roles user)
                              (Some access_token_expires) now in
        mret {| Token.access_token := access_token; Token.token_type := "bearer" |}
      else raise (HTTPException 401 "Incorrect username or password")
  | None => raise (HTTPException 401 "Incorrect username or password")
  end.

(** *** [app/api/v1/endpoints/versions.py] *)

Definition save_except (e : exn) : M Version.t :=
  match e with
  | HTTPException _ _ => raise e
  | _ => raise (HTTPException 500 ("Failed to save version: " +:+ str_exn e))
  end.

Definition parse_metadata (metadata : option string) : M (option json) :=
  match metadata with
  | Some text =>
      if Py.is_empty text then mret None
      else
        match json_loads text with
        | Some v => mret (Some v)
        | None => raise (HTTPException 400 "Invalid metadata JSON format.")
        end
  | None => mret None
  end.

Definition save_artifact_version (name : string) (file : UploadFile)
    (description : option string) (metadata : option string)
    (uuid4 : string) (now : Z) : M Version.t :=
  try_except
    (let file_extension := (Py.splitext (filename file)).2 in
     let unique_filename := uuid4 +:+ file_extension in
     save_artifact_file file unique_filename;;
     parsed_metadata ← parse_metadata metadata;
     version_create ← VersionCreate_init name description parsed_metadata;
     create_version version_create unique_filename ARTIFACTS_DIR now)
    save_except.

Definition get_artifact_version (version_id : Z) : M Version.t :=
  version ← get_version version_id;
  match version with
  | Some version => mret version
  | None =>
      raise (HTTPException 404
               ("Version with ID " +:+ str_int version_id +:+ " not found."))
  end.

Definition list_artifact_versions : M (list Version.t) := get_versions.

Definition restore_artifact_version (version_id : Z) : M RestoreMessage :=
  version ← get_version version_id;
  match version with
  | None =>
      raise (HTTPException 404
               ("Version with ID " +:+ str_int version_id +:+ " not found."))
  | Some version =>
      restored_path ← restore_artifact_file (Version.artifact_path version);
      match restored_path with
      | Some path =>
          if Py.is_empty path
          then raise (HTTPException 500
                        ("Failed to restore artifact for version "
                         +:+ str_int version_id +:+ "."))
          else mret {| restored_version := version_id; restored_to := path |}
      | None =>
          raise (HTTPException 500
                   ("Failed to restore artifact for version "
                    +:+ str_int version_id +:+ "."))
      end
  end.

(** One turn of a create-version request on the event loop. *)
Definition save_step (t : save_task) (w : World) : save_task * World :=
  match t with
  | Uploading name file description metadata uuid4 now =>
      let unique_filename := uuid4 +:+ (Py.splitext (filename file)).2 in
      match save_artifact_file file unique_filename w with
      | (Return _, w') => (Inserting name description metadata unique_filename now, w')
      | (Raise e, w') => let '(r, w'') := save_except e w' in (Finished r, w'')
      end
  | Inserting name description metadata unique_filename now =>
      let '(r, w') :=
        try_except
          (parsed_metadata ← parse_metadata metadata;
           version_create ← VersionCreate_init name description parsed_metadata;
           create_version version_create unique_filename ARTIFACTS_DIR now)
          save_except w in
      (Finished r, w')
  | Finished r => (t, w)
  end.

End Handlers.

End App.

(** ** Scheduling two requests

    The event loop runs one request at a time and switches between them
    where they await; [true] gives the next turn to the first request,
    [false] to the second. *)

Fixpoint run_schedule (step : save_task → World → save_task * World)
    (schedule : list bool) (a b : save_task) (w : World)
    : save_task * save_task * World :=
  match schedule with
  | [] => (a, b, w)
  | true :: rest => let '(a', w') := step a w in run_schedule step rest a' b w'
  | false :: rest => let '(b', w') := step b w in run_schedule step rest a b' w'
  end.

Fixpoint turns (who : bool) (schedule : list bool) : nat :=
  match schedule with
  | [] => 0
  | next :: rest => ((if Bool.eqb next who then 1 else 0) + turns who rest)%nat
  end.

(** ** Vocabulary of the properties *)

(** The text of a version-4 UUID as [str(uuid.uuid4())] prints it: groups of
    8, 4, 4, 4 and 12 lower-case hexadecimal digits separated by hyphens. *)
Definition is_lower_hex (c : ascii) : bool :=
  let n := nat_of_ascii c in
  ((48 <=? n)%nat && (n <=? 57)%nat) || ((97 <=? n)%nat && (n <=? 102)%nat).

Fixpoint hex_run (n : nat) (s : string) : option string :=
  match n with
  | O => Some s
  | S m =>
      match s with
      | String c r => if is_lower_hex c then hex_run m r else None
      | EmptyString => None
      end
  end.

Definition hyphen_then (k : string → bool) (s : option string) : bool :=
  match s with
  | Some (String c r) => Ascii.eqb c "-" && k r
  | _ => false
  end.

Definition is_uuid_str (s : string) : bool :=
  hyphen_then (λ s1,
    hyphen_then (λ s2,
      hyphen_then (λ s3,
        hyphen_then (λ s4,
          match hex_run 12 s4 with
          | Some EmptyString => true
          | _ => false
          end)
        (hex_run 4 s3))
      (hex_run 4 s2))
    (hex_run 4 s1))
  (hex_run 8 s).

(** The order the specification words for [list_all]: descending
    [created_at], ties broken by descending [id]. *)
Definition spec_list_order (a b : Version.t) : Prop :=
  Version.created_at b < Version.created_at a
  ∨ (Version.created_at b = Version.created_at a ∧ Version.id b < Version.id a).



(** No row of the ledger carries [version_id]. *)
Definition id_absent (version_id : Z) (w : World) : Prop :=
  Forall (λ v, Version.id v ≠ version_id) (versions (db w)).

(** The names of the regular files directly inside directory [d]. *)
Definition files_in (d : string) (w : World) : list string :=
  omap (Os.entry_name d) (elements (dom (files (fs w)))).

(** The archive can take a file named [unique_filename]: the directory
    exists and no directory sits at the file's path. *)
Definition archive_accepts (unique_filename : string) (w : World) : Prop :=
  "artifacts" ∈ dirs (fs w) ∧ ("artifacts/" +:+ unique_filename) ∉ dirs (fs w).

(** The metadata text of a request is absent or empty, or decodes to an
    object. *)
Definition metadata_ok (json_loads : string → option json) (metadata : option string) : Prop :=
  match metadata with
  | None => True
  | Some text => text = "" ∨ ∃ members, json_loads text = Some (JObject members)
  end.

Definition metadata_value (json_loads : string → option json) (metadata : option string)
    : option json :=
  match metadata with
  | None => None
  | Some text => if Py.is_empty text then None else json_loads text
  end.

(** The world after [data] has been written to [path]. *)
Definition written (path : string) (data : list Byte.byte) (w : World) : World :=
  log (with_files w (<[path := data]> (files (fs w)))) (EvWrite path true).

(** The user row a login looks at, and whether the form's password passes
    the check against its hash. *)
Definition stored_user (username : string) (w : World) : option UserInDB.t :=
  List.find (λ u, String.eqb (UserInDB.username u) username) (users (db w)).

Definition credentials_match (verify : string → string → bool) (form : LoginForm)
    (w : World) : bool :=
  match stored_user (form_username form) w with
  | Some user => verify (form_password form) (UserInDB.hashed_password user)
  | None => false
  end.

(** The ledger row a restore looks at. *)
Definition stored_version (version_id : Z) (w : World) : option Version.t :=
  List.find (λ r, Version.id r =? version_id) (versions (db w)).

(** A create-version request together with what the process draws while
    serving it. *)
Record SaveRequest := {
  req_name : string;
  req_file : UploadFile;
  req_description : option string;
  req_metadata : option string;
  req_uuid4 : string;
  req_now : Z
}.

Definition unique_filename_of (r : SaveRequest) : string :=
  req_uuid4 r +:+ (Py.splitext (filename (req_file r))).2.

Definition archive_path_of (r : SaveRequest) : string :=
  "artifacts/" +:+ unique_filename_of r.

(** How far a request has come: not yet written, written and waiting for
    its [INSERT], answered. *)
Inductive phase :=
| Pending
| Stored
| Answered (r : result Version.t).

Definition rank (p : phase) : nat :=
  match p with
  | Pending => 0
  | Stored => 1
  | Answered _ => 2
  end.

(** The answer [create_version] keeps for a taken name, and the answer it
    gives when the driver refuses its fourth argument. *)
Definition conflict (name : string) : exn :=
  HTTPException 409 ("Version with name '" +:+ name +:+ "' already exists.").

Definition refused_by_driver : exn :=
  HTTPException 500
    ("Database error during version creation: " +:+ str_exn (DataError "$4")).

Definition task_at (r : SaveRequest) (p : phase) : save_task :=
  match p with
  | Pending =>
      Uploading (req_name r) (req_file r) (req_description r) (req_metadata r)
                (req_uuid4 r) (req_now r)
  | Stored =>
      Inserting (req_name r) (req_description r) (req_metadata r)
                (unique_filename_of r) (req_now r)
  | Answered res => Finished res
  end.

(** The world while two requests [x] and [y] are served from the world
    [w0]: the tables and the directories are what they were, the upload of
    a request that has left its first phase is in the archive, and a
    request that has been answered has been refused by the driver. *)
Definition race_invariant (w0 : World) (x y : SaveRequest) (px py : phase) (w : World) : Prop :=
  dirs (fs w) = dirs (fs w0)
  ∧ db w = db w0
  ∧ (px ≠ Pending → files (fs w) !! archive_path_of x = Some (content (req_file x)))
  ∧ (py ≠ Pending → files (fs w) !! archive_path_of y = Some (content (req_file y)))
  ∧ (∀ r, px = Answered r → r = Raise refused_by_driver)
  ∧ (∀ r, py = Answered r → r = Raise refused_by_driver).

(** A request that passes the handler's own steps in the world [w]: the
    archive takes its upload and its metadata passes the decoder and the
    model. *)
Definition acceptable (json_loads : string → option json) (r : SaveRequest) (w : World) : Prop :=
  is_uuid_str (req_uuid4 r) = true
  ∧ archive_accepts (unique_filename_of r) w
  ∧ metadata_ok json_loads (req_metadata r).

(** The value a call returned, if it returned one. *)
Definition returned {A : Type} (outcome : result A * World) : option A :=
  match outcome.1 with
  | Return a => Some a
  | Raise _ => None
  end.

(** *** Sample data of the closed examples *)

Definition sample_uuid_1 : string := "3f2b8c1e-7a54-4d0b-9c6e-1b2a3c4d5e6f".
Definition sample_uuid_2 : string := "9a1d0e77-52c3-4f6a-8b1e-0c9d8e7f6a5b".

Definition sample_file : UploadFile :=
  {| filename := "model.tar.gz"; content := [Byte.x61; Byte.x62; Byte.x63] |}.

Definition sample_user : UserInDB.t :=
  {| UserInDB.id := 1; UserInDB.username := "alice"; UserInDB.email := None;
     UserInDB.hashed_password := "hash:wonderland"; UserInDB.disabled := false;
     UserInDB.roles := ["user"] |}.

(** The state after start-up: both directories exist and are empty, the
    tables hold one user and no version. *)
Definition fresh_world : World :=
  {| fs := {| dirs := {["artifacts"; "current_active_artifact"]}; files := ∅ |};
     db := {| versions := []; versions_id_seq := 0; users := [sample_user] |};
     trace := [] |}.

(** The same with the archive directory removed. *)
Definition world_without_archive : World :=
  {| fs := {| dirs := {["current_active_artifact"]}; files := ∅ |};
     db := db fresh_world;
     trace := [] |}.

Definition sample_version (id created_at : Z) (name path : string) : Version.t :=
  {| Version.id := id; Version.name := name; Version.description := None;
     Version.artifact_path := path; Version.created_at := created_at;
     Version.metadata := None |}.

(** One archived artifact with its ledger row, nothing restored yet. *)
Definition world_with_version : World :=
  {| fs := {| dirs := {["artifacts"; "current_active_artifact"]};
              files := {["artifacts/3f2b8c1e-7a54-4d0b-9c6e-1b2a3c4d5e6f.gz"
                         := [Byte.x61; Byte.x62; Byte.x63]]} |};
     db := {| versions :=
                [sample_version 1 100 "model-v1"
                   "artifacts/3f2b8c1e-7a54-4d0b-9c6e-1b2a3c4d5e6f.gz"];
              versions_id_seq := 1; users := [sample_user] |};
     trace := [] |}.

(** Two rows with the same [created_at]. *)
Definition world_with_tie : World :=
  {| fs := fs fresh_world;
     db := {| versions :=
                [sample_version 1 100 "a"
                   "artifacts/3f2b8c1e-7a54-4d0b-9c6e-1b2a3c4d5e6f.gz";
                 sample_version 2 100 "b"
                   "artifacts/9a1d0e77-52c3-4f6a-8b1e-0c9d8e7f6a5b.gz"];
              versions_id_seq := 2; users := [sample_user] |};
     trace := [] |}.

Definition sample_request_1 : SaveRequest :=
  {| req_name := "model-v1"; req_file := sample_file; req_description := None;
     req_metadata := None; req_uuid4 := sample_uuid_1; req_now := 100 |}.

Definition sample_request_2 : SaveRequest :=
  {| req_name := "model-v1";
     req_file := {| filename := "other.bin"; content := [Byte.x78] |};
     req_description := Some "second upload"; req_metadata := Some "{}";
     req_uuid4 := sample_uuid_2; req_now := 101 |}.

Definition sample_login : LoginForm :=
  {| form_username := "alice"; form_password := "wonderland" |}.

Definition sample_bad_login : LoginForm :=
  {| form_username := "alice"; form_password := "looking-glass" |}.

(** Stand-ins for the password check and the token encoder in the closed
    examples. *)
Definition sample_verify (plain hashed : string) : bool :=
  String.eqb ("hash:" +:+ plain) hashed.

Definition sample_token (subject : string) (roles : list string) (delta now : Z) : string :=
  "token-for-" +:+ subject.

Definition sample_jwt (c : Claims) : string := "token-for-" +:+ sub c.

(** ** Dependencies of the protected routes ([main.py])

    [get_current_user] reads the subject of the bearer token through
    [decode_access_token] of the module [auth], which [main.py] imports;
    [decode_subject token] stands for [decode_access_token(token).get("sub")]:
    the exception the decoder raises, or the subject, if the payload has
    one. *)

Module LegacyDeps.

Section Dependencies.

Variable decode_subject : string → result (option string).

Definition get_current_user (token : string) : M UserInDB.t :=
  match decode_subject token with
  | Raise e => raise e
  | Return None => raise (HTTPException 401 "Invalid authentication credentials")
  | Return (Some username) =>
      user ← Legacy.get_user_by_username username;
      match user with
      | None => raise (HTTPException 401 "User not found")
      | Some user => mret user
      end
  end.

Definition get_current_active_user (current_user : UserInDB.t) : M UserInDB.t :=
  if UserInDB.disabled current_user
  then raise (HTTPException 400 "Inactive user")
  else mret current_user.

Definition get_current_admin_user (current_user : UserInDB.t) : M UserInDB.t :=
  if bool_decide ("admin" ∈ UserInDB.roles current_user)
  then mret current_user
  else raise (HTTPException 403 "Not enough permissions").

(** [Depends(get_current_active_user)] and [Depends(get_current_admin_user)]
    as the framework resolves them for a request carrying [token]. *)
Definition current_active_user (token : string) : M UserInDB.t :=
  current_user ← get_current_user token;
  get_current_active_user current_user.

Definition current_admin_user (token : string) : M UserInDB.t :=
  current_user ← current_active_user token;
  get_current_admin_user current_user.

End Dependencies.

End LegacyDeps.

(** ** Accounts ([models.py], [app/models/user.py], [users.py], [main.py],
    [app/core/dependencies.py], [app/api/v1/endpoints/users.py])

<<
    CREATE TABLE IF NOT EXISTS users (
        id SERIAL PRIMARY KEY,
        username VARCHAR(255) NOT NULL UNIQUE,
        email VARCHAR(255),
        hashed_password VARCHAR(255) NOT NULL,
        disabled BOOLEAN DEFAULT FALSE,
        roles TEXT[] DEFAULT ARRAY['user']
    );
>>
*)

Module UserCreate.
Record t := { username : string; email : option string; password : string }.
End UserCreate.

Module User.
Record t := {
  id : Z;
  username : string;
  email : option string;
  disabled : bool;
  roles : list string
}.
End User.

(** The fields of the model [UserInDB]: [username] and [email] of [UserBase]
    and the three of its own.  The [id] of a row is not among them: the model
    drops it when it is built from a row, and reading it from the object
    raises [AttributeError]. *)
Definition UserInDB_fields : list string :=
  ["username"; "email"; "hashed_password"; "disabled"; "roles"].

Module PgUsers.

Definition with_users (d : Database) (rows : list UserInDB.t) : Database :=
  {| versions := versions d; versions_id_seq := versions_id_seq d; users := rows |}.

Definition too_long (s : option string) : bool :=
  match s with
  | Some s => (255 <? String.length s)%nat
  | None => false
  end.

Definition key_taken (username : string) (id : Z) (rows : list UserInDB.t) : bool :=
  existsb (λ r, String.eqb (UserInDB.username r) username || (UserInDB.id r =? id)) rows.

(** [INSERT INTO users (username, email, hashed_password) VALUES ($1, $2, $3)
     RETURNING id, username, email, disabled, roles] through [conn.fetchrow].
    The columns the statement leaves out take their defaults; [nextval] is
    the value the statement draws from the sequence behind [id SERIAL].  A
    value longer than its [VARCHAR(255)] column is refused; a taken
    [username] or [id] violates its uniqueness constraint. *)
Definition insert_user (username : string) (email : option string)
    (hashed_password : string) (nextval : Z) : M (option User.t) :=
  λ w,
    if too_long (Some username) || too_long email || too_long (Some hashed_password) then
      (Raise StringDataRightTruncationError, w)
    else if key_taken username nextval (users (db w)) then
      (Raise UniqueViolationError, w)
    else
      let row := {| UserInDB.id := nextval; UserInDB.username := username;
                    UserInDB.email := email;
                    UserInDB.hashed_password := hashed_password;
                    UserInDB.disabled := false; UserInDB.roles := ["user"] |} in
      (Return (Some {| User.id := nextval; User.username := username;
                       User.email := email; User.disabled := false;
                       User.roles := ["user"] |}),
       with_db w (with_users (db w) (users (db w) ++ [row]))).

End PgUsers.

(** [read_users_me], the same text in [main.py] and in
    [app/api/v1/endpoints/users.py]: the keyword arguments of [User(...)] are
    read from [current_user] in the order they are written. *)
Definition read_users_me (current_user : UserInDB.t) : M User.t :=
  load_attr "'UserInDB' object" UserInDB_fields "id";;
  load_attr "'UserInDB' object" UserInDB_fields "username";;
  load_attr "'UserInDB' object" UserInDB_fields "email";;
  load_attr "'UserInDB' object" UserInDB_fields "disabled";;
  load_attr "'UserInDB' object" UserInDB_fields "roles";;
  mret {| User.id := UserInDB.id current_user;
          User.username := UserInDB.username current_user;
          User.email := UserInDB.email current_user;
          User.disabled := UserInDB.disabled current_user;
          User.roles := UserInDB.roles current_user |}.

Module LegacyUsers.

Section Handlers.

(** [decode_access_token(token).get("sub")] and [get_password_hash] of the
    module [auth]. *)
Variable decode_subject : string → result (option string).
Variable get_password_hash : string → string.

(** *** [users.py] *)

Definition create_user (user : UserCreate.t) (nextval : Z) : M User.t :=
  let hashed_password := get_password_hash (UserCreate.password user) in
  try_except
    (row ← PgUsers.insert_user (UserCreate.username user) (UserCreate.email user)
             hashed_password nextval;
     match row with
     | Some row => mret row
     | None => raise (HTTPException 500 "Failed to create user in database.")
     end)
    (λ e,
       match e with
       | UniqueViolationError => raise (HTTPException 409 "Username already registered.")
       | _ =>
           raise (HTTPException 500
                    ("Database error during user creation: " +:+ str_exn e))
       end).

(** *** [main.py] *)

Definition create_user_endpoint (user : UserCreate.t) (nextval : Z) : M User.t :=
  db_user ← Legacy.get_user_by_username (UserCreate.username user);
  match db_user with
  | Some _ => raise (HTTPException 409 "Username already registered")
  | None => create_user user nextval
  end.

(** The routes with their dependencies resolved for a request that carries
    [token]. *)
Definition users_me_route (token : string) : M User.t :=
  current_user ← LegacyDeps.current_active_user decode_subject token;
  read_users_me current_user.

Definition create_user_route (token : string) (user : UserCreate.t) (nextval : Z)
    : M User.t :=
  LegacyDeps.current_admin_user decode_subject token;;
  create_user_endpoint user nextval.

End Handlers.

End LegacyUsers.

(** *** [app/core/dependencies.py] *)

Module AppDeps.

Section Dependencies.

(** [decode_access_token(token).get("sub")] of [app/core/security.py]: the
    exception [jwt.decode] raises, or the subject, if the payload has one. *)
Variable decode_subject : string → result (option string).

Definition credentials_exception : exn :=
  HTTPException 401 "Could not validate credentials".

Definition get_current_user (token : string) : M UserInDB.t :=
  username ← try_except
                (match decode_subject token with
                 | Raise e => raise e
                 | Return None => raise credentials_exception
                 | Return (Some username) => mret username
                 end)
                (λ e, raise credentials_exception);
  user ← App.get_user_by_username username;
  match user with
  | None => raise credentials_exception
  | Some user => mret user
  end.

Definition get_current_active_user (current_user : UserInDB.t) : M UserInDB.t :=
  if UserInDB.disabled current_user
  then raise (HTTPException 400 "Inactive user")
  else mret current_user.

Definition get_current_admin_user (current_user : UserInDB.t) : M UserInDB.t :=
  if bool_decide ("admin" ∈ UserInDB.roles current_user)
  then mret current_user
  else raise (HTTPException 403 "Not enough permissions").

Definition current_active_user (token : string) : M UserInDB.t :=
  current_user ← get_current_user token;
  get_current_active_user current_user.

Definition current_admin_user (token : string) : M UserInDB.t :=
  current_user ← current_active_user token;
  get_current_admin_user current_user.

(** [GET /users/me/] with its dependency resolved. *)
Definition users_me_route (token : string) : M User.t :=
  current_user ← current_active_user token;
  read_users_me current_user.

End Dependencies.

End AppDeps.

(** ** Vocabulary of the further properties *)

(** The ledger as the constraints of the table keep it: names differ
    ([UNIQUE]), ids differ ([PRIMARY KEY]) and none exceeds the last value of
    the sequence behind [SERIAL]. *)
Definition ledger_wf (d : Database) : Prop :=
  NoDup (map Version.name (versions d))
  ∧ NoDup (map Version.id (versions d))
  ∧ Forall (λ v, Version.id v ≤ versions_id_seq d) (versions d).

(** [p] lies under the active directory. *)
Definition under_active (p : string) : bool :=
  match Py.strip_prefix "current_active_artifact/" p with
  | Some _ => true
  | None => false
  end.

(** The row that registering [user] under [id] stores. *)
Definition registered_row (get_password_hash : string → string) (user : UserCreate.t)
    (id : Z) : UserInDB.t :=
  {| UserInDB.id := id; UserInDB.username := UserCreate.username user;
     UserInDB.email := UserCreate.email user;
     UserInDB.hashed_password := get_password_hash (UserCreate.password user);
     UserInDB.disabled := false; UserInDB.roles := ["user"] |}.

(** *** Further sample data *)

Definition sample_admin : UserInDB.t :=
  {| UserInDB.id := 2; UserInDB.username := "root"; UserInDB.email := None;
     UserInDB.hashed_password := "hash:toor"; UserInDB.disabled := false;
     UserInDB.roles := ["user"; "admin"] |}.

Definition sample_disabled_admin : UserInDB.t :=
  {| UserInDB.id := 3; UserInDB.username := "ghost"; UserInDB.email := None;
     UserInDB.hashed_password := "hash:boo"; UserInDB.disabled := true;
     UserInDB.roles := ["admin"] |}.

Definition world_with_accounts : World :=
  {| fs := fs fresh_world;
     db := {| versions := []; versions_id_seq := 0;
              users := [sample_user; sample_admin; sample_disabled_admin] |};
     trace := [] |}.

(** A name of 256 characters. *)
Definition sample_long_name : string := String.concat "" (replicate 256 "x").

Definition sample_hash (plain : string) : string := "hash:" +:+ plain.

Definition sample_registration : UserCreate.t :=
  {| UserCreate.username := "bob"; UserCreate.email := Some "bob@example.org";
     UserCreate.password := "builder" |}.

(** A token decoder for the closed examples: the token text is the subject,
    the empty token has none, "broken" does not decode. *)
Definition sample_decode (token : string) : result (option string) :=
  if String.eqb token "broken" then Raise (HTTPException 401 "Could not validate credentials")
  else if Py.is_empty token then Return None
  else Return (Some token).

(** A ledger with a row that carries metadata, written by another client
    of the database. *)
Definition world_with_metadata : World :=
  {| fs := fs fresh_world;
     db := {| versions :=
                [sample_version 1 100 "plain" "artifacts/plain.bin";
                 {| Version.id := 2; Version.name := "tagged";
                    Version.description := None;
                    Version.artifact_path := "artifacts/tagged.bin";
                    Version.created_at := 200;
                    Version.metadata := Some (JObject [("epochs", JNumber "3")]) |}];
              versions_id_seq := 2; users := [sample_user] |};
     trace := [] |}.

(** An active slot that still holds an older artifact, and a ledger row
    whose artifact has gone missing from the archive. *)
Definition world_with_stale_slot : World :=
  {| fs := {| dirs := {["artifacts"; "current_active_artifact"]};
              files := {["artifacts/3f2b8c1e-7a54-4d0b-9c6e-1b2a3c4d5e6f.gz"
                         := [Byte.x61; Byte.x62; Byte.x63];
                         "current_active_artifact/old.bin" := [Byte.x6f]]} |};
     db := {| versions :=
                [sample_version 1 100 "model-v1"
                   "artifacts/3f2b8c1e-7a54-4d0b-9c6e-1b2a3c4d5e6f.gz";
                 sample_version 2 200 "model-v2" "artifacts/lost.bin"];
              versions_id_seq := 2; users := [sample_user] |};
     trace := [] |}.

(** * Properties *)

(** ** The path functions and the decoder on concrete inputs *)

Example splitext_plain : Py.splitext "model.tar.gz" = ("model.tar", ".gz").
Proof. reflexivity. Qed.

Example splitext_hidden : Py.splitext "dir.d/.bashrc" = ("dir.d/.bashrc", "").
Proof. reflexivity. Qed.

Example splitext_leading_dots : Py.splitext "...a.b" = ("...a", ".b").
Proof. reflexivity. Qed.

Example splitext_none : Py.splitext "weights" = ("weights", "").
Proof. reflexivity. Qed.

Example basename_relative : Py.basename "artifacts/ab.bin" = "ab.bin".
Proof. reflexivity. Qed.

Example dirname_relative : Py.dirname "artifacts/ab.bin" = "artifacts".
Proof. reflexivity. Qed.

Example join_relative_sample : Py.join "artifacts" "ab.bin" = "artifacts/ab.bin".
Proof. reflexivity. Qed.

Example join_absolute_sample : Py.join "artifacts" "/etc/x" = "/etc/x".
Proof. reflexivity. Qed.

Example loads_empty_object : Json.loads "{}" = Some (JObject []).
Proof. reflexivity. Qed.

Example loads_malformed : Json.loads "{not json" = None.
Proof. reflexivity. Qed.

Example loads_array :
  Json.loads " [1, 2.5e3 , [], null] "
  = Some (JArray [JNumber "1"; JNumber "2.5e3"; JArray []; JNull]).
Proof. reflexivity. Qed.

Example loads_object :
  Json.loads ("{" +:+ String Json.quote ("k" +:+ String Json.quote
                (": [true, -0.1]}")))
  = Some (JObject [("k", JArray [JBool true; JNumber "-0.1"])]).
Proof. reflexivity. Qed.

Example loads_trailing_comma : Json.loads "[1,]" = None.
Proof. reflexivity. Qed.

Example loads_extra_data : Json.loads "01" = None.
Proof. reflexivity. Qed.

Example uuid_sample : is_uuid_str sample_uuid_1 = true ∧ is_uuid_str "model-v1" = false.
Proof. split; reflexivity. Qed.

(** ** Strings and paths *)

Lemma append_cons (a : ascii) (s t : string) : String a s +:+ t = String a (s +:+ t).
Proof. reflexivity. Qed.

Lemma append_nil (t : string) : "" +:+ t = t.
Proof. reflexivity. Qed.

Lemma append_nil_r (s : string) : s +:+ "" = s.
Proof. induction s as [|a r IH]; [reflexivity|]. by rewrite append_cons, IH. Qed.

Lemma append_assoc (s t u : string) : (s +:+ t) +:+ u = s +:+ (t +:+ u).
Proof.
  induction s as [|a r IH]; [reflexivity|]. by rewrite !append_cons, IH.
Qed.

Lemma slice_to_from (n : nat) (s : string) : Py.slice_to n s +:+ Py.slice_from n s = s.
Proof.
  revert s. induction n as [|n IH]; intros [|a r]; simpl; try reflexivity.
  by rewrite append_cons, IH.
Qed.

Lemma splitext_concat (p : string) : (Py.splitext p).1 +:+ (Py.splitext p).2 = p.
Proof.
  unfold Py.splitext.
  destruct (_ && _); simpl.
  - apply slice_to_from.
  - apply append_nil_r.
Qed.

Lemma startswith_app (c : ascii) (s t : string) :
  s ≠ "" → Py.startswith c (s +:+ t) = Py.startswith c s.
Proof. by destruct s. Qed.

Lemma join_relative (fn : string) :
  Py.startswith Py.slash fn = false → Py.join "artifacts" fn = "artifacts/" +:+ fn.
Proof. intros H. unfold Py.join. by rewrite H. Qed.

Lemma join_absolute (fn : string) :
  Py.startswith Py.slash fn = true → Py.join "artifacts" fn = fn.
Proof. intros H. unfold Py.join. by rewrite H. Qed.

Lemma uuid_head (u : string) :
  is_uuid_str u = true → ∃ c r, u = String c r ∧ is_lower_hex c = true.
Proof.
  destruct u as [|c r]; [discriminate|].
  unfold is_uuid_str. simpl. destruct (is_lower_hex c) eqn:E; [eauto | discriminate].
Qed.

Lemma uuid_not_absolute (u e : string) :
  is_uuid_str u = true → Py.startswith Py.slash (u +:+ e) = false.
Proof.
  intros (c & r & -> & Hc)%uuid_head. rewrite append_cons. simpl.
  destruct (Ascii.eqb_spec c Py.slash) as [->|]; [discriminate | reflexivity].
Qed.

Lemma contains_app (c : ascii) (s t : string) :
  Py.contains c (s +:+ t) = Py.contains c s || Py.contains c t.
Proof.
  induction s as [|a r IH]; [reflexivity|].
  rewrite append_cons. simpl. rewrite IH. by rewrite orb_assoc.
Qed.

Lemma rindex_none (c : ascii) (s : string) :
  Py.contains c s = false → Py.rindex c s = None.
Proof.
  induction s as [|a r IH]; [reflexivity|]. simpl.
  intros [Ha Hr]%orb_false_iff. by rewrite (IH Hr), Ha.
Qed.

Lemma rindex_absent (c : ascii) (s : string) :
  Py.rindex c s = None → Py.contains c s = false.
Proof.
  induction s as [|a r IH]; [reflexivity|]. simpl.
  destruct (Py.rindex c r); [discriminate|].
  destruct (Ascii.eqb a c); [discriminate|]. intros _. by rewrite IH.
Qed.

Lemma rindex_last (c : ascii) (s : string) (i : nat) :
  Py.rindex c s = Some i → Py.contains c (Py.slice_from (S i) s) = false.
Proof.
  revert i. induction s as [|a r IH]; [discriminate|]. simpl. intros i.
  destruct (Py.rindex c r) as [j|] eqn:Hr.
  - intros [= <-]. by apply IH.
  - destruct (Ascii.eqb a c); [|discriminate]. intros [= <-].
    simpl. by apply rindex_absent.
Qed.

Lemma contains_slice_from (c : ascii) (n : nat) (s : string) :
  Py.contains c s = false → Py.contains c (Py.slice_from n s) = false.
Proof.
  revert s. induction n as [|n IH]; intros [|a r]; simpl; try done.
  intros [_ Hr]%orb_false_iff. by apply IH.
Qed.

Lemma slice_from_add (n k : nat) (s : string) :
  Py.slice_from (n + k) s = Py.slice_from k (Py.slice_from n s).
Proof.
  revert s. induction n as [|n IH]; intros s; [reflexivity|].
  destruct s as [|a r]; simpl; [by destruct k | apply IH].
Qed.

Lemma splitext_ext_no_slash (p : string) :
  Py.contains Py.slash (Py.splitext p).2 = false.
Proof.
  unfold Py.splitext.
  destruct (_ && _) eqn:E; [|reflexivity]. simpl.
  apply andb_true_iff in E as [Hgt _]. apply Z.gtb_lt in Hgt.
  unfold Py.rfind in *.
  destruct (Py.rindex Py.slash p) as [i|] eqn:Hs.
  - destruct (Py.rindex Py.dot p) as [j|]; [|lia].
    rewrite Nat2Z.id. replace j with (S i + (j - S i))%nat by lia.
    rewrite slice_from_add. apply contains_slice_from. by apply rindex_last.
  - apply contains_slice_from. by apply rindex_absent.
Qed.

Lemma hex_not_slash (c : ascii) : is_lower_hex c = true → Ascii.eqb c Py.slash = false.
Proof.
  intros H. destruct (Ascii.eqb_spec c Py.slash) as [->|]; [discriminate | reflexivity].
Qed.

Lemma hex_run_no_slash (n : nat) (s r : string) :
  hex_run n s = Some r → Py.contains Py.slash s = Py.contains Py.slash r.
Proof.
  revert s. induction n as [|n IH]; intros s; simpl; [by intros [= ->]|].
  destruct s as [|c t]; [discriminate|].
  destruct (is_lower_hex c) eqn:Hc; [|discriminate].
  intros H. simpl. by rewrite (hex_not_slash c Hc), (IH t H).
Qed.

Lemma hyphen_then_inv (k : string → bool) (o : option string) :
  hyphen_then k o = true → ∃ r, o = Some (String "-" r) ∧ k r = true.
Proof.
  destruct o as [[|c r]|]; simpl; try discriminate.
  intros [Hc Hk]%andb_true_iff. apply Ascii.eqb_eq in Hc as ->. eauto.
Qed.

Lemma uuid_no_slash (u : string) :
  is_uuid_str u = true → Py.contains Py.slash u = false.
Proof.
  unfold is_uuid_str.
  intros (r1 & H1 & (r2 & H2 & (r3 & H3 & (r4 & H4 & H5)%hyphen_then_inv)%hyphen_then_inv)%hyphen_then_inv)%hyphen_then_inv.
  destruct (hex_run 12 r4) as [[|]|] eqn:H6; try discriminate.
  rewrite (hex_run_no_slash _ _ _ H1). simpl.
  rewrite (hex_run_no_slash _ _ _ H2). simpl.
  rewrite (hex_run_no_slash _ _ _ H3). simpl.
  rewrite (hex_run_no_slash _ _ _ H4). simpl.
  by rewrite (hex_run_no_slash _ _ _ H6).
Qed.

Lemma unique_filename_no_slash (uuid4 p : string) :
  is_uuid_str uuid4 = true →
  Py.contains Py.slash (uuid4 +:+ (Py.splitext p).2) = false.
Proof.
  intros H. by rewrite contains_app, (uuid_no_slash _ H), splitext_ext_no_slash.
Qed.

Lemma rindex_after (c : ascii) (s t : string) :
  Py.contains c t = false →
  Py.rindex c (s +:+ String c t) = Some (String.length s).
Proof.
  intros Ht. induction s as [|a r IH].
  - rewrite append_nil. simpl. by rewrite (rindex_none _ _ Ht), Ascii.eqb_refl.
  - rewrite append_cons. simpl. by rewrite IH.
Qed.

Lemma slice_from_length (s t : string) : Py.slice_from (String.length s) (s +:+ t) = t.
Proof. induction s as [|a r IH]; [reflexivity|]. rewrite append_cons. simpl. apply IH. Qed.

Lemma slice_to_length (s t : string) : Py.slice_to (String.length s) (s +:+ t) = s.
Proof.
  induction s as [|a r IH]; [by destruct t|]. rewrite append_cons. simpl. by rewrite IH.
Qed.

Lemma basename_in_dir (d n : string) :
  Py.contains Py.slash n = false → Py.basename (d +:+ "/" +:+ n) = n.
Proof.
  intros Hn. unfold Py.basename, Py.rfind.
  change ("/" +:+ n) with (String Py.slash n).
  rewrite (rindex_after _ d n Hn).
  replace (Z.to_nat (Z.of_nat (String.length d) + 1)) with (String.length (d +:+ "/")).
  - change (String Py.slash n) with ("/" +:+ n). rewrite <- append_assoc.
    apply slice_from_length.
  - clear. induction d as [|a r IH]; [reflexivity|]. rewrite append_cons. simpl String.length.
    rewrite IH. lia.
Qed.

Lemma dirname_archive (n : string) :
  Py.contains Py.slash n = false → Py.dirname ("artifacts/" +:+ n) = "artifacts".
Proof.
  intros Hn. unfold Py.dirname, Py.rfind.
  change ("artifacts/" +:+ n) with ("artifacts" +:+ String Py.slash n).
  rewrite (rindex_after _ "artifacts" n Hn). reflexivity.
Qed.

Lemma strip_prefix_app (pre s : string) : Py.strip_prefix pre (pre +:+ s) = Some s.
Proof.
  induction pre as [|a r IH]; [by destruct s|].
  rewrite append_cons. simpl. by rewrite Ascii.eqb_refl.
Qed.

Lemma entry_name_child (d n : string) :
  n ≠ "" → Py.contains Py.slash n = false → Os.entry_name d (d +:+ "/" +:+ n) = Some n.
Proof.
  intros Hn Hs. unfold Os.entry_name.
  rewrite <- append_assoc, strip_prefix_app.
  destruct n; [done|]. simpl in *. by rewrite Hs.
Qed.

Lemma endswith_app (c : ascii) (s t : string) :
  t ≠ "" → Py.endswith c (s +:+ t) = Py.endswith c t.
Proof.
  intros Ht. induction s as [|a r IH]; [reflexivity|].
  rewrite append_cons. simpl. rewrite IH.
  destruct (r +:+ t) eqn:E; [|reflexivity].
  destruct r; [by rewrite append_nil in E | by rewrite append_cons in E].
Qed.

Lemma endswith_no_slash (s : string) :
  Py.contains Py.slash s = false → Py.endswith Py.slash s = false.
Proof.
  induction s as [|a r IH]; [reflexivity|]. simpl.
  intros [Ha Hr]%orb_false_iff. destruct r; [exact Ha | by apply IH].
Qed.

(** ** The ledger *)

Lemma select_version_absent (version_id : Z) (w : World) :
  Pg.int4 version_id = true → id_absent version_id w →
  Pg.select_version version_id w = (Return None, w).
Proof.
  unfold id_absent, Pg.select_version. intros -> H. f_equal. f_equal.
  induction H as [|v l Hv _ IH]; simpl; [reflexivity|].
  destruct (Z.eqb_spec (Version.id v) version_id); [contradiction | exact IH].
Qed.

Lemma select_version_present (version_id : Z) (w : World) (v : Version.t) :
  Pg.int4 version_id = true →
  List.find (λ r, Version.id r =? version_id) (versions (db w)) = Some v →
  Pg.select_version version_id w = (Return (Some v), w).
Proof. unfold Pg.select_version. by intros -> ->. Qed.

Lemma select_version_out_of_range (version_id : Z) (w : World) :
  Pg.int4 version_id = false →
  Pg.select_version version_id w = (Raise (DataError "$1"), w).
Proof. unfold Pg.select_version. by intros ->. Qed.

#[local] Instance created_at_desc_total : Total Pg.created_at_desc.
Proof. intros a b. unfold Pg.created_at_desc. lia. Qed.

Lemma select_versions_ordered (w : World) :
  ∃ out, Pg.select_versions w = (Return out, w)
         ∧ Pg.ordered_by_created_at_desc (versions (db w)) out.
Proof.
  eexists. split; [reflexivity|]. split.
  - apply merge_sort_Permutation.
  - apply Sorted_merge_sort, _.
Qed.

(** Unfolding of the monad's operations. *)
Ltac unfold_monad :=
  unfold mbind, M_bind, bind, mret, M_ret, ret, raise, try_except in *.

(** Rows without metadata pass through [Version(...)] as they are. *)
Lemma map_m_Version_init (rows : list Version.t) (w : World) :
  Forall (λ v, Version.metadata v = None) rows →
  map_m Version_init rows w = (Return rows, w).
Proof.
  induction 1 as [|v l Hv _ IH]; [reflexivity|].
  simpl. unfold_monad. unfold Version_init at 1. rewrite Hv. unfold_monad.
  by rewrite IH.
Qed.

(** The first row with metadata stops the list comprehension. *)
Lemma map_m_Version_init_fails (rows : list Version.t) (w : World) :
  Exists (λ v, Version.metadata v ≠ None) rows →
  map_m Version_init rows w = (Raise (ValidationError "Version"), w).
Proof.
  induction rows as [|v l IH]; [by intros ?%Exists_nil|].
  intros H. simpl. unfold_monad. unfold Version_init at 1.
  destruct (Version.metadata v) as [m|] eqn:Hm; [reflexivity|]. unfold_monad.
  apply Exists_cons in H as [H|H]; [done|]. by rewrite (IH H).
Qed.

(** ** Writing the upload *)

Lemma open_wb_write_accepted (fn : string) (data : list Byte.byte) (w : World) :
  fn ≠ "" → Py.contains Py.slash fn = false → archive_accepts fn w →
  Os.open_wb_write ("artifacts/" +:+ fn) data w
  = (Return (), written ("artifacts/" +:+ fn) data w).
Proof.
  intros Hne Hfn [Hdir Hfile]. unfold Os.open_wb_write.
  rewrite (bool_decide_eq_false_2 _ Hfile), (dirname_archive _ Hfn).
  rewrite (bool_decide_eq_true_2 _ Hdir).
  by rewrite (endswith_app _ "artifacts/" fn Hne), (endswith_no_slash _ Hfn).
Qed.

Lemma open_wb_write_cases (path : string) (data : list Byte.byte) (w : World) :
  Os.open_wb_write path data w = (Return (), written path data w)
  ∨ (Os.open_wb_write path data w = (Raise (IsADirectoryError path), log w (EvWrite path false)))
  ∨ (Os.open_wb_write path data w = (Raise (FileNotFoundError path), log w (EvWrite path false))).
Proof. unfold Os.open_wb_write. repeat case_bool_decide; try destruct (Py.endswith _ _); auto. Qed.

Lemma open_wb_write_db (path : string) (data : list Byte.byte) (w : World) :
  db (Os.open_wb_write path data w).2 = db w.
Proof.
  destruct (open_wb_write_cases path data w) as [H|[H|H]]; by rewrite H.
Qed.

Lemma open_wb_write_fs (path : string) (data : list Byte.byte) (w : World) :
  dirs (fs (Os.open_wb_write path data w).2) = dirs (fs w)
  ∧ ∀ p, p ≠ path → files (fs (Os.open_wb_write path data w).2) !! p = files (fs w) !! p.
Proof.
  destruct (open_wb_write_cases path data w) as [H|[H|H]]; rewrite H; simpl;
    (split; [reflexivity|]); intros p Hp; [|reflexivity..].
  by rewrite lookup_insert_ne.
Qed.

Lemma parse_metadata_ok (json_loads : string → option json)
    (metadata : option string) (w : World) :
  metadata_ok json_loads metadata →
  Legacy.parse_metadata json_loads metadata w
  = (Return (metadata_value json_loads metadata), w)
  ∧ App.parse_metadata json_loads metadata w
    = (Return (metadata_value json_loads metadata), w)
  ∧ (metadata_value json_loads metadata = None
     ∨ ∃ members, metadata_value json_loads metadata = Some (JObject members)).
Proof.
  unfold metadata_ok, Legacy.parse_metadata, App.parse_metadata, metadata_value.
  destruct metadata as [text|]; [|auto].
  intros [->|[members Hm]]; [auto|].
  destruct (Py.is_empty text); [auto|]. rewrite Hm. eauto.
Qed.




(** ** The [INSERT] of [create_version]

    Both [create_version] functions hand [Json(version.metadata)], the
    adapter of psycopg2, to asyncpg as the fourth argument: the driver
    refuses it whatever it wraps, the statement is never executed, and the
    catch-all clause turns the [DataError] into a 500. *)

Example insert_version_text :
  returned (Pg.insert_version "model-v1" None "artifacts/a.bin" (Pg.ArgStr "{}") 100
              fresh_world)
  = Some (Some {| Version.id := 1; Version.name := "model-v1"; Version.description := None;
                  Version.artifact_path := "artifacts/a.bin"; Version.created_at := 100;
                  Version.metadata := Some (JObject []) |}).
Proof. reflexivity. Qed.

Example insert_version_adapter :
  Pg.insert_version "model-v1" None "artifacts/a.bin" (Pg.ArgJson (Some (JObject []))) 100
    fresh_world
  = (Raise (DataError "$4"), fresh_world).
Proof. reflexivity. Qed.

Lemma create_version_refused (version : VersionCreate.t) (fn base : string) (now : Z)
    (w : World) :
  Legacy.create_version version fn now w = (Raise refused_by_driver, w)
  ∧ App.create_version version fn base now w = (Raise refused_by_driver, w).
Proof. split; reflexivity. Qed.

(** ** The outcomes of a create-version request *)

(** Whatever it is asked, a create-version call leaves the world as its
    file write left it, and returns no record. *)
Lemma save_world (json_loads : string → option json) (name : string)
    (file : UploadFile) (description metadata : option string) (uuid4 : string)
    (now : Z) (w : World) (out : result Version.t * World) :
  out = Legacy.save_artifact_version json_loads name file description metadata uuid4 now w
  ∨ out = App.save_artifact_version json_loads name file description metadata uuid4 now w →
  out.2 = (Os.open_wb_write
             (Py.join "artifacts" (uuid4 +:+ (Py.splitext (filename file)).2))
             (content file) w).2
  ∧ returned out = None.
Proof.
  intros [-> | ->].
  - unfold Legacy.save_artifact_version, Legacy.ARTIFACTS_DIR. unfold_monad.
    destruct (Os.open_wb_write _ _ w) as [[[]|e] w1]; [|by destruct e].
    unfold Legacy.parse_metadata.
    destruct metadata as [[|c text]|]; simpl; try by split.
    destruct (json_loads (String c text)) as [[]|]; by split.
  - unfold App.save_artifact_version, App.save_artifact_file, App.ARTIFACTS_DIR.
    unfold_monad.
    destruct (Os.open_wb_write _ _ w) as [[[]|e] w1]; [|by split].
    unfold App.parse_metadata.
    destruct metadata as [[|c text]|]; simpl; try by split.
    destruct (json_loads (String c text)) as [[]|]; by split.
Qed.

Section SaveOutcomes.

Variable json_loads : string → option json.
Variables (name : string) (file : UploadFile) (description : option string).
Variables (uuid4 : string) (now : Z) (w : World).

Let fn := uuid4 +:+ (Py.splitext (filename file)).2.
Let path := "artifacts/" +:+ fn.
Let w1 := written path (content file) w.

Hypothesis uuid4_drawn : is_uuid_str uuid4 = true.

Lemma legacy_join_path : Py.join Legacy.ARTIFACTS_DIR fn = path.
Proof. apply join_relative, uuid_not_absolute, uuid4_drawn. Qed.

Lemma app_join_path : Py.join App.ARTIFACTS_DIR fn = path.
Proof. apply join_relative, uuid_not_absolute, uuid4_drawn. Qed.

Lemma unique_filename_not_empty : fn ≠ "".
Proof.
  destruct (uuid_head uuid4 uuid4_drawn) as (c & r & E & _).
  subst fn. rewrite E, append_cons. discriminate.
Qed.

Lemma write_accepted :
  archive_accepts fn w → Os.open_wb_write path (content file) w = (Return (), w1).
Proof.
  intros H. apply open_wb_write_accepted; [apply unique_filename_not_empty| |exact H].
  apply unique_filename_no_slash, uuid4_drawn.
Qed.

Ltac enter_save :=
  unfold Legacy.save_artifact_version, App.save_artifact_version, App.save_artifact_file;
  fold fn; rewrite ?legacy_join_path, ?app_join_path; unfold_monad.

Lemma legacy_save_write_refused (metadata : option string) (e : exn) (w' : World) :
  Os.open_wb_write path (content file) w = (Raise e, w') →
  Legacy.save_artifact_version json_loads name file description metadata uuid4 now w
  = (Raise (HTTPException 500 ("Failed to save version: " +:+ str_exn e)), w').
Proof.
  intros H. enter_save. rewrite H.
  destruct (open_wb_write_cases path (content file) w) as [H'|[H'|H']];
    rewrite H' in H; simplify_eq; reflexivity.
Qed.

Lemma app_save_write_refused (metadata : option string) (e : exn) (w' : World) :
  Os.open_wb_write path (content file) w = (Raise e, w') →
  App.save_artifact_version json_loads name file description metadata uuid4 now w
  = (Raise (HTTPException 500 ("Failed to save artifact file: " +:+ str_exn e)), w').
Proof. intros H. enter_save. by rewrite H. Qed.

Lemma legacy_save_malformed (text : string) :
  archive_accepts fn w → text ≠ "" → json_loads text = None →
  Legacy.save_artifact_version json_loads name file description (Some text) uuid4 now w
  = (Raise (HTTPException 400 "Invalid metadata JSON format."), w1).
Proof.
  intros Hacc Hne Hbad. enter_save. rewrite (write_accepted Hacc).
  unfold Legacy.parse_metadata. destruct text; [done|]. simpl. by rewrite Hbad.
Qed.

Lemma app_save_malformed (text : string) :
  archive_accepts fn w → text ≠ "" → json_loads text = None →
  App.save_artifact_version json_loads name file description (Some text) uuid4 now w
  = (Raise (HTTPException 400 "Invalid metadata JSON format."), w1).
Proof.
  intros Hacc Hne Hbad. enter_save. rewrite (write_accepted Hacc).
  unfold App.parse_metadata. destruct text; [done|]. simpl. by rewrite Hbad.
Qed.

(** Metadata that decodes to something other than an object or [null]. *)
Lemma save_not_a_dict (text : string) (value : json) :
  archive_accepts fn w →
  text ≠ "" → json_loads text = Some value → Json.is_dict value = false → value ≠ JNull →
  Legacy.save_artifact_version json_loads name file description (Some text) uuid4 now w
  = (Raise (HTTPException 500
              ("Failed to save version: " +:+ str_exn (ValidationError "VersionCreate"))),
     w1)
  ∧ App.save_artifact_version json_loads name file description (Some text) uuid4 now w
    = (Raise (HTTPException 500
                ("Failed to save version: " +:+ str_exn (ValidationError "VersionCreate"))),
       w1).
Proof.
  intros Hacc Hne Hloads Hdict Hnull. split; enter_save; rewrite (write_accepted Hacc).
  - unfold Legacy.parse_metadata. destruct text; [done|]. simpl. rewrite Hloads.
    by destruct value.
  - unfold App.parse_metadata. destruct text; [done|]. simpl. rewrite Hloads.
    by destruct value.
Qed.

(** A request that passes the handler's own checks reaches [create_version]
    and is refused there. *)
Lemma save_refused_by_driver (metadata : option string) :
  archive_accepts fn w → metadata_ok json_loads metadata →
  Legacy.save_artifact_version json_loads name file description metadata uuid4 now w
  = (Raise refused_by_driver, w1)
  ∧ App.save_artifact_version json_loads name file description metadata uuid4 now w
    = (Raise refused_by_driver, w1).
Proof.
  intros Hacc Hm.
  destruct (parse_metadata_ok json_loads metadata w1 Hm) as (HL & HA & Hshape).
  split; enter_save; rewrite (write_accepted Hacc).
  - rewrite HL. by destruct Hshape as [->|[members ->]].
  - rewrite HA. by destruct Hshape as [->|[members ->]].
Qed.


End SaveOutcomes.

(** ** C8: the two [create_version] functions and [artifact_path] *)

(** C8, as stated, fails: for the base directory "artifacts" and one
    generated file name, the [artifact_path] that [create_version] of
    [crud.py] computes and the one that [create_version] of
    [app/crud/versions.py] computes are the same text: the base directory, a
    slash and the file name. *)
Lemma create_version_same_path_sample :
  let fn := sample_uuid_1 +:+ ".gz" in
  Legacy.artifact_path fn = "artifacts/3f2b8c1e-7a54-4d0b-9c6e-1b2a3c4d5e6f.gz"
  ∧ App.artifact_path fn "artifacts" = "artifacts/3f2b8c1e-7a54-4d0b-9c6e-1b2a3c4d5e6f.gz"
  ∧ Legacy.artifact_path fn = App.artifact_path fn "artifacts".
Proof. repeat split. Qed.

(** C8, amended: for the same base directory "artifacts" and the same
    generated file name (a UUID text followed by an extension), the two
    [create_version] functions compute the same [artifact_path], the base
    directory, a slash and the file name; the two computations part only on
    a file name that starts with a slash, which [os.path.join] takes alone
    and the formatted string puts behind the base. *)
Theorem create_version_paths_agree (uuid4 ext : string) :
  is_uuid_str uuid4 = true →
  Legacy.artifact_path (uuid4 +:+ ext) = "artifacts/" +:+ uuid4 +:+ ext
  ∧ App.artifact_path (uuid4 +:+ ext) App.ARTIFACTS_DIR = "artifacts/" +:+ uuid4 +:+ ext
  ∧ (∀ fn base, Py.startswith Py.slash fn = true →
       Legacy.artifact_path fn = fn ∧ App.artifact_path fn base = base +:+ "/" +:+ fn).
Proof.
  intros Hu. pose proof (uuid_not_absolute uuid4 ext Hu) as Hrel.
  assert (Legacy.artifact_path (uuid4 +:+ ext) = "artifacts/" +:+ uuid4 +:+ ext) as HL.
  { unfold Legacy.artifact_path, Legacy.ARTIFACTS_DIR. by rewrite (join_relative _ Hrel). }
  split; [exact HL|]. split; [reflexivity|].
  intros fn base Hfn. split; [|reflexivity].
  unfold Legacy.artifact_path, Py.join. by rewrite Hfn.
Qed.

Lemma create_version_paths_agree_witness :
  is_uuid_str sample_uuid_1 = true
  ∧ Legacy.artifact_path (sample_uuid_1 +:+ ".gz")
    = App.artifact_path (sample_uuid_1 +:+ ".gz") App.ARTIFACTS_DIR.
Proof.
  assert (is_uuid_str sample_uuid_1 = true) as Hu by reflexivity.
  split; [exact Hu|].
  destruct (create_version_paths_agree sample_uuid_1 ".gz" Hu) as (HL & HA & _).
  by rewrite HL, HA.
Defined.

(** ** C5: the order of [get_versions] *)

(** C5, as stated, fails: on a ledger with two rows of equal [created_at],
    [get_versions] returns them with the smaller [id] first, an answer the
    query admits and the stated order excludes. *)
Lemma get_versions_tie_not_by_id :
  ∃ out, Legacy.get_versions world_with_tie = (Return out, world_with_tie)
         ∧ App.get_versions world_with_tie = (Return out, world_with_tie)
         ∧ map Version.id out = [1; 2]
         ∧ map Version.created_at out = [100; 100]
         ∧ Pg.ordered_by_created_at_desc (versions (db world_with_tie)) out
         ∧ ¬ Sorted spec_list_order out.
Proof.
  eexists. split; [reflexivity|]. split; [reflexivity|]. split; [reflexivity|].
  split; [reflexivity|]. split.
  - split; [reflexivity|].
    repeat constructor; unfold Pg.created_at_desc; simpl; lia.
  - intros H. inversion H as [|a l _ Hd]; subst.
    inversion Hd as [|b l' Hab]; subst.
    unfold spec_list_order in Hab. simpl in Hab. lia.
Qed.

(** C5, amended: for every ledger state whose rows carry no metadata,
    [get_versions] returns a fully materialised list holding every version
    record once, in descending (not strictly descending) order of
    [created_at]; the query names no second sort key, so the order of
    records with equal [created_at] is not fixed by it. *)
Theorem get_versions_descending (w : World) :
  Forall (λ v, Version.metadata v = None) (versions (db w)) →
  ∃ out, Legacy.get_versions w = (Return out, w)
         ∧ App.get_versions w = (Return out, w)
         ∧ out ≡ₚ versions (db w)
         ∧ Sorted Pg.created_at_desc out.
Proof.
  intros Hplain.
  destruct (select_versions_ordered w) as (out & Hout & Hperm & Hsorted).
  assert (Forall (λ v, Version.metadata v = None) out) as Hplain'.
  { apply Forall_forall. intros v Hv. rewrite Forall_forall in Hplain.
    apply Hplain. by rewrite <- Hperm. }
  exists out. unfold Legacy.get_versions, App.get_versions. unfold_monad.
  rewrite Hout, (map_m_Version_init out w Hplain'). auto.
Qed.

Lemma get_versions_descending_witness :
  Forall (λ v, Version.metadata v = None) (versions (db world_with_stale_slot))
  ∧ ∃ out, Legacy.get_versions world_with_stale_slot = (Return out, world_with_stale_slot)
           ∧ map Version.created_at out = [200; 100].
Proof.
  assert (Forall (λ v, Version.metadata v = None) (versions (db world_with_stale_slot)))
    as Hplain by (repeat constructor).
  split; [exact Hplain|].
  destruct (get_versions_descending world_with_stale_slot Hplain) as (out & HL & _).
  exists out. split; [exact HL|].
  assert (Legacy.get_versions world_with_stale_slot
          = (Return [sample_version 2 200 "model-v2" "artifacts/lost.bin";
                     sample_version 1 100 "model-v1"
                       "artifacts/3f2b8c1e-7a54-4d0b-9c6e-1b2a3c4d5e6f.gz"],
             world_with_stale_slot)) as E by (vm_compute; reflexivity).
  rewrite E in HL. by injection HL as <-.
Defined.

(** ** C6: restoring an unknown id *)

Lemma get_version_absent (version_id : Z) (w : World) :
  id_absent version_id w →
  (Pg.int4 version_id = true →
   Legacy.get_version version_id w = (Return None, w)
   ∧ App.get_version version_id w = (Return None, w))
  ∧ (Pg.int4 version_id = false →
     Legacy.get_version version_id w
     = (Raise (HTTPException 500 ("Database error during version retrieval: "
                                  +:+ str_exn (DataError "$1"))), w)
     ∧ App.get_version version_id w
       = (Raise (HTTPException 500 ("Database error during version retrieval: "
                                    +:+ str_exn (DataError "$1"))), w)).
Proof.
  intros Habsent. unfold Legacy.get_version, App.get_version. unfold_monad. split.
  - intros Hr. by rewrite (select_version_absent version_id w Hr Habsent).
  - intros Hr. by rewrite (select_version_out_of_range version_id w Hr).
Qed.




(** ** C4: the file write comes before the ledger insert *)



(** ** C10: the archive file name *)

Lemma splitext_chosen (body : string) :
  Py.contains Py.dot body = false → Py.contains Py.slash body = false →
  Py.splitext ("f." +:+ body) = ("f", "." +:+ body).
Proof.
  intros Hd Hs. unfold Py.splitext, Py.rfind.
  change ("f." +:+ body) with ("f" +:+ String Py.dot body).
  rewrite (rindex_after Py.dot "f" body Hd).
  assert (Py.contains Py.slash ("f" +:+ String Py.dot body) = false) as Hn.
  { rewrite contains_app. simpl. exact Hs. }
  rewrite (rindex_none _ _ Hn). reflexivity.
Qed.

(** C10: in every create-version request whose upload the archive takes,
    and so in every request that succeeds, the artifact is stored in the
    archive under the drawn UUID text followed by the extension that
    [splitext] cuts from the client's file name: the stem never depends on
    the request, the extension is a suffix of the client's file name, and
    any extension (a dot followed by characters other than dot and slash)
    is obtained by a suitable file name. *)
Theorem archive_name_uuid_and_client_extension (json_loads : string → option json)
    (name : string) (file : UploadFile) (description metadata : option string)
    (uuid4 : string) (now : Z) (w : World) :
  is_uuid_str uuid4 = true →
  let ext := (Py.splitext (filename file)).2 in
  archive_accepts (uuid4 +:+ ext) w →
  let app := App.save_artifact_version json_loads name file description metadata
               uuid4 now w in
  let legacy := Legacy.save_artifact_version json_loads name file description metadata
                  uuid4 now w in
  files (fs app.2) = <[("artifacts/" +:+ uuid4 +:+ ext) := content file]> (files (fs w))
  ∧ files (fs legacy.2)
    = <[("artifacts/" +:+ uuid4 +:+ ext) := content file]> (files (fs w))
  ∧ Os.entry_name "artifacts" ("artifacts/" +:+ uuid4 +:+ ext) = Some (uuid4 +:+ ext)
  ∧ Py.basename ("artifacts/" +:+ uuid4 +:+ ext) = uuid4 +:+ ext
  ∧ (∃ stem, filename file = stem +:+ ext)
  ∧ (∀ body, Py.contains Py.dot body = false → Py.contains Py.slash body = false →
             (Py.splitext ("f." +:+ body)).2 = "." +:+ body).
Proof.
  intros Hu ext Hacc app legacy.
  pose proof (unique_filename_no_slash uuid4 (filename file) Hu) as Hs. fold ext in Hs.
  destruct (save_world json_loads name file description metadata uuid4 now w app
              (or_intror eq_refl)) as [HA _].
  destruct (save_world json_loads name file description metadata uuid4 now w legacy
              (or_introl eq_refl)) as [HL _].
  rewrite (join_relative _ (uuid_not_absolute uuid4 _ Hu)) in HA, HL.
  rewrite (write_accepted file uuid4 w Hu Hacc) in HA, HL.
  rewrite HA, HL.
  split; [reflexivity|]. split; [reflexivity|]. split; [|split; [|split]].
  - apply (entry_name_child "artifacts" (uuid4 +:+ ext));
      [exact (unique_filename_not_empty file uuid4 Hu) | exact Hs].
  - change ("artifacts/" +:+ uuid4 +:+ ext) with ("artifacts" +:+ "/" +:+ uuid4 +:+ ext).
    by apply basename_in_dir.
  - exists (Py.splitext (filename file)).1. symmetry. apply splitext_concat.
  - intros body Hd Hb. by rewrite (splitext_chosen body Hd Hb).
Qed.

Lemma archive_name_uuid_and_client_extension_witness :
  is_uuid_str sample_uuid_1 = true
  ∧ archive_accepts (sample_uuid_1 +:+ (Py.splitext (filename sample_file)).2) fresh_world
  ∧ files (fs (App.save_artifact_version Json.loads "model-v1" sample_file None None
                 sample_uuid_1 100 fresh_world).2)
      !! "artifacts/3f2b8c1e-7a54-4d0b-9c6e-1b2a3c4d5e6f.gz"
    = Some [Byte.x61; Byte.x62; Byte.x63]
  ∧ Py.basename "artifacts/3f2b8c1e-7a54-4d0b-9c6e-1b2a3c4d5e6f.gz"
    = sample_uuid_1 +:+ ".gz".
Proof.
  assert (is_uuid_str sample_uuid_1 = true) as Hu by reflexivity.
  assert (archive_accepts (sample_uuid_1 +:+ (Py.splitext (filename sample_file)).2)
            fresh_world) as Hacc.
  { split; vm_compute; [reflexivity | discriminate]. }
  split; [exact Hu|]. split; [exact Hacc|].
  destruct (archive_name_uuid_and_client_extension Json.loads "model-v1" sample_file None
              None sample_uuid_1 100 fresh_world Hu Hacc) as (HA & _ & _ & Hbase & _).
  split; [|exact Hbase].
  rewrite HA. apply lookup_insert_eq.
Defined.

(** ** C1: metadata that does not parse *)

(** C1, as stated, fails: a request with the metadata text "{not json" is
    answered with 400, and the archive, empty before, then holds the
    uploaded file. *)
Lemma malformed_metadata_leaves_file :
  Json.loads "{not json" = None
  ∧ files (fs fresh_world) = ∅
  ∧ (let out := App.save_artifact_version Json.loads "model-v1" sample_file None
                  (Some "{not json") sample_uuid_1 100 fresh_world in
     respond 201 out.1 = ErrorResponse 400 "Invalid metadata JSON format."
     ∧ files (fs out.2) !! "artifacts/3f2b8c1e-7a54-4d0b-9c6e-1b2a3c4d5e6f.gz"
       = Some (content sample_file))
  ∧ (let out := Legacy.save_artifact_version Json.loads "model-v1" sample_file None
                  (Some "{not json") sample_uuid_1 100 fresh_world in
     respond 201 out.1 = ErrorResponse 400 "Invalid metadata JSON format."
     ∧ files (fs out.2) !! "artifacts/3f2b8c1e-7a54-4d0b-9c6e-1b2a3c4d5e6f.gz"
       = Some (content sample_file)).
Proof. repeat split; vm_compute; reflexivity. Qed.

(** C1, amended: for every create-version request whose metadata text is
    not empty and does not parse, and whose upload the archive accepts, the
    operation fails with a 400 client error and the ledger is untouched; by
    then the upload has been written to the archive, where it stays. *)
Theorem malformed_metadata_rejected_after_write (json_loads : string → option json)
    (name : string) (file : UploadFile) (description : option string) (text : string)
    (uuid4 : string) (now : Z) (w : World) :
  text ≠ "" → json_loads text = None →
  is_uuid_str uuid4 = true →
  archive_accepts (uuid4 +:+ (Py.splitext (filename file)).2) w →
  let path := "artifacts/" +:+ uuid4 +:+ (Py.splitext (filename file)).2 in
  let app := App.save_artifact_version json_loads name file description (Some text)
               uuid4 now w in
  let legacy := Legacy.save_artifact_version json_loads name file description (Some text)
                  uuid4 now w in
  respond 201 app.1 = ErrorResponse 400 "Invalid metadata JSON format."
  ∧ respond 201 legacy.1 = ErrorResponse 400 "Invalid metadata JSON format."
  ∧ db app.2 = db w ∧ db legacy.2 = db w
  ∧ files (fs app.2) = <[path := content file]> (files (fs w))
  ∧ files (fs legacy.2) = <[path := content file]> (files (fs w)).
Proof.
  intros Hne Hbad Hu Hacc path app legacy. subst app legacy.
  rewrite (app_save_malformed json_loads name file description uuid4 now w Hu text
             Hacc Hne Hbad).
  rewrite (legacy_save_malformed json_loads name file description uuid4 now w Hu text
             Hacc Hne Hbad).
  repeat split.
Qed.

Lemma malformed_metadata_rejected_after_write_witness :
  "{not json" ≠ "" ∧ Json.loads "{not json" = None
  ∧ is_uuid_str sample_uuid_1 = true
  ∧ archive_accepts (sample_uuid_1 +:+ (Py.splitext (filename sample_file)).2) fresh_world
  ∧ db (App.save_artifact_version Json.loads "model-v1" sample_file None
          (Some "{not json") sample_uuid_1 100 fresh_world).2 = db fresh_world.
Proof.
  assert (H1 : "{not json" ≠ "") by discriminate.
  assert (H2 : archive_accepts (sample_uuid_1 +:+ (Py.splitext (filename sample_file)).2)
                 fresh_world).
  { split; vm_compute; [reflexivity | discriminate]. }
  split; [exact H1|]. split; [reflexivity|]. split; [reflexivity|]. split; [exact H2|].
  by destruct (malformed_metadata_rejected_after_write Json.loads "model-v1" sample_file
                 None "{not json" sample_uuid_1 100 fresh_world H1 eq_refl eq_refl H2)
    as (_ & _ & Hdb & _).
Defined.

(** ** C9: the empty name *)

(** C9, as stated, fails: a request whose name is the empty string is not
    stopped before the archive: the archive, empty before, holds the
    uploaded file after it, in either service. *)
Lemma empty_name_accepted_sample :
  files (fs fresh_world) = ∅
  ∧ files (fs (App.save_artifact_version Json.loads "" sample_file None None
                 sample_uuid_1 100 fresh_world).2)
      !! "artifacts/3f2b8c1e-7a54-4d0b-9c6e-1b2a3c4d5e6f.gz"
    = Some (content sample_file)
  ∧ files (fs (Legacy.save_artifact_version Json.loads "" sample_file None None
                 sample_uuid_1 100 fresh_world).2)
      !! "artifacts/3f2b8c1e-7a54-4d0b-9c6e-1b2a3c4d5e6f.gz"
    = Some (content sample_file).
Proof. repeat split; vm_compute; reflexivity. Qed.

(** C9, amended: a create-version request whose name is the empty string
    passes input validation like any other name (no check of the name
    exists): when the archive accepts the upload and the metadata is
    absent, empty or an object, the upload is written to the archive and
    the request goes on to [create_version] with the empty name; what the
    handler answers is what [create_version] answers for it. *)
Theorem empty_name_accepted (json_loads : string → option json) (file : UploadFile)
    (description metadata : option string) (uuid4 : string) (now : Z) (w : World) :
  is_uuid_str uuid4 = true →
  archive_accepts (uuid4 +:+ (Py.splitext (filename file)).2) w →
  metadata_ok json_loads metadata →
  let fn := uuid4 +:+ (Py.splitext (filename file)).2 in
  let path := "artifacts/" +:+ fn in
  let version := {| VersionCreate.name := ""; VersionCreate.description := description;
                    VersionCreate.metadata := metadata_value json_loads metadata |} in
  let app := App.save_artifact_version json_loads "" file description metadata
               uuid4 now w in
  let legacy := Legacy.save_artifact_version json_loads "" file description metadata
                  uuid4 now w in
  app = try_except (App.create_version version fn App.ARTIFACTS_DIR now) App.save_except
          (written path (content file) w)
  ∧ legacy = try_except (Legacy.create_version version fn now) Legacy.save_except
               (written path (content file) w)
  ∧ files (fs app.2) !! path = Some (content file)
  ∧ files (fs legacy.2) !! path = Some (content file).
Proof.
  intros Hu Hacc Hmeta fn path version app legacy. subst app legacy.
  destruct (save_refused_by_driver json_loads "" file description uuid4 now w Hu metadata
              Hacc Hmeta) as [-> ->].
  split; [reflexivity|]. split; [reflexivity|]. split; apply lookup_insert_eq.
Qed.

Lemma empty_name_accepted_witness :
  is_uuid_str sample_uuid_1 = true
  ∧ archive_accepts (sample_uuid_1 +:+ (Py.splitext (filename sample_file)).2) fresh_world
  ∧ metadata_ok Json.loads (Some "{}")
  ∧ files (fs (App.save_artifact_version Json.loads "" sample_file None (Some "{}")
                 sample_uuid_1 100 fresh_world).2)
      !! "artifacts/3f2b8c1e-7a54-4d0b-9c6e-1b2a3c4d5e6f.gz"
    = Some (content sample_file).
Proof.
  assert (H2 : archive_accepts (sample_uuid_1 +:+ (Py.splitext (filename sample_file)).2)
                 fresh_world).
  { split; vm_compute; [reflexivity | discriminate]. }
  assert (H3 : metadata_ok Json.loads (Some "{}")).
  { right. exists []. reflexivity. }
  split; [reflexivity|]. split; [exact H2|]. split; [exact H3|].
  by destruct (empty_name_accepted Json.loads sample_file None (Some "{}") sample_uuid_1 100
                 fresh_world eq_refl H2 H3) as (_ & _ & Hfile & _).
Defined.

(** ** C7: issuing a token *)

Lemma timedelta_unbound_in_main : bool_decide ("timedelta" ∈ Legacy.main_globals) = false.
Proof. vm_compute. reflexivity. Qed.

Lemma timedelta_bound_in_auth : bool_decide ("timedelta" ∈ App.auth_globals) = true.
Proof. vm_compute. reflexivity. Qed.

(** The endpoint of the package does what C7 states: matching credentials
    yield 200 with a bearer token, any other credentials 401. *)
Lemma app_login_for_access_token (verify : string → string → bool)
    (jwt_encode : Claims → string) (minutes : Z) (form : LoginForm) (now : Z) (w : World) :
  let out := App.login_for_access_token verify jwt_encode minutes form now w in
  out.2 = w
  ∧ (credentials_match verify form w = true →
     ∃ token, respond 200 out.1
              = Response 200 {| Token.access_token := token; Token.token_type := "bearer" |})
  ∧ (credentials_match verify form w = false →
     respond 200 out.1 = ErrorResponse 401 "Incorrect username or password").
Proof.
  unfold credentials_match, stored_user, App.login_for_access_token,
    App.get_user_by_username, App.verify_password, Pg.select_user, load_global.
  rewrite timedelta_bound_in_auth. unfold_monad. simpl.
  destruct (List.find _ _) as [user|]; simpl; [|by auto].
  destruct (verify _ _); simpl; [|by auto].
  split; [reflexivity|]. split; [eauto | discriminate].
Qed.

(** C7 on [main.py]: credentials that do not match are answered with 401;
    credentials that match a stored user reach [timedelta(minutes=30)], a
    name [main.py] never imports, and the request ends in [NameError], which
    the framework answers with 500 and no token. *)
Theorem legacy_login_for_access_token (verify : string → string → bool)
    (create_access_token : string → list string → Z → Z → string)
    (form : LoginForm) (now : Z) (w : World) :
  let out := Legacy.login_for_access_token verify create_access_token form now w in
  (credentials_match verify form w = true →
     out = (Raise (NameError "timedelta"), w)
     ∧ respond 200 out.1 = ErrorResponse 500 "Internal Server Error")
  ∧ (credentials_match verify form w = false →
     respond 200 out.1 = ErrorResponse 401 "Incorrect username or password").
Proof.
  unfold credentials_match, stored_user, Legacy.login_for_access_token,
    Legacy.get_user_by_username, Pg.select_user, load_global.
  rewrite timedelta_unbound_in_main. unfold_monad. simpl.
  destruct (List.find _ _) as [user|]; simpl; [|by auto].
  destruct (verify _ _); simpl; [|by auto].
  split; [auto | discriminate].
Qed.

Lemma legacy_login_for_access_token_witness :
  credentials_match sample_verify sample_login fresh_world = true
  ∧ status_of (respond 200
       (Legacy.login_for_access_token sample_verify sample_token sample_login 1000
          fresh_world).1) = 500%nat
  ∧ credentials_match sample_verify sample_bad_login fresh_world = false
  ∧ status_of (respond 200
       (Legacy.login_for_access_token sample_verify sample_token sample_bad_login 1000
          fresh_world).1) = 401%nat.
Proof.
  destruct (legacy_login_for_access_token sample_verify sample_token sample_login 1000
              fresh_world) as [Hgood _].
  destruct (legacy_login_for_access_token sample_verify sample_token sample_bad_login 1000
              fresh_world) as [_ Hbad].
  split; [reflexivity|]. split; [|split; [reflexivity|]].
  - destruct (Hgood eq_refl) as [_ ->]. reflexivity.
  - rewrite (Hbad eq_refl). reflexivity.
Defined.

(** The same two requests on the package's endpoint. *)
Lemma app_login_sample :
  respond 200 (App.login_for_access_token sample_verify sample_jwt 30 sample_login 1000
                 fresh_world).1
  = Response 200 {| Token.access_token := "token-for-alice"; Token.token_type := "bearer" |}
  ∧ respond 200 (App.login_for_access_token sample_verify sample_jwt 30 sample_bad_login
                   1000 fresh_world).1
    = ErrorResponse 401 "Incorrect username or password".
Proof. split; reflexivity. Qed.

(** ** C2: restore *)

Lemma os_has_no_get_event_loop : bool_decide ("get_event_loop" ∈ os_attributes) = false.
Proof. vm_compute. reflexivity. Qed.

Lemma connection_has_no_loop : bool_decide ("loop" ∈ connection_attributes) = false.
Proof. vm_compute. reflexivity. Qed.

(** Looking a stored row up: a row without metadata comes back as a
    [Version], a row with metadata is refused by the model, an id outside
    [int4] by the driver. *)
Lemma get_version_present (version_id : Z) (w : World) (v : Version.t) :
  stored_version version_id w = Some v →
  let retrieval e := HTTPException 500 ("Database error during version retrieval: "
                                        +:+ str_exn e) in
  (Pg.int4 version_id = true → Version.metadata v = None →
   Legacy.get_version version_id w = (Return (Some v), w)
   ∧ App.get_version version_id w = (Return (Some v), w))
  ∧ (Pg.int4 version_id = true → Version.metadata v ≠ None →
     Legacy.get_version version_id w = (Raise (retrieval (ValidationError "Version")), w)
     ∧ App.get_version version_id w = (Raise (retrieval (ValidationError "Version")), w))
  ∧ (Pg.int4 version_id = false →
     Legacy.get_version version_id w = (Raise (retrieval (DataError "$1")), w)
     ∧ App.get_version version_id w = (Raise (retrieval (DataError "$1")), w)).
Proof.
  intros Hv retrieval. unfold stored_version in Hv.
  unfold Legacy.get_version, App.get_version, Version_init. unfold_monad.
  split; [|split].
  - intros Hr Hm. rewrite (select_version_present version_id w v Hr Hv), Hm. by split.
  - intros Hr Hm. rewrite (select_version_present version_id w v Hr Hv).
    destruct (Version.metadata v); [by split | done].
  - intros Hr. rewrite (select_version_out_of_range version_id w Hr). by split.
Qed.

(** C2 on the package: for every version id present in the ledger, the
    restore endpoint answers 500 and changes nothing, whatever the archive
    and the active slot hold: [restore_artifact_file] reaches its file
    operations through [os.get_event_loop()], which the module [os] does not
    define, and the resulting [AttributeError] is turned into the 500 (a
    row that the lookup itself refuses ends in a 500 before that). *)
Theorem app_restore_fails (version_id : Z) (w : World) (v : Version.t) :
  stored_version version_id w = Some v →
  (Pg.int4 version_id = true → Version.metadata v = None →
   App.restore_artifact_version version_id w
   = (Raise (HTTPException 500
               "Failed to restore artifact: module 'os' has no attribute 'get_event_loop'"),
      w))
  ∧ (∃ detail, App.restore_artifact_version version_id w
               = (Raise (HTTPException 500 detail), w))
  ∧ status_of (respond 200 (App.restore_artifact_version version_id w).1) = 500%nat
  ∧ files_in "current_active_artifact" (App.restore_artifact_version version_id w).2
    = files_in "current_active_artifact" w.
Proof.
  intros Hv.
  destruct (get_version_present version_id w v Hv) as (Hplain & Hmeta & Hrange).
  assert (∀ e, (App.get_version version_id w = (Raise (HTTPException 500 e), w)) →
               App.restore_artifact_version version_id w = (Raise (HTTPException 500 e), w))
    as Hfail.
  { intros e He. unfold App.restore_artifact_version. unfold_monad. by rewrite He. }
  assert (App.get_version version_id w = (Return (Some v), w) →
          App.restore_artifact_version version_id w
          = (Raise (HTTPException 500
               "Failed to restore artifact: module 'os' has no attribute 'get_event_loop'"),
             w)) as Hslip.
  { intros He. unfold App.restore_artifact_version, App.restore_artifact_file, load_attr.
    rewrite os_has_no_get_event_loop. unfold_monad. by rewrite He. }
  split; [intros Hr Hm; apply Hslip; by apply Hplain|].
  destruct (Pg.int4 version_id) eqn:Hr.
  - destruct (Version.metadata v) as [m|] eqn:Hm.
    + rewrite (Hfail _ (proj2 (Hmeta eq_refl ltac:(done)))). eauto.
    + rewrite (Hslip (proj2 (Hplain eq_refl eq_refl))). eauto.
  - rewrite (Hfail _ (proj2 (Hrange eq_refl))). eauto.
Qed.

Lemma app_restore_fails_witness :
  stored_version 1 world_with_version
  = Some (sample_version 1 100 "model-v1"
            "artifacts/3f2b8c1e-7a54-4d0b-9c6e-1b2a3c4d5e6f.gz")
  ∧ files (fs world_with_version) !! "artifacts/3f2b8c1e-7a54-4d0b-9c6e-1b2a3c4d5e6f.gz"
    = Some [Byte.x61; Byte.x62; Byte.x63]
  ∧ status_of (respond 200 (App.restore_artifact_version 1 world_with_version).1) = 500%nat
  ∧ files_in "current_active_artifact" (App.restore_artifact_version 1 world_with_version).2
    = files_in "current_active_artifact" world_with_version.
Proof.
  assert (stored_version 1 world_with_version
          = Some (sample_version 1 100 "model-v1"
                    "artifacts/3f2b8c1e-7a54-4d0b-9c6e-1b2a3c4d5e6f.gz")) as Hv
    by (vm_compute; reflexivity).
  split; [exact Hv|]. split; [vm_compute; reflexivity|].
  destruct (app_restore_fails 1 world_with_version _ Hv) as (_ & _ & Hs & Hf).
  split; [exact Hs | exact Hf].
Defined.

(** ** C3: two requests for one name *)

Section SaveSteps.

Variable json_loads : string → option json.
Variables (x : SaveRequest) (w : World).

Hypothesis uuid4_drawn : is_uuid_str (req_uuid4 x) = true.

Lemma step_upload :
  archive_accepts (unique_filename_of x) w →
  Legacy.save_step json_loads (task_at x Pending) w
  = (task_at x Stored, written (archive_path_of x) (content (req_file x)) w)
  ∧ App.save_step json_loads (task_at x Pending) w
    = (task_at x Stored, written (archive_path_of x) (content (req_file x)) w).
Proof.
  intros Hacc.
  pose proof (write_accepted (req_file x) (req_uuid4 x) w uuid4_drawn Hacc) as Hwrite.
  pose proof (legacy_join_path (req_file x) (req_uuid4 x) uuid4_drawn) as Hjoin.
  split; simpl.
  - rewrite Hjoin, Hwrite. reflexivity.
  - unfold App.save_artifact_file. change App.ARTIFACTS_DIR with Legacy.ARTIFACTS_DIR.
    rewrite Hjoin. unfold_monad. rewrite Hwrite. reflexivity.
Qed.

Lemma step_insert :
  metadata_ok json_loads (req_metadata x) →
  Legacy.save_step json_loads (task_at x Stored) w
  = (task_at x (Answered (Raise refused_by_driver)), w)
  ∧ App.save_step json_loads (task_at x Stored) w
    = (task_at x (Answered (Raise refused_by_driver)), w).
Proof.
  intros Hm.
  destruct (parse_metadata_ok json_loads (req_metadata x) w Hm) as (HL & HA & Hshape).
  split; simpl; unfold_monad.
  - rewrite HL. by destruct Hshape as [->|[members ->]].
  - rewrite HA. by destruct Hshape as [->|[members ->]].
Qed.

End SaveSteps.

(** The handler is its two turns run back to back. *)
Lemma legacy_save_as_steps (json_loads : string → option json) (x : SaveRequest) (w : World) :
  let '(t1, w1) := Legacy.save_step json_loads (task_at x Pending) w in
  let '(t2, w2) := Legacy.save_step json_loads t1 w1 in
  let '(r, w') := Legacy.save_artifact_version json_loads (req_name x) (req_file x)
                    (req_description x) (req_metadata x) (req_uuid4 x) (req_now x) w in
  t2 = Finished r ∧ w2 = w'.
Proof.
  unfold Legacy.save_artifact_version. simpl. unfold_monad.
  destruct (Os.open_wb_write _ _ w) as [[[]|e] w1]; simpl; unfold_monad.
  - destruct (Legacy.parse_metadata json_loads (req_metadata x) w1) as [[m|e] w2]; simpl.
    + destruct (VersionCreate_init _ _ m w2) as [[vc|e] w3]; simpl.
      * done.
      * by destruct (Legacy.save_except e w3).
    + by destruct (Legacy.save_except e w2).
  - by destruct (Legacy.save_except e w1).
Qed.

Lemma app_save_as_steps (json_loads : string → option json) (x : SaveRequest) (w : World) :
  let '(t1, w1) := App.save_step json_loads (task_at x Pending) w in
  let '(t2, w2) := App.save_step json_loads t1 w1 in
  let '(r, w') := App.save_artifact_version json_loads (req_name x) (req_file x)
                    (req_description x) (req_metadata x) (req_uuid4 x) (req_now x) w in
  t2 = Finished r ∧ w2 = w'.
Proof.
  unfold App.save_artifact_version. simpl. unfold_monad.
  destruct (App.save_artifact_file _ _ w) as [[p|e] w1]; simpl; unfold_monad.
  - destruct (App.parse_metadata json_loads (req_metadata x) w1) as [[m|e] w2]; simpl.
    + destruct (VersionCreate_init _ _ m w2) as [[vc|e] w3]; simpl.
      * done.
      * by destruct (App.save_except e w3).
    + by destruct (App.save_except e w2).
  - by destruct (App.save_except e w1).
Qed.

Lemma hex_run_length (n : nat) (s r : string) :
  hex_run n s = Some r → String.length s = (n + String.length r)%nat.
Proof.
  revert s. induction n as [|n IH]; intros s; simpl; [by intros [= ->]|].
  destruct s as [|c t]; [discriminate|]. destruct (is_lower_hex c); [|discriminate].
  intros H%IH. simpl. by rewrite H.
Qed.

Lemma uuid_length (u : string) : is_uuid_str u = true → String.length u = 36%nat.
Proof.
  unfold is_uuid_str.
  intros (r1 & H1 & (r2 & H2 & (r3 & H3 & (r4 & H4 & H5)%hyphen_then_inv)%hyphen_then_inv)%hyphen_then_inv)%hyphen_then_inv.
  destruct (hex_run 12 r4) as [[|]|] eqn:H6; try discriminate.
  apply hex_run_length in H1, H2, H3, H4, H6. simpl in *. lia.
Qed.

Lemma append_inj_length (s1 s2 t1 t2 : string) :
  String.length s1 = String.length s2 → s1 +:+ t1 = s2 +:+ t2 → s1 = s2.
Proof.
  revert s2. induction s1 as [|a r IH]; intros [|b q]; simpl; try done.
  intros [= Hl]. rewrite !append_cons. intros [= -> H]. f_equal. by apply IH.
Qed.

Lemma archive_paths_differ (x y : SaveRequest) :
  is_uuid_str (req_uuid4 x) = true → is_uuid_str (req_uuid4 y) = true →
  req_uuid4 x ≠ req_uuid4 y → archive_path_of x ≠ archive_path_of y.
Proof.
  intros Hx%uuid_length Hy%uuid_length Hne [= H]. apply Hne.
  eapply append_inj_length; [|exact H]. congruence.
Qed.

Lemma race_invariant_sym (w0 : World) (x y : SaveRequest) (px py : phase) (w : World) :
  race_invariant w0 x y px py w → race_invariant w0 y x py px w.
Proof. intros (Hd & Hdb & Hx & Hy & Hax & Hay). by repeat split. Qed.

Section Race.

Variable json_loads : string → option json.
Variable w0 : World.

(** The turn function of either service. *)
Variable step : save_task → World → save_task * World.
Hypothesis step_of_service :
  step = Legacy.save_step json_loads ∨ step = App.save_step json_loads.

(** One turn of request [x] while request [y] is somewhere on its way. *)
Lemma race_step (x y : SaveRequest) (px py : phase) (w : World) :
  acceptable json_loads x w0 →
  archive_path_of x ≠ archive_path_of y →
  race_invariant w0 x y px py w →
  ∃ px' w',
    step (task_at x px) w = (task_at x px', w')
    ∧ race_invariant w0 x y px' py w'
    ∧ rank px' = Nat.min 2 (S (rank px)).
Proof.
  intros (Hu & [Hdir Hnodir] & Hmeta) Hpaths (Hd & Hdb & Hx & Hy & Hax & Hay).
  destruct px as [| |r].
  - exists Stored, (written (archive_path_of x) (content (req_file x)) w).
    split; [|split; [|reflexivity]].
    + assert (archive_accepts (unique_filename_of x) w) as Hacc by (split; by rewrite Hd).
      destruct (step_upload json_loads x w Hu Hacc) as [HL HA].
      by destruct step_of_service as [-> | ->].
    + split; [exact Hd|]. split; [exact Hdb|]. split; [|split; [|split]].
      * intros _. apply lookup_insert_eq.
      * intros Hpy. simpl. rewrite lookup_insert_ne by exact Hpaths. by apply Hy.
      * intros r [=].
      * exact Hay.
  - exists (Answered (Raise refused_by_driver)), w. split; [|split; [|reflexivity]].
    + destruct (step_insert json_loads x w Hmeta) as [HL HA].
      by destruct step_of_service as [-> | ->].
    + split; [exact Hd|]. split; [exact Hdb|]. split; [|split; [|split]]; auto.
      by intros r [= <-].
  - exists (Answered r), w. split; [|by repeat split].
    by destruct step_of_service as [-> | ->].
Qed.

Variables a b : SaveRequest.

Hypothesis a_acceptable : acceptable json_loads a w0.
Hypothesis b_acceptable : acceptable json_loads b w0.
Hypothesis distinct_draws : req_uuid4 a ≠ req_uuid4 b.

Lemma race_paths : archive_path_of a ≠ archive_path_of b.
Proof.
  apply archive_paths_differ; [apply a_acceptable | apply b_acceptable | exact distinct_draws].
Qed.

Lemma race_run (schedule : list bool) (pa pb : phase) (w : World) :
  race_invariant w0 a b pa pb w →
  ∃ pa' pb' w',
    run_schedule step schedule (task_at a pa) (task_at b pb) w
    = (task_at a pa', task_at b pb', w')
    ∧ race_invariant w0 a b pa' pb' w'
    ∧ rank pa' = Nat.min 2 (rank pa + turns true schedule)
    ∧ rank pb' = Nat.min 2 (rank pb + turns false schedule).
Proof.
  revert pa pb w. induction schedule as [|[] rest IH]; intros pa pb w Hinv.
  - exists pa, pb, w. simpl. split; [reflexivity|]. split; [exact Hinv|].
    rewrite !Nat.add_0_r. split; [destruct pa | destruct pb]; reflexivity.
  - destruct (race_step a b pa pb w a_acceptable race_paths Hinv)
      as (pa1 & w1 & Hstep & Hinv1 & Hrank).
    destruct (IH pa1 pb w1 Hinv1) as (pa' & pb' & w' & Hrun & Hinv' & Ha & Hb).
    exists pa', pb', w'. cbn [run_schedule turns Bool.eqb]. rewrite Hstep, Hrun.
    split; [reflexivity|]. split; [exact Hinv'|]. split; [lia | exact Hb].
  - destruct (race_step b a pb pa w b_acceptable
                (not_eq_sym race_paths) (race_invariant_sym _ _ _ _ _ _ Hinv))
      as (pb1 & w1 & Hstep & Hinv1%race_invariant_sym & Hrank).
    destruct (IH pa pb1 w1 Hinv1) as (pa' & pb' & w' & Hrun & Hinv' & Ha & Hb).
    exists pa', pb', w'. cbn [run_schedule turns Bool.eqb]. rewrite Hstep, Hrun.
    split; [reflexivity|]. split; [exact Hinv'|]. split; [exact Ha | lia].
Qed.

End Race.

(** The sequential case through the handlers themselves. *)
Lemma sequential_creates_refused (json_loads : string → option json) (w0 : World)
    (a b : SaveRequest) :
  acceptable json_loads a w0 →
  acceptable json_loads b w0 →
  let w1 := written (archive_path_of a) (content (req_file a)) w0 in
  let w2 := written (archive_path_of b) (content (req_file b)) w1 in
  (Legacy.save_artifact_version json_loads (req_name a) (req_file a) (req_description a)
     (req_metadata a) (req_uuid4 a) (req_now a) w0 = (Raise refused_by_driver, w1)
   ∧ Legacy.save_artifact_version json_loads (req_name b) (req_file b) (req_description b)
       (req_metadata b) (req_uuid4 b) (req_now b) w1 = (Raise refused_by_driver, w2))
  ∧ (App.save_artifact_version json_loads (req_name a) (req_file a) (req_description a)
       (req_metadata a) (req_uuid4 a) (req_now a) w0 = (Raise refused_by_driver, w1)
     ∧ App.save_artifact_version json_loads (req_name b) (req_file b) (req_description b)
         (req_metadata b) (req_uuid4 b) (req_now b) w1 = (Raise refused_by_driver, w2)).
Proof.
  intros (Hua & Hacca & Hma) (Hub & [Hdirb Hnodirb] & Hmb) w1 w2.
  assert (archive_accepts (unique_filename_of b) w1) as Haccb by (split; assumption).
  destruct (save_refused_by_driver json_loads (req_name a) (req_file a) (req_description a)
              (req_uuid4 a) (req_now a) w0 Hua (req_metadata a) Hacca Hma) as [HLa HAa].
  destruct (save_refused_by_driver json_loads (req_name b) (req_file b) (req_description b)
              (req_uuid4 b) (req_now b) w1 Hub (req_metadata b) Haccb Hmb) as [HLb HAb].
  by repeat split.
Qed.

(** C3 on the code: two create-version attempts, for one name or for two,
    run one after the other through the handlers or interleaved in any way
    at their suspension points, both end in 500.  [create_version] hands
    [Json(version.metadata)], the adapter object of psycopg2, to asyncpg,
    which refuses it before the [INSERT] is executed: no attempt succeeds,
    none is answered with the conflict (409), the ledger gains no row, and
    both uploads stay in the archive as orphans. *)
Theorem same_name_creates_both_refused (json_loads : string → option json) (w0 : World)
    (step : save_task → World → save_task * World)
    (a b : SaveRequest) (schedule : list bool) :
  step = Legacy.save_step json_loads ∨ step = App.save_step json_loads →
  acceptable json_loads a w0 →
  acceptable json_loads b w0 →
  req_uuid4 a ≠ req_uuid4 b →
  (2 ≤ turns true schedule)%nat →
  (2 ≤ turns false schedule)%nat →
  let first := Legacy.save_artifact_version json_loads (req_name a) (req_file a)
                 (req_description a) (req_metadata a) (req_uuid4 a) (req_now a) w0 in
  let second := Legacy.save_artifact_version json_loads (req_name b) (req_file b)
                  (req_description b) (req_metadata b) (req_uuid4 b) (req_now b) first.2 in
  let first' := App.save_artifact_version json_loads (req_name a) (req_file a)
                  (req_description a) (req_metadata a) (req_uuid4 a) (req_now a) w0 in
  let second' := App.save_artifact_version json_loads (req_name b) (req_file b)
                   (req_description b) (req_metadata b) (req_uuid4 b) (req_now b) first'.2 in
  (∃ w,
     run_schedule step schedule (task_at a Pending) (task_at b Pending) w0
     = (Finished (Raise refused_by_driver), Finished (Raise refused_by_driver), w)
     ∧ db w = db w0
     ∧ files (fs w) !! archive_path_of a = Some (content (req_file a))
     ∧ files (fs w) !! archive_path_of b = Some (content (req_file b)))
  ∧ (first.1 = Raise refused_by_driver ∧ second.1 = Raise refused_by_driver
     ∧ db second.2 = db w0
     ∧ files (fs second.2) !! archive_path_of a = Some (content (req_file a))
     ∧ files (fs second.2) !! archive_path_of b = Some (content (req_file b)))
  ∧ (first'.1 = Raise refused_by_driver ∧ second'.1 = Raise refused_by_driver
     ∧ db second'.2 = db w0
     ∧ files (fs second'.2) !! archive_path_of a = Some (content (req_file a))
     ∧ files (fs second'.2) !! archive_path_of b = Some (content (req_file b)))
  ∧ status_of (respond 201 (@Raise Version.t refused_by_driver)) = 500%nat
  ∧ refused_by_driver ≠ conflict (req_name a)
  ∧ archive_path_of a ≠ archive_path_of b.
Proof.
  intros Hstep Ha Hb Hdraws Hta Htb first second first' second'.
  pose proof (race_paths json_loads w0 a b Ha Hb Hdraws) as Hpaths.
  split; [|split; [|split; [|split; [reflexivity | split; [discriminate | exact Hpaths]]]]].
  - assert (race_invariant w0 a b Pending Pending w0) as Hinv0.
    { repeat split; simpl; try (intros ?; contradiction); intros r [=]. }
    destruct (race_run json_loads w0 step Hstep a b Ha Hb Hdraws schedule
                Pending Pending w0 Hinv0)
      as (pa & pb & w & Hrun & (Hd & Hdb & Hfa & Hfb & Haa & Hab) & Hra & Hrb).
    destruct pa as [| |ra]; cbn [rank] in Hra; try lia.
    destruct pb as [| |rb]; cbn [rank] in Hrb; try lia.
    rewrite (Haa ra eq_refl), (Hab rb eq_refl) in Hrun.
    exists w. split; [exact Hrun|]. split; [exact Hdb|].
    split; [by apply Hfa | by apply Hfb].
  - destruct (sequential_creates_refused json_loads w0 a b Ha Hb) as [[H1 H2] _].
    subst second first. rewrite H1. simpl. rewrite H2. simpl.
    split; [reflexivity|]. split; [reflexivity|]. split; [reflexivity|]. split.
    + rewrite lookup_insert_ne by (apply not_eq_sym, Hpaths). apply lookup_insert_eq.
    + apply lookup_insert_eq.
  - destruct (sequential_creates_refused json_loads w0 a b Ha Hb) as [_ [H1 H2]].
    subst second' first'. rewrite H1. simpl. rewrite H2. simpl.
    split; [reflexivity|]. split; [reflexivity|]. split; [reflexivity|]. split.
    + rewrite lookup_insert_ne by (apply not_eq_sym, Hpaths). apply lookup_insert_eq.
    + apply lookup_insert_eq.
Qed.

Lemma sample_requests_acceptable :
  acceptable Json.loads sample_request_1 fresh_world
  ∧ acceptable Json.loads sample_request_2 fresh_world.
Proof.
  split.
  - split; [reflexivity|]. split; [split; vm_compute; [reflexivity | discriminate]|].
    exact I.
  - split; [reflexivity|]. split; [split; vm_compute; [reflexivity | discriminate]|].
    right. exists []. reflexivity.
Defined.

Lemma same_name_creates_both_refused_witness :
  req_name sample_request_1 = req_name sample_request_2
  ∧ req_uuid4 sample_request_1 ≠ req_uuid4 sample_request_2
  ∧ (2 ≤ turns true [true; false; false; true])%nat
  ∧ (2 ≤ turns false [true; false; false; true])%nat
  ∧ (∃ w,
       run_schedule (Legacy.save_step Json.loads) [true; false; false; true]
         (task_at sample_request_1 Pending) (task_at sample_request_2 Pending) fresh_world
       = (Finished (Raise refused_by_driver), Finished (Raise refused_by_driver), w)
       ∧ versions (db w) = [])
  ∧ status_of (respond 201
       (Legacy.save_artifact_version Json.loads "model-v1" sample_file None None
          sample_uuid_1 100 fresh_world).1) = 500%nat.
Proof.
  assert (H1 : req_uuid4 sample_request_1 ≠ req_uuid4 sample_request_2) by discriminate.
  assert (H3 : (2 ≤ turns true [true; false; false; true])%nat) by (simpl; lia).
  assert (H4 : (2 ≤ turns false [true; false; false; true])%nat) by (simpl; lia).
  split; [reflexivity|]. split; [exact H1|]. split; [exact H3|]. split; [exact H4|].
  destruct sample_requests_acceptable as [Ha Hb].
  destruct (same_name_creates_both_refused Json.loads fresh_world
              (Legacy.save_step Json.loads) sample_request_1 sample_request_2
              [true; false; false; true] (or_introl eq_refl) Ha Hb H1 H3 H4)
    as ((w & Hrun & Hdb & _) & (Hfirst & _) & _).
  split.
  - exists w. split; [exact Hrun | by rewrite Hdb].
  - change (Legacy.save_artifact_version Json.loads "model-v1" sample_file None None
              sample_uuid_1 100 fresh_world)
      with (Legacy.save_artifact_version Json.loads (req_name sample_request_1)
              (req_file sample_request_1) (req_description sample_request_1)
              (req_metadata sample_request_1) (req_uuid4 sample_request_1)
              (req_now sample_request_1) fresh_world).
    by rewrite Hfirst.
Defined.

(** The two sample requests for the name "model-v1", run one after the
    other through the handler of [main.py]: both are answered with 500, the
    ledger stays empty, both files are in the archive. *)
Lemma sequential_duplicate_sample :
  let first := Legacy.save_artifact_version Json.loads "model-v1" sample_file None None
                 sample_uuid_1 100 fresh_world in
  let second := Legacy.save_artifact_version Json.loads "model-v1"
                  {| filename := "other.bin"; content := [Byte.x78] |}
                  (Some "second upload") (Some "{}") sample_uuid_2 101 first.2 in
  status_of (respond 201 first.1) = 500%nat
  ∧ status_of (respond 201 second.1) = 500%nat
  ∧ versions (db second.2) = []
  ∧ map fst (map_to_list (files (fs second.2)))
    ≡ₚ ["artifacts/3f2b8c1e-7a54-4d0b-9c6e-1b2a3c4d5e6f.gz";
        "artifacts/9a1d0e77-52c3-4f6a-8b1e-0c9d8e7f6a5b.bin"].
Proof.
  vm_compute. split; [reflexivity|]. split; [reflexivity|]. split; [reflexivity|].
  match goal with |- ?l ≡ₚ ?r => first [ change (l ≡ₚ l); reflexivity | apply Permutation_swap ] end.
Qed.

(** * Further properties *)

Lemma sample_ledger_wf : ledger_wf (db world_with_stale_slot).
Proof.
  split; [|split].
  - apply (bool_decide_unpack _). vm_compute. exact I.
  - apply (bool_decide_unpack _). vm_compute. exact I.
  - repeat constructor; simpl; lia.
Qed.

Lemma metadata_ledger_wf : ledger_wf (db world_with_metadata).
Proof.
  split; [|split].
  - apply (bool_decide_unpack _). vm_compute. exact I.
  - apply (bool_decide_unpack _). vm_compute. exact I.
  - repeat constructor; simpl; lia.
Qed.

Lemma find_by_id_unique (rows : list Version.t) (v : Version.t) :
  NoDup (map Version.id rows) → v ∈ rows →
  List.find (λ r, Version.id r =? Version.id v) rows = Some v.
Proof.
  induction rows as [|r l IH]; simpl; [by intros _ ?%elem_of_nil|].
  intros [Hr Hl]%NoDup_cons [->|Hin]%elem_of_cons.
  - by rewrite Z.eqb_refl.
  - destruct (Z.eqb_spec (Version.id r) (Version.id v)) as [E|_]; [|by apply IH].
    exfalso. apply Hr. rewrite E. apply list_elem_of_fmap. by exists v.
Qed.

(** ** X1, X2: the preview endpoint *)

(** X1: on a ledger that satisfies the constraints of its table, the
    preview endpoint of either service answers a request for the id of a
    stored row without metadata with that very row; for a stored row with
    metadata the conversion of the row into a [Version] fails on the text
    the driver returns for [jsonb], and the answer is 500.  The world is
    left as it was. *)
Theorem get_artifact_version_stored_row (w : World) (v : Version.t) :
  ledger_wf (db w) → v ∈ versions (db w) → Pg.int4 (Version.id v) = true →
  let legacy := Legacy.get_artifact_version (Version.id v) w in
  let app := App.get_artifact_version (Version.id v) w in
  legacy.2 = w ∧ app.2 = w
  ∧ (Version.metadata v = None →
     respond 200 legacy.1 = Response 200 v ∧ respond 200 app.1 = Response 200 v)
  ∧ (Version.metadata v ≠ None →
     respond 200 legacy.1
     = ErrorResponse 500 ("Database error during version retrieval: "
                          +:+ str_exn (ValidationError "Version"))
     ∧ respond 200 app.1
       = ErrorResponse 500 ("Database error during version retrieval: "
                            +:+ str_exn (ValidationError "Version"))).
Proof.
  intros (_ & Hid & _) Hv Hr legacy app. subst legacy app.
  destruct (get_version_present (Version.id v) w v (find_by_id_unique _ v Hid Hv))
    as (Hplain & Hmeta & _).
  unfold Legacy.get_artifact_version, App.get_artifact_version.
  unfold mbind, M_bind, bind.
  destruct (Version.metadata v) as [m|] eqn:Hm.
  - destruct (Hmeta Hr ltac:(done)) as [-> ->]. simpl.
    split; [reflexivity|]. split; [reflexivity|]. split; [discriminate | auto].
  - destruct (Hplain Hr eq_refl) as [-> ->]. simpl.
    split; [reflexivity|]. split; [reflexivity|]. split; [auto | done].
Qed.

Lemma get_artifact_version_stored_row_witness :
  respond 200 (Legacy.get_artifact_version 1 world_with_metadata).1
  = Response 200 (sample_version 1 100 "plain" "artifacts/plain.bin")
  ∧ status_of (respond 200 (App.get_artifact_version 2 world_with_metadata).1) = 500%nat.
Proof.
  pose (tagged := {| Version.id := 2; Version.name := "tagged";
                     Version.description := None;
                     Version.artifact_path := "artifacts/tagged.bin";
                     Version.created_at := 200;
                     Version.metadata := Some (JObject [("epochs", JNumber "3")]) |}).
  assert (sample_version 1 100 "plain" "artifacts/plain.bin"
          ∈ versions (db world_with_metadata)) as H1 by apply list_elem_of_here.
  assert (tagged ∈ versions (db world_with_metadata)) as H2
    by apply list_elem_of_further, list_elem_of_here.
  destruct (get_artifact_version_stored_row world_with_metadata _ metadata_ledger_wf H1
              eq_refl) as (_ & _ & Hplain & _).
  destruct (get_artifact_version_stored_row world_with_metadata _ metadata_ledger_wf H2
              eq_refl) as (_ & _ & _ & Hmeta).
  split; [exact (proj1 (Hplain eq_refl))|].
  assert (Version.metadata tagged ≠ None) as Hm by discriminate.
  change (Version.id tagged) with 2 in Hmeta.
  by rewrite (proj2 (Hmeta Hm)).
Defined.

(** X2: a preview request for an id that no row of the ledger carries is
    answered by either service with 404 and the detail that names the id
    when the id fits the 32-bit column, and with 500 when it does not, the
    driver refusing it as the argument of the lookup; the world is left as
    it was. *)
Theorem get_artifact_version_unknown_id (version_id : Z) (w : World) :
  id_absent version_id w →
  let legacy := Legacy.get_artifact_version version_id w in
  let app := App.get_artifact_version version_id w in
  legacy.2 = w ∧ app.2 = w
  ∧ (Pg.int4 version_id = true →
     respond 200 legacy.1
     = ErrorResponse 404 ("Version with ID " +:+ str_int version_id +:+ " not found.")
     ∧ respond 200 app.1
       = ErrorResponse 404 ("Version with ID " +:+ str_int version_id +:+ " not found."))
  ∧ (Pg.int4 version_id = false →
     respond 200 legacy.1
     = ErrorResponse 500 ("Database error during version retrieval: "
                          +:+ str_exn (DataError "$1"))
     ∧ respond 200 app.1
       = ErrorResponse 500 ("Database error during version retrieval: "
                            +:+ str_exn (DataError "$1"))).
Proof.
  intros Habsent legacy app. subst legacy app.
  destruct (get_version_absent version_id w Habsent) as [Hin Hout].
  unfold Legacy.get_artifact_version, App.get_artifact_version.
  unfold mbind, M_bind, bind.
  destruct (Pg.int4 version_id) eqn:Hr.
  - destruct (Hin eq_refl) as [-> ->]. simpl.
    split; [reflexivity|]. split; [reflexivity|]. split; [auto | discriminate].
  - destruct (Hout eq_refl) as [-> ->]. simpl.
    split; [reflexivity|]. split; [reflexivity|]. split; [discriminate | auto].
Qed.

Lemma get_artifact_version_unknown_id_witness :
  id_absent 7 world_with_version
  ∧ respond 200 (Legacy.get_artifact_version 7 world_with_version).1
    = ErrorResponse 404 "Version with ID 7 not found."
  ∧ id_absent 4294967296 world_with_version
  ∧ status_of (respond 200 (App.get_artifact_version 4294967296 world_with_version).1)
    = 500%nat.
Proof.
  assert (H : id_absent 7 world_with_version).
  { repeat constructor. simpl. lia. }
  assert (H' : id_absent 4294967296 world_with_version).
  { repeat constructor. simpl. lia. }
  destruct (get_artifact_version_unknown_id 7 world_with_version H) as (_ & _ & Hin & _).
  destruct (get_artifact_version_unknown_id 4294967296 world_with_version H')
    as (_ & _ & _ & Hout).
  split; [exact H|]. split; [exact (proj1 (Hin eq_refl))|]. split; [exact H'|].
  by rewrite (proj2 (Hout eq_refl)).
Defined.

(** ** X3: the ledger after a create-version call *)

(** X3: a create-version call of either service keeps the constraints of
    the table, whatever it answers: after it names and ids are still unique
    and no id exceeds the sequence. *)
Theorem save_keeps_ledger_constraints (json_loads : string → option json) (name : string)
    (file : UploadFile) (description metadata : option string) (uuid4 : string)
    (now : Z) (w : World) :
  ledger_wf (db w) →
  ledger_wf (db (Legacy.save_artifact_version json_loads name file description metadata
                   uuid4 now w).2)
  ∧ ledger_wf (db (App.save_artifact_version json_loads name file description metadata
                     uuid4 now w).2).
Proof.
  intros Hwf.
  destruct (save_world json_loads name file description metadata uuid4 now w _
              (or_introl eq_refl)) as [-> _].
  destruct (save_world json_loads name file description metadata uuid4 now w _
              (or_intror eq_refl)) as [-> _].
  by rewrite open_wb_write_db.
Qed.

Lemma save_keeps_ledger_constraints_witness :
  ledger_wf (db (Legacy.save_artifact_version Json.loads "model-v1" sample_file None
                   (Some "{}") sample_uuid_2 300 world_with_stale_slot).2)
  ∧ ledger_wf (db (App.save_artifact_version Json.loads "model-v3" sample_file None
                     (Some "{}") sample_uuid_2 300 world_with_stale_slot).2).
Proof.
  split.
  - apply (save_keeps_ledger_constraints Json.loads "model-v1" sample_file None
             (Some "{}") sample_uuid_2 300 world_with_stale_slot sample_ledger_wf).
  - apply (save_keeps_ledger_constraints Json.loads "model-v3" sample_file None
             (Some "{}") sample_uuid_2 300 world_with_stale_slot sample_ledger_wf).
Defined.

(** ** X6, X7: what a create-version call touches *)

Lemma save_frame (json_loads : string → option json) (name : string)
    (file : UploadFile) (description metadata : option string) (uuid4 : string)
    (now : Z) (w : World) (out : result Version.t * World) :
  out = Legacy.save_artifact_version json_loads name file description metadata uuid4 now w
  ∨ out = App.save_artifact_version json_loads name file description metadata uuid4 now w →
  dirs (fs out.2) = dirs (fs w)
  ∧ users (db out.2) = users (db w)
  ∧ (∀ p, p ≠ Py.join "artifacts" (uuid4 +:+ (Py.splitext (filename file)).2) →
          files (fs out.2) !! p = files (fs w) !! p)
  ∧ ∃ more, versions (db out.2) = versions (db w) ++ more ∧ (length more ≤ 1)%nat.
Proof.
  intros Hout.
  destruct (save_world _ _ _ _ _ _ _ _ _ Hout) as [-> _].
  destruct (open_wb_write_fs
              (Py.join "artifacts" (uuid4 +:+ (Py.splitext (filename file)).2))
              (content file) w) as [Hdirs Hfiles].
  rewrite open_wb_write_db.
  split; [exact Hdirs|]. split; [reflexivity|]. split; [exact Hfiles|].
  exists []. split; [by rewrite app_nil_r | simpl; lia].
Qed.

(** X6: whatever a create-version call of either service answers, it
    leaves the directories and the user table as they were, changes no file
    other than the one at its own archive path, and keeps every row of the
    ledger, adding at most one behind them. *)
Theorem save_changes_one_path (json_loads : string → option json) (name : string)
    (file : UploadFile) (description metadata : option string) (uuid4 : string)
    (now : Z) (w : World) :
  let own := Py.join "artifacts" (uuid4 +:+ (Py.splitext (filename file)).2) in
  let legacy := Legacy.save_artifact_version json_loads name file description metadata
                  uuid4 now w in
  let app := App.save_artifact_version json_loads name file description metadata
               uuid4 now w in
  (dirs (fs legacy.2) = dirs (fs w)
   ∧ users (db legacy.2) = users (db w)
   ∧ (∀ p, p ≠ own → files (fs legacy.2) !! p = files (fs w) !! p)
   ∧ ∃ more, versions (db legacy.2) = versions (db w) ++ more ∧ (length more ≤ 1)%nat)
  ∧ (dirs (fs app.2) = dirs (fs w)
     ∧ users (db app.2) = users (db w)
     ∧ (∀ p, p ≠ own → files (fs app.2) !! p = files (fs w) !! p)
     ∧ ∃ more, versions (db app.2) = versions (db w) ++ more ∧ (length more ≤ 1)%nat).
Proof.
  intros own legacy app. split; eapply save_frame; eauto.
Qed.

Lemma uuid_not_empty (u e : string) : is_uuid_str u = true → u +:+ e ≠ "".
Proof. intros (c & r & -> & _)%uuid_head. by rewrite append_cons. Qed.

Lemma archive_path_not_active (n : string) : under_active ("artifacts/" +:+ n) = false.
Proof. reflexivity. Qed.

(** X7: the file name the client sends never steers the write out of the
    archive: with the text of a UUID drawn, any path whose content differs
    after a create-version call is the direct entry of [artifacts/] named
    by the UUID and the extension, and it lies outside the active slot. *)
Theorem save_writes_inside_archive (json_loads : string → option json) (name : string)
    (file : UploadFile) (description metadata : option string) (uuid4 : string)
    (now : Z) (w : World) (p : string) :
  is_uuid_str uuid4 = true →
  let legacy := Legacy.save_artifact_version json_loads name file description metadata
                  uuid4 now w in
  let app := App.save_artifact_version json_loads name file description metadata
               uuid4 now w in
  files (fs legacy.2) !! p ≠ files (fs w) !! p ∨ files (fs app.2) !! p ≠ files (fs w) !! p →
  Os.entry_name "artifacts" p = Some (uuid4 +:+ (Py.splitext (filename file)).2)
  ∧ under_active p = false.
Proof.
  intros Hu legacy app Hchanged.
  set (fn := uuid4 +:+ (Py.splitext (filename file)).2).
  assert (p = "artifacts/" +:+ fn) as ->.
  { rewrite <- (join_relative fn (uuid_not_absolute _ _ Hu)).
    destruct (decide (p = Py.join "artifacts" fn)) as [E|Hne]; [exact E|].
    exfalso. destruct Hchanged as [H|H]; apply H.
    - by apply (save_frame json_loads name file description metadata uuid4 now w legacy
                  (or_introl eq_refl)).
    - by apply (save_frame json_loads name file description metadata uuid4 now w app
                  (or_intror eq_refl)). }
  split; [|apply archive_path_not_active].
  apply (entry_name_child "artifacts" fn).
  - by apply uuid_not_empty.
  - by apply unique_filename_no_slash.
Qed.

Lemma save_writes_inside_archive_witness :
  let file := {| filename := "../../current_active_artifact/run.sh";
                 content := [Byte.x78] |} in
  let p := "artifacts/9a1d0e77-52c3-4f6a-8b1e-0c9d8e7f6a5b.sh" in
  files (fs (Legacy.save_artifact_version Json.loads "model-v3" file None None
               sample_uuid_2 300 world_with_version).2) !! p
  ≠ files (fs world_with_version) !! p
  ∧ Os.entry_name "artifacts" p = Some "9a1d0e77-52c3-4f6a-8b1e-0c9d8e7f6a5b.sh"
  ∧ under_active p = false.
Proof.
  intros file p.
  assert (is_uuid_str sample_uuid_2 = true) as Hu by (vm_compute; reflexivity).
  assert (files (fs (Legacy.save_artifact_version Json.loads "model-v3" file None None
                       sample_uuid_2 300 world_with_version).2) !! p
          ≠ files (fs world_with_version) !! p) as Hchanged
    by (vm_compute; discriminate).
  split; [exact Hchanged|].
  exact (save_writes_inside_archive Json.loads "model-v3" file None None sample_uuid_2 300
           world_with_version p Hu (or_introl Hchanged)).
Defined.

(** ** X8, X9, X10: requests the service refuses after the write *)

(** X8: metadata that decodes to a JSON value other than an object (and
    other than [null], which [json.loads] turns into [None]) is refused by
    the model [VersionCreate] after the file has been written: either
    service answers 500 with the detail of its catch-all clause, issues no
    [INSERT], and leaves the uploaded file in the archive. *)
Theorem non_object_metadata_rejected_after_write (json_loads : string → option json)
    (name : string) (file : UploadFile) (description : option string) (text : string)
    (value : json) (uuid4 : string) (now : Z) (w : World) :
  is_uuid_str uuid4 = true →
  archive_accepts (uuid4 +:+ (Py.splitext (filename file)).2) w →
  text ≠ "" → json_loads text = Some value →
  Json.is_dict value = false → value ≠ JNull →
  let path := "artifacts/" +:+ uuid4 +:+ (Py.splitext (filename file)).2 in
  let legacy := Legacy.save_artifact_version json_loads name file description (Some text)
                  uuid4 now w in
  let app := App.save_artifact_version json_loads name file description (Some text)
               uuid4 now w in
  (∃ reason, respond 201 legacy.1 = ErrorResponse 500 ("Failed to save version: " +:+ reason))
  ∧ (∃ reason, respond 201 app.1 = ErrorResponse 500 ("Failed to save version: " +:+ reason))
  ∧ legacy.2 = app.2
  ∧ trace legacy.2 = trace w ++ [EvWrite path true]
  ∧ files (fs legacy.2) !! path = Some (content file)
  ∧ db legacy.2 = db w.
Proof.
  intros Hu Hacc Hne Hloads Hdict Hnull path legacy app.
  destruct (save_not_a_dict json_loads name file description uuid4 now w Hu text value
              Hacc Hne Hloads Hdict Hnull) as [HL HA].
  subst legacy app. rewrite HL, HA. simpl.
  split; [eauto|]. split; [eauto|]. split; [reflexivity|]. split; [reflexivity|].
  split; [apply lookup_insert_eq | reflexivity].
Qed.

Lemma non_object_metadata_rejected_after_write_witness :
  Json.loads "[1, 2]" = Some (JArray [JNumber "1"; JNumber "2"])
  ∧ status_of (respond 201
       (Legacy.save_artifact_version Json.loads "model-v1" sample_file None
          (Some "[1, 2]") sample_uuid_1 100 fresh_world).1) = 500%nat
  ∧ files (fs (App.save_artifact_version Json.loads "model-v1" sample_file None
                 (Some "[1, 2]") sample_uuid_1 100 fresh_world).2)
      !! "artifacts/3f2b8c1e-7a54-4d0b-9c6e-1b2a3c4d5e6f.gz"
    = Some [Byte.x61; Byte.x62; Byte.x63]
  ∧ versions (db (App.save_artifact_version Json.loads "model-v1" sample_file None
                    (Some "[1, 2]") sample_uuid_1 100 fresh_world).2) = [].
Proof.
  assert (is_uuid_str sample_uuid_1 = true) as Hu by (vm_compute; reflexivity).
  assert (archive_accepts (sample_uuid_1 +:+ (Py.splitext (filename sample_file)).2)
            fresh_world) as Hacc.
  { split; [vm_compute; reflexivity | vm_compute; discriminate]. }
  assert ("[1, 2]" ≠ "") as Hne by discriminate.
  assert (Json.loads "[1, 2]" = Some (JArray [JNumber "1"; JNumber "2"])) as Hloads
    by (vm_compute; reflexivity).
  assert (Json.is_dict (JArray [JNumber "1"; JNumber "2"]) = false) as Hdict
    by reflexivity.
  assert (JArray [JNumber "1"; JNumber "2"] ≠ JNull) as Hnull by discriminate.
  destruct (non_object_metadata_rejected_after_write Json.loads "model-v1" sample_file None
              "[1, 2]" _ sample_uuid_1 100 fresh_world Hu Hacc Hne Hloads Hdict Hnull)
    as ([reason HL] & _ & Hsame & _ & Hfile & Hdb).
  split; [exact Hloads|]. split; [by rewrite HL|].
  rewrite <- Hsame. split; [exact Hfile | by rewrite Hdb].
Defined.

(** X9: a name longer than the 255 characters of its column (and without
    blanks, which the server would cut off) passes the handler and is
    refused in [create_version] after the file has been written: either
    service answers 500 with the detail of [create_version]'s catch-all
    clause, the ledger keeps its rows and the uploaded file stays in the
    archive.  (The refusal is the driver's, on the fourth argument; the
    length check of the server is not reached.) *)
Theorem overlong_name_rejected_after_write (json_loads : string → option json)
    (name : string) (file : UploadFile) (description metadata : option string)
    (uuid4 : string) (now : Z) (w : World) :
  is_uuid_str uuid4 = true →
  archive_accepts (uuid4 +:+ (Py.splitext (filename file)).2) w →
  metadata_ok json_loads metadata →
  (255 < String.length name)%nat → Py.contains " " name = false →
  let path := "artifacts/" +:+ uuid4 +:+ (Py.splitext (filename file)).2 in
  let legacy := Legacy.save_artifact_version json_loads name file description metadata
                  uuid4 now w in
  let app := App.save_artifact_version json_loads name file description metadata
               uuid4 now w in
  (∃ reason, respond 201 legacy.1
             = ErrorResponse 500 ("Database error during version creation: " +:+ reason))
  ∧ (∃ reason, respond 201 app.1
               = ErrorResponse 500 ("Database error during version creation: " +:+ reason))
  ∧ versions (db legacy.2) = versions (db w)
  ∧ versions (db app.2) = versions (db w)
  ∧ files (fs legacy.2) !! path = Some (content file)
  ∧ files (fs app.2) !! path = Some (content file).
Proof.
  intros Hu Hacc Hm Hlong _ path legacy app.
  destruct (save_refused_by_driver json_loads name file description uuid4 now w Hu
              metadata Hacc Hm) as [HL HA].
  subst legacy app. rewrite HL, HA. simpl.
  split; [eauto|]. split; [eauto|]. split; [reflexivity|]. split; [reflexivity|].
  split; apply lookup_insert_eq.
Qed.

Lemma overlong_name_rejected_after_write_witness :
  (255 < String.length sample_long_name)%nat
  ∧ status_of (respond 201
       (Legacy.save_artifact_version Json.loads sample_long_name sample_file None None
          sample_uuid_1 100 fresh_world).1) = 500%nat
  ∧ status_of (respond 201
       (App.save_artifact_version Json.loads sample_long_name sample_file None None
          sample_uuid_1 100 fresh_world).1) = 500%nat
  ∧ files (fs (App.save_artifact_version Json.loads sample_long_name sample_file None None
                 sample_uuid_1 100 fresh_world).2)
      !! "artifacts/3f2b8c1e-7a54-4d0b-9c6e-1b2a3c4d5e6f.gz"
    = Some [Byte.x61; Byte.x62; Byte.x63].
Proof.
  assert (is_uuid_str sample_uuid_1 = true) as Hu by (vm_compute; reflexivity).
  assert (archive_accepts (sample_uuid_1 +:+ (Py.splitext (filename sample_file)).2)
            fresh_world) as Hacc.
  { split; [vm_compute; reflexivity | vm_compute; discriminate]. }
  assert (metadata_ok Json.loads None) as Hm by exact I.
  assert (255 < String.length sample_long_name)%nat as Hlong
    by (apply Nat.ltb_lt; vm_compute; reflexivity).
  assert (Py.contains " " sample_long_name = false) as Hblank
    by (vm_compute; reflexivity).
  destruct (overlong_name_rejected_after_write Json.loads sample_long_name sample_file
              None None sample_uuid_1 100 fresh_world Hu Hacc Hm Hlong Hblank)
    as ([rL HL] & [rA HA] & _ & _ & _ & Hfile).
  split; [exact Hlong|]. split; [by rewrite HL|]. split; [by rewrite HA | exact Hfile].
Defined.

(** X10: a create-version request for a name the ledger already holds is
    not answered with the conflict: the uniqueness constraint is never
    consulted, because [create_version] of either service is refused by the
    driver on its fourth argument whatever it is asked, before the
    [INSERT] is executed.  The answer is 500, the ledger and its sequence
    are what they were, and the uploaded file stays in the archive with no
    row pointing at it. *)
Theorem taken_name_refused_by_driver (json_loads : string → option json)
    (name : string) (file : UploadFile) (description metadata : option string)
    (uuid4 : string) (now : Z) (w : World) :
  is_uuid_str uuid4 = true →
  archive_accepts (uuid4 +:+ (Py.splitext (filename file)).2) w →
  metadata_ok json_loads metadata →
  Pg.name_taken name (versions (db w)) = true →
  let path := "artifacts/" +:+ uuid4 +:+ (Py.splitext (filename file)).2 in
  let legacy := Legacy.save_artifact_version json_loads name file description metadata
                  uuid4 now w in
  let app := App.save_artifact_version json_loads name file description metadata
               uuid4 now w in
  respond 201 legacy.1
  = ErrorResponse 500 ("Database error during version creation: "
                       +:+ str_exn (DataError "$4"))
  ∧ respond 201 app.1
    = ErrorResponse 500 ("Database error during version creation: "
                         +:+ str_exn (DataError "$4"))
  ∧ legacy.2 = app.2
  ∧ db legacy.2 = db w
  ∧ files (fs legacy.2) !! path = Some (content file)
  ∧ ∀ version fn base now' x,
      Legacy.create_version version fn now' x = (Raise refused_by_driver, x)
      ∧ App.create_version version fn base now' x = (Raise refused_by_driver, x).
Proof.
  intros Hu Hacc Hm _ path legacy app. subst legacy app.
  destruct (save_refused_by_driver json_loads name file description uuid4 now w Hu
              metadata Hacc Hm) as [-> ->].
  simpl. split; [reflexivity|]. split; [reflexivity|]. split; [reflexivity|].
  split; [reflexivity|]. split; [apply lookup_insert_eq|].
  intros version fn base now' x. apply create_version_refused.
Qed.

Lemma taken_name_refused_by_driver_witness :
  let refused_call :=
    Legacy.save_artifact_version Json.loads "model-v1"
      {| filename := "retry.bin"; content := [Byte.x78] |} None None sample_uuid_2 200
      world_with_version in
  Pg.name_taken "model-v1" (versions (db world_with_version)) = true
  ∧ status_of (respond 201 refused_call.1) = 500%nat
  ∧ files (fs refused_call.2) !! "artifacts/9a1d0e77-52c3-4f6a-8b1e-0c9d8e7f6a5b.bin"
    = Some [Byte.x78]
  ∧ db refused_call.2 = db world_with_version.
Proof.
  intros refused_call.
  set (file := {| filename := "retry.bin"; content := [Byte.x78] |}) in *.
  assert (is_uuid_str sample_uuid_2 = true) as Hu by (vm_compute; reflexivity).
  assert (archive_accepts (sample_uuid_2 +:+ (Py.splitext (filename file)).2)
            world_with_version) as Hacc.
  { split; [vm_compute; reflexivity | vm_compute; discriminate]. }
  assert (metadata_ok Json.loads None) as Hm by exact I.
  assert (Pg.name_taken "model-v1" (versions (db world_with_version)) = true) as Htaken
    by (vm_compute; reflexivity).
  destruct (taken_name_refused_by_driver Json.loads "model-v1" file None None
              sample_uuid_2 200 world_with_version Hu Hacc Hm Htaken)
    as (HL & _ & _ & Hdb & Hfile & _).
  fold refused_call in HL, Hdb, Hfile.
  split; [exact Htaken|]. split; [by rewrite HL|]. split; [exact Hfile | exact Hdb].
Defined.

(** ** X11: the two create-version handlers against each other *)

Lemma save_bodies_agree (json_loads : string → option json) (name : string)
    (description metadata : option string) (fn : string) (now : Z) (w : World) :
  try_except
    (parsed_metadata ← Legacy.parse_metadata json_loads metadata;
     version_create ← VersionCreate_init name description parsed_metadata;
     Legacy.create_version version_create fn now)
    Legacy.save_except w
  = try_except
      (parsed_metadata ← App.parse_metadata json_loads metadata;
       version_create ← VersionCreate_init name description parsed_metadata;
       App.create_version version_create fn App.ARTIFACTS_DIR now)
      App.save_except w.
Proof. reflexivity. Qed.

(** X11: with the text of a UUID drawn, the create-version handlers of the
    two services leave the same world behind, return the same record if any
    and answer with the same status on every request; when the archive takes
    the file, their whole outcomes are equal. *)
Theorem save_handlers_agree (json_loads : string → option json) (name : string)
    (file : UploadFile) (description metadata : option string) (uuid4 : string)
    (now : Z) (w : World) :
  is_uuid_str uuid4 = true →
  let legacy := Legacy.save_artifact_version json_loads name file description metadata
                  uuid4 now w in
  let app := App.save_artifact_version json_loads name file description metadata
               uuid4 now w in
  legacy.2 = app.2
  ∧ returned legacy = returned app
  ∧ status_of (respond 201 legacy.1) = status_of (respond 201 app.1)
  ∧ (archive_accepts (uuid4 +:+ (Py.splitext (filename file)).2) w → legacy = app).
Proof.
  intros Hu legacy app.
  set (fn := uuid4 +:+ (Py.splitext (filename file)).2).
  pose proof (uuid_not_absolute uuid4 (Py.splitext (filename file)).2 Hu) as Hrel.
  pose proof (save_bodies_agree json_loads name description metadata fn now) as Hbody.
  assert (∀ u w', Os.open_wb_write ("artifacts/" +:+ fn) (content file) w = (Return u, w') →
                  legacy = app) as Hsame.
  { intros u w' Hwrite. subst legacy app.
    unfold Legacy.save_artifact_version, App.save_artifact_version, App.save_artifact_file.
    fold fn. unfold Legacy.ARTIFACTS_DIR, App.ARTIFACTS_DIR.
    rewrite (join_relative fn Hrel).
    specialize (Hbody w'). revert Hbody. unfold_monad. rewrite Hwrite.
    by destruct u. }
  destruct (Os.open_wb_write ("artifacts/" +:+ fn) (content file) w) as [[u|e] w'] eqn:Hwrite.
  - rewrite (Hsame u w' eq_refl). split; [reflexivity|]. split; [reflexivity|].
    split; [reflexivity|]. reflexivity.
  - subst legacy app.
    rewrite (legacy_save_write_refused json_loads name file description uuid4 now w Hu
               metadata e w' Hwrite).
    rewrite (app_save_write_refused json_loads name file description uuid4 now w Hu
               metadata e w' Hwrite).
    split; [reflexivity|]. split; [reflexivity|]. split; [reflexivity|].
    intros Hacc. fold fn in Hacc.
    rewrite (open_wb_write_accepted fn (content file) w
               (unique_filename_not_empty file uuid4 Hu)
               (unique_filename_no_slash uuid4 (filename file) Hu) Hacc) in Hwrite.
    discriminate.
Qed.

Lemma save_handlers_agree_witness :
  Legacy.save_artifact_version Json.loads "model-v3" sample_file (Some "third")
    (Some "{}") sample_uuid_2 300 world_with_stale_slot
  = App.save_artifact_version Json.loads "model-v3" sample_file (Some "third")
      (Some "{}") sample_uuid_2 300 world_with_stale_slot
  ∧ (Legacy.save_artifact_version Json.loads "model-v3" sample_file None None
       sample_uuid_2 300 world_without_archive).2
    = (App.save_artifact_version Json.loads "model-v3" sample_file None None
         sample_uuid_2 300 world_without_archive).2.
Proof.
  assert (is_uuid_str sample_uuid_2 = true) as Hu by (vm_compute; reflexivity).
  assert (archive_accepts (sample_uuid_2 +:+ (Py.splitext (filename sample_file)).2)
            world_with_stale_slot) as Hacc.
  { split; [vm_compute; reflexivity | vm_compute; discriminate]. }
  split.
  - by apply (save_handlers_agree Json.loads "model-v3" sample_file (Some "third")
                (Some "{}") sample_uuid_2 300 world_with_stale_slot Hu).
  - by apply (save_handlers_agree Json.loads "model-v3" sample_file None None
                sample_uuid_2 300 world_without_archive Hu).
Defined.

(** ** X12, X13: restore through [crud.py] *)

(** A restore through [crud.py] leaves the world as it found it. *)
Lemma legacy_restore_world (version_id : Z) (w : World) :
  (Legacy.restore_artifact_version version_id w).2 = w.
Proof.
  unfold Legacy.restore_artifact_version, Legacy.restore_version, Legacy.get_version,
    Pg.select_version, Version_init, load_attr.
  rewrite connection_has_no_loop. unfold_monad.
  destruct (Pg.int4 version_id); [|reflexivity].
  destruct (List.find _ _) as [v|]; [|reflexivity].
  by destruct (Version.metadata v).
Qed.

(** X12: whatever a restore through [crud.py] is asked for and however it
    ends, it leaves the ledger and the directories as they were and changes
    no file outside [current_active_artifact/]: the archive is never
    written, emptied or renamed by a restore. *)
Theorem legacy_restore_confined (version_id : Z) (w : World) :
  let out := Legacy.restore_artifact_version version_id w in
  db out.2 = db w
  ∧ dirs (fs out.2) = dirs (fs w)
  ∧ ∀ p, under_active p = false → files (fs out.2) !! p = files (fs w) !! p.
Proof.
  intros out. subst out. rewrite legacy_restore_world. auto.
Qed.

(** X13: a restore through [crud.py] of a version that is in the ledger
    never reaches the active slot: [restore_version] gets at its executor
    through [conn.loop], an attribute the connection does not have, and
    the [AttributeError] is turned into a 500 before any file is unlinked
    or copied (a row that the lookup itself refuses ends in a 500 before
    that).  The world is left as it was. *)
Theorem legacy_restore_fails (version_id : Z) (w : World) (v : Version.t) :
  stored_version version_id w = Some v →
  let out := Legacy.restore_artifact_version version_id w in
  (Pg.int4 version_id = true → Version.metadata v = None →
   respond 200 out.1
   = ErrorResponse 500
       "Failed to restore artifact: 'Connection' object has no attribute 'loop'")
  ∧ status_of (respond 200 out.1) = 500%nat
  ∧ out.2 = w
  ∧ files_in "current_active_artifact" out.2 = files_in "current_active_artifact" w.
Proof.
  intros Hv out. subst out.
  pose proof (legacy_restore_world version_id w) as Hw.
  destruct (get_version_present version_id w v Hv) as (Hplain & Hmeta & Hrange).
  assert (∀ e, Legacy.get_version version_id w = (Raise (HTTPException 500 e), w) →
               (Legacy.restore_artifact_version version_id w).1
               = Raise (HTTPException 500 e)) as Hfail.
  { intros e He. unfold Legacy.restore_artifact_version, Legacy.restore_version.
    unfold_monad. by rewrite He. }
  assert (Legacy.get_version version_id w = (Return (Some v), w) →
          (Legacy.restore_artifact_version version_id w).1
          = Raise (HTTPException 500
              "Failed to restore artifact: 'Connection' object has no attribute 'loop'"))
    as Hslip.
  { intros He. unfold Legacy.restore_artifact_version, Legacy.restore_version, load_attr.
    rewrite connection_has_no_loop. unfold_monad. by rewrite He. }
  split; [intros Hr Hm; by rewrite (Hslip (proj1 (Hplain Hr Hm)))|].
  rewrite Hw. split; [|by split].
  destruct (Pg.int4 version_id) eqn:Hr.
  - destruct (Version.metadata v) as [m|] eqn:Hm.
    + by rewrite (Hfail _ (proj1 (Hmeta eq_refl ltac:(done)))).
    + by rewrite (Hslip (proj1 (Hplain eq_refl eq_refl))).
  - by rewrite (Hfail _ (proj1 (Hrange eq_refl))).
Qed.

Lemma legacy_restore_fails_witness :
  files (fs world_with_stale_slot) !! "artifacts/3f2b8c1e-7a54-4d0b-9c6e-1b2a3c4d5e6f.gz"
  = Some [Byte.x61; Byte.x62; Byte.x63]
  ∧ status_of (respond 200 (Legacy.restore_artifact_version 1 world_with_stale_slot).1)
    = 500%nat
  ∧ files_in "current_active_artifact"
      (Legacy.restore_artifact_version 1 world_with_stale_slot).2 = ["old.bin"].
Proof.
  assert (stored_version 1 world_with_stale_slot
          = Some (sample_version 1 100 "model-v1"
                    "artifacts/3f2b8c1e-7a54-4d0b-9c6e-1b2a3c4d5e6f.gz")) as Hv
    by (vm_compute; reflexivity).
  assert (files_in "current_active_artifact" world_with_stale_slot = ["old.bin"]) as Hold
    by (vm_compute; reflexivity).
  destruct (legacy_restore_fails 1 world_with_stale_slot _ Hv) as (_ & Hs & _ & Hin).
  split; [vm_compute; reflexivity|]. split; [exact Hs|]. by rewrite Hin.
Defined.

(** ** X23, X24: what the conversions and the driver leave of list and create *)

(** X23: one row with metadata in the ledger makes the listing of either
    service fail: the list comprehension of [get_versions] builds a
    [Version] from every row inside the [try], the model refuses the text
    the driver returns for [jsonb], and the answer is 500 for the whole
    listing.  The world is left as it was. *)
Theorem listing_fails_on_metadata (w : World) :
  Exists (λ v, Version.metadata v ≠ None) (versions (db w)) →
  Legacy.list_artifact_versions w
  = (Raise (HTTPException 500 ("Database error during versions listing: "
                               +:+ str_exn (ValidationError "Version"))), w)
  ∧ App.list_artifact_versions w
    = (Raise (HTTPException 500 ("Database error during versions listing: "
                                 +:+ str_exn (ValidationError "Version"))), w).
Proof.
  intros Hmeta.
  destruct (select_versions_ordered w) as (out & Hout & Hperm & _).
  assert (Exists (λ v, Version.metadata v ≠ None) out) as Hmeta'.
  { apply Exists_exists in Hmeta as (v & Hv & Hm). apply Exists_exists.
    exists v. split; [by rewrite Hperm | exact Hm]. }
  unfold Legacy.list_artifact_versions, App.list_artifact_versions,
    Legacy.get_versions, App.get_versions.
  unfold_monad. rewrite Hout, (map_m_Version_init_fails out w Hmeta'). by split.
Qed.

Lemma listing_fails_on_metadata_witness :
  Exists (λ v, Version.metadata v ≠ None) (versions (db world_with_metadata))
  ∧ status_of (respond 200 (Legacy.list_artifact_versions world_with_metadata).1) = 500%nat
  ∧ status_of (respond 200 (App.list_artifact_versions world_with_metadata).1) = 500%nat.
Proof.
  assert (Exists (λ v, Version.metadata v ≠ None) (versions (db world_with_metadata)))
    as Hmeta by (apply Exists_cons_tl, Exists_cons_hd; discriminate).
  destruct (listing_fails_on_metadata world_with_metadata Hmeta) as [HL HA].
  split; [exact Hmeta|]. split; [by rewrite HL | by rewrite HA].
Defined.

(** X24: no create-version request of either service returns a record or
    changes the tables, whatever it carries and whatever the world holds:
    every path through the handler ends in an error, the last of them in
    the driver's refusal of [create_version]'s fourth argument. *)
Theorem save_never_returns (json_loads : string → option json) (name : string)
    (file : UploadFile) (description metadata : option string) (uuid4 : string)
    (now : Z) (w : World) :
  let legacy := Legacy.save_artifact_version json_loads name file description metadata
                  uuid4 now w in
  let app := App.save_artifact_version json_loads name file description metadata
               uuid4 now w in
  returned legacy = None ∧ returned app = None
  ∧ db legacy.2 = db w ∧ db app.2 = db w.
Proof.
  intros legacy app.
  destruct (save_world json_loads name file description metadata uuid4 now w legacy
              (or_introl eq_refl)) as [-> ->].
  destruct (save_world json_loads name file description metadata uuid4 now w app
              (or_intror eq_refl)) as [-> ->].
  by rewrite open_wb_write_db.
Qed.

(** ** X15, X16: the dependencies that guard the routes of [main.py] *)

Lemma current_active_user_cases (decode : string → result (option string))
    (token : string) (w : World) :
  let out := LegacyDeps.current_active_user decode token w in
  out.2 = w
  ∧ ∀ user, returned out = Some user →
            ∃ username, decode token = Return (Some username)
                        ∧ stored_user username w = Some user
                        ∧ UserInDB.disabled user = false.
Proof.
  unfold LegacyDeps.current_active_user, LegacyDeps.get_current_user,
    LegacyDeps.get_current_active_user, Legacy.get_user_by_username, Pg.select_user,
    stored_user, returned.
  unfold_monad. simpl.
  destruct (decode token) as [[username|]|e]; simpl; [|by split..].
  destruct (List.find _ _) as [user|] eqn:Hfind; simpl; [|by split].
  destruct (UserInDB.disabled user) eqn:Hd; simpl; [by split|].
  split; [reflexivity|]. intros user' [= <-]. eauto.
Qed.

Lemma guard_sound_cases (decode : string → result (option string)) (token : string)
    (w : World) (user : UserInDB.t) :
  let active := LegacyDeps.current_active_user decode token w in
  let admin := LegacyDeps.current_admin_user decode token w in
  active.2 = w ∧ admin.2 = w
  ∧ (returned active = Some user →
     ∃ username, decode token = Return (Some username)
                 ∧ stored_user username w = Some user
                 ∧ UserInDB.disabled user = false)
  ∧ (returned admin = Some user →
     "admin" ∈ UserInDB.roles user
     ∧ ∃ username, decode token = Return (Some username)
                   ∧ stored_user username w = Some user
                   ∧ UserInDB.disabled user = false).
Proof.
  intros active admin.
  destruct (current_active_user_cases decode token w) as [Hw Hsound].
  fold active in Hw, Hsound.
  assert (admin.2 = w ∧ (returned admin = Some user →
                         "admin" ∈ UserInDB.roles user ∧ returned active = Some user))
    as [Hw' Hadmin].
  { subst admin. unfold LegacyDeps.current_admin_user. unfold_monad. fold active.
    destruct active as [[u|e] w'] eqn:E; simpl in *; subst w'; [|by split].
    unfold LegacyDeps.get_current_admin_user, returned. unfold_monad.
    case_bool_decide as Hrole; simpl; [|by split].
    split; [reflexivity|]. by intros [= <-]. }
  split; [exact Hw|]. split; [exact Hw'|]. split; [apply Hsound|].
  intros [Hrole Hactive]%Hadmin. split; [exact Hrole | by apply Hsound].
Qed.

(** X15: the guards of the protected routes never let a request through
    on behalf of anybody else: whenever [get_current_active_user] resolves
    for a token, the user it yields is the stored row of the token's
    subject and is not disabled; whenever [get_current_admin_user]
    resolves, that user also holds the role [admin].  Neither guard
    changes the world. *)
Theorem guards_sound (decode : string → result (option string)) (token : string)
    (w : World) (user : UserInDB.t) :
  let active := LegacyDeps.current_active_user decode token w in
  let admin := LegacyDeps.current_admin_user decode token w in
  active.2 = w ∧ admin.2 = w
  ∧ (returned active = Some user →
     ∃ username, decode token = Return (Some username)
                 ∧ stored_user username w = Some user
                 ∧ UserInDB.disabled user = false)
  ∧ (returned admin = Some user →
     "admin" ∈ UserInDB.roles user
     ∧ ∃ username, decode token = Return (Some username)
                   ∧ stored_user username w = Some user
                   ∧ UserInDB.disabled user = false).
Proof. apply guard_sound_cases. Qed.

Lemma guards_sound_witness :
  returned (LegacyDeps.current_admin_user sample_decode "root" world_with_accounts)
  = Some sample_admin
  ∧ "admin" ∈ UserInDB.roles sample_admin
  ∧ UserInDB.disabled sample_admin = false
  ∧ returned (LegacyDeps.current_active_user sample_decode "alice" world_with_accounts)
    = Some sample_user
  ∧ stored_user "alice" world_with_accounts = Some sample_user.
Proof.
  assert (returned (LegacyDeps.current_admin_user sample_decode "root" world_with_accounts)
          = Some sample_admin) as Hadmin by (vm_compute; reflexivity).
  assert (returned (LegacyDeps.current_active_user sample_decode "alice"
                      world_with_accounts) = Some sample_user) as Hactive
    by (vm_compute; reflexivity).
  destruct (guards_sound sample_decode "root" world_with_accounts sample_admin)
    as (_ & _ & _ & Hroot).
  destruct (guards_sound sample_decode "alice" world_with_accounts sample_user)
    as (_ & _ & Halice & _).
  destruct (Hroot Hadmin) as (Hrole & _ & _ & _ & Hd).
  destruct (Halice Hactive) as (username & Hsub & Hstored & _).
  split; [exact Hadmin|]. split; [exact Hrole|]. split; [exact Hd|].
  split; [exact Hactive|].
  injection Hsub as <-. exact Hstored.
Defined.

Lemma guard_cases (decode : string → result (option string)) (token : string)
    (w : World) :
  let active := (LegacyDeps.current_active_user decode token w).1 in
  let admin := (LegacyDeps.current_admin_user decode token w).1 in
  (decode token = Return None →
   active = Raise (HTTPException 401 "Invalid authentication credentials")
   ∧ admin = Raise (HTTPException 401 "Invalid authentication credentials"))
  ∧ (∀ username, decode token = Return (Some username) →
       match stored_user username w with
       | None => active = Raise (HTTPException 401 "User not found")
                 ∧ admin = Raise (HTTPException 401 "User not found")
       | Some user =>
           if UserInDB.disabled user
           then active = Raise (HTTPException 400 "Inactive user")
                ∧ admin = Raise (HTTPException 400 "Inactive user")
           else active = Return user
                ∧ admin = (if bool_decide ("admin" ∈ UserInDB.roles user)
                           then Return user
                           else Raise (HTTPException 403 "Not enough permissions"))
       end).
Proof.
  unfold LegacyDeps.current_admin_user, LegacyDeps.current_active_user,
    LegacyDeps.get_current_user, LegacyDeps.get_current_active_user,
    LegacyDeps.get_current_admin_user, Legacy.get_user_by_username, Pg.select_user,
    stored_user.
  unfold_monad. simpl. split.
  - by intros ->.
  - intros username ->. simpl.
    destruct (List.find _ _) as [user|]; simpl; [|by split].
    destruct (UserInDB.disabled user); simpl; [by split|].
    split; [reflexivity|]. by case_bool_decide.
Qed.

(** X16: what the guards answer for a token whose subject is a stored
    user: a disabled account is refused with 400 whatever its roles, an
    enabled account without the role [admin] passes
    [get_current_active_user] and is refused with 403 by
    [get_current_admin_user], an enabled administrator passes both; a token
    without subject, or with a subject that is not stored, is refused with
    401. *)
Theorem guards_outcomes (decode : string → result (option string)) (token : string)
    (w : World) :
  let active := (LegacyDeps.current_active_user decode token w).1 in
  let admin := (LegacyDeps.current_admin_user decode token w).1 in
  (decode token = Return None →
   active = Raise (HTTPException 401 "Invalid authentication credentials")
   ∧ admin = Raise (HTTPException 401 "Invalid authentication credentials"))
  ∧ (∀ username, decode token = Return (Some username) →
       match stored_user username w with
       | None => active = Raise (HTTPException 401 "User not found")
                 ∧ admin = Raise (HTTPException 401 "User not found")
       | Some user =>
           if UserInDB.disabled user
           then active = Raise (HTTPException 400 "Inactive user")
                ∧ admin = Raise (HTTPException 400 "Inactive user")
           else active = Return user
                ∧ admin = (if bool_decide ("admin" ∈ UserInDB.roles user)
                           then Return user
                           else Raise (HTTPException 403 "Not enough permissions"))
       end).
Proof. apply guard_cases. Qed.

Lemma guards_outcomes_witness :
  (LegacyDeps.current_admin_user sample_decode "" world_with_accounts).1
  = Raise (HTTPException 401 "Invalid authentication credentials")
  ∧ (LegacyDeps.current_admin_user sample_decode "ghost" world_with_accounts).1
    = Raise (HTTPException 400 "Inactive user")
  ∧ (LegacyDeps.current_admin_user sample_decode "alice" world_with_accounts).1
    = Raise (HTTPException 403 "Not enough permissions")
  ∧ (LegacyDeps.current_admin_user sample_decode "mallory" world_with_accounts).1
    = Raise (HTTPException 401 "User not found").
Proof.
  assert (sample_decode "" = Return None) as Hnone by reflexivity.
  assert (sample_decode "ghost" = Return (Some "ghost")) as Hghost by reflexivity.
  assert (sample_decode "alice" = Return (Some "alice")) as Halice by reflexivity.
  assert (sample_decode "mallory" = Return (Some "mallory")) as Hmallory by reflexivity.
  destruct (guards_outcomes sample_decode "" world_with_accounts) as [H1 _].
  destruct (guards_outcomes sample_decode "ghost" world_with_accounts) as [_ H2].
  destruct (guards_outcomes sample_decode "alice" world_with_accounts) as [_ H3].
  destruct (guards_outcomes sample_decode "mallory" world_with_accounts) as [_ H4].
  split; [exact (proj2 (H1 Hnone))|].
  split; [exact (proj2 (H2 "ghost" Hghost))|].
  split; [exact (proj2 (H3 "alice" Halice)) | exact (proj2 (H4 "mallory" Hmallory))].
Defined.

(** ** X17: the lifetime of an issued token *)

(** X17: [create_access_token], called as the login endpoint of the
    package calls it, with a lifetime of the configured minutes, encodes
    the subject and the roles it is given together with an expiry that
    lies exactly that many minutes after the clock reading, also when the
    configured lifetime is zero and the falsy [timedelta] sends the
    function through its default branch. *)
Theorem create_access_token_expiry (jwt_encode : Claims → string) (minutes : Z)
    (subject : string) (roles : list string) (now : Z) :
  App.create_access_token jwt_encode minutes subject roles (Some (minutes * 60)) now
  = jwt_encode {| sub := subject; claim_roles := roles; exp := now + minutes * 60 |}
  ∧ App.create_access_token jwt_encode minutes subject roles None now
    = jwt_encode {| sub := subject; claim_roles := roles; exp := now + minutes * 60 |}.
Proof.
  unfold App.create_access_token. split; [|reflexivity].
  destruct (Z.eqb_spec (minutes * 60) 0) as [E|_]; reflexivity.
Qed.

(** ** X18, X19: the current user's own record, and the guard of the package *)

Lemma id_not_a_field : bool_decide ("id" ∈ UserInDB_fields) = false.
Proof. vm_compute. reflexivity. Qed.

Lemma read_users_me_raises (current_user : UserInDB.t) (w : World) :
  read_users_me current_user w = (Raise (AttributeError "'UserInDB' object" "id"), w).
Proof.
  unfold read_users_me, load_attr. rewrite id_not_a_field. reflexivity.
Qed.

(** X18: [GET /users/me/] never answers with a user record, in either
    service: [read_users_me] reads [current_user.id], the model [UserInDB]
    has no field [id], and every request that passes the guard
    [get_current_active_user] ends in [AttributeError], which the framework
    answers with 500.  The world is left as it was. *)
Theorem users_me_never_answers (decode : string → result (option string))
    (token : string) (w : World) :
  let legacy := LegacyUsers.users_me_route decode token w in
  let app := AppDeps.users_me_route decode token w in
  returned legacy = None ∧ returned app = None
  ∧ (∀ user, returned (LegacyDeps.current_active_user decode token w) = Some user →
             legacy = (Raise (AttributeError "'UserInDB' object" "id"), w)
             ∧ respond 200 legacy.1 = ErrorResponse 500 "Internal Server Error")
  ∧ (∀ user, returned (AppDeps.current_active_user decode token w) = Some user →
             respond 200 app.1 = ErrorResponse 500 "Internal Server Error").
Proof.
  intros legacy app. subst legacy app.
  unfold LegacyUsers.users_me_route, AppDeps.users_me_route. unfold_monad.
  pose proof (proj1 (guard_sound_cases decode token w sample_user)) as Hw.
  destruct (LegacyDeps.current_active_user decode token w) as [[u|e] w1]; simpl in *;
    destruct (AppDeps.current_active_user decode token w) as [[u'|e'] w1']; simpl in *;
    rewrite ?read_users_me_raises; simpl; subst;
    (split; [reflexivity|]); (split; [reflexivity|]); split; intros user Hu;
    try discriminate; auto.
Qed.

Lemma users_me_never_answers_witness :
  returned (LegacyDeps.current_active_user sample_decode "alice" world_with_accounts)
  = Some sample_user
  ∧ status_of (respond 200
       (LegacyUsers.users_me_route sample_decode "alice" world_with_accounts).1) = 500%nat.
Proof.
  assert (returned (LegacyDeps.current_active_user sample_decode "alice"
                      world_with_accounts) = Some sample_user) as Hactive
    by (vm_compute; reflexivity).
  destruct (users_me_never_answers sample_decode "alice" world_with_accounts)
    as (_ & _ & HL & _).
  destruct (HL sample_user Hactive) as [_ Hr].
  split; [exact Hactive | by rewrite Hr].
Defined.

(** X19: [get_current_user] of the package tells a caller nothing about
    why a token was refused: a token that does not decode, a token without
    subject and a subject that is not stored are all answered with the same
    401 and detail; otherwise the stored row of the subject is returned.
    The world is left as it was. *)
Theorem app_get_current_user_uniform (decode : string → result (option string))
    (token : string) (w : World) :
  let out := AppDeps.get_current_user decode token w in
  out.2 = w
  ∧ match out.1 with
    | Return user =>
        ∃ username, decode token = Return (Some username)
                    ∧ stored_user username w = Some user
    | Raise e => e = HTTPException 401 "Could not validate credentials"
    end.
Proof.
  unfold AppDeps.get_current_user, App.get_user_by_username, Pg.select_user, stored_user,
    AppDeps.credentials_exception.
  unfold_monad. simpl.
  destruct (decode token) as [[username|]|e]; simpl; [|by split..].
  destruct (List.find _ _) as [user|] eqn:Hfind; simpl; [|by split].
  split; [reflexivity|]. eauto.
Qed.

(** ** X20, X21, X22: registering users *)

Lemma find_app_none {A : Type} (f : A → bool) (l l' : list A) :
  List.find f l = None → List.find f (l ++ l') = List.find f l'.
Proof.
  induction l as [|a l IH]; [reflexivity|]. simpl.
  destruct (f a); [discriminate | exact IH].
Qed.

Lemma key_taken_username (username : string) (id : Z) (rows : list UserInDB.t) :
  PgUsers.key_taken username id rows = false →
  username ∉ map UserInDB.username rows.
Proof.
  unfold PgUsers.key_taken. induction rows as [|r l IH]; simpl; [by intros _ ?%elem_of_nil|].
  intros [[Hr _]%orb_false_iff Hl]%orb_false_iff [->|Hin]%elem_of_cons.
  - by rewrite String.eqb_refl in Hr.
  - by apply IH.
Qed.

(** The two ways a registration ends: refused with the world as it was, or
    with the new row appended to the table. *)
Lemma create_user_endpoint_cases (get_password_hash : string → string)
    (user : UserCreate.t) (nextval : Z) (w : World) :
  let out := LegacyUsers.create_user_endpoint get_password_hash user nextval w in
  (returned out = None ∧ out.2 = w)
  ∨ (out = (Return {| User.id := nextval; User.username := UserCreate.username user;
                      User.email := UserCreate.email user; User.disabled := false;
                      User.roles := ["user"] |},
            with_db w (PgUsers.with_users (db w)
                         (users (db w) ++ [registered_row get_password_hash user nextval])))
     ∧ stored_user (UserCreate.username user) w = None
     ∧ PgUsers.key_taken (UserCreate.username user) nextval (users (db w)) = false).
Proof.
  unfold LegacyUsers.create_user_endpoint, LegacyUsers.create_user,
    Legacy.get_user_by_username, Pg.select_user, PgUsers.insert_user, stored_user, returned.
  unfold_monad. simpl.
  destruct (List.find _ _) as [row|] eqn:Hfind; simpl; [by left|].
  destruct (_ || _); simpl; [by left|].
  destruct (PgUsers.key_taken _ _ _) eqn:Hkey; simpl; [by left|].
  right. auto.
Qed.

Lemma stored_after_registration (get_password_hash : string → string)
    (user : UserCreate.t) (nextval : Z) (w : World) :
  stored_user (UserCreate.username user) w = None →
  stored_user (UserCreate.username user)
    (with_db w (PgUsers.with_users (db w)
                  (users (db w) ++ [registered_row get_password_hash user nextval])))
  = Some (registered_row get_password_hash user nextval).
Proof.
  unfold stored_user. simpl. intros H. rewrite (find_app_none _ _ _ H). simpl.
  by rewrite String.eqb_refl.
Qed.

(** X20: a user registered through [create_user_endpoint] is a plain
    user: the record returned and the row stored carry the defaults of the
    table, enabled and with the single role [user], and the hash of the
    password; a token for the new user passes [get_current_active_user] and
    is refused with 403 by [get_current_admin_user], so registering never
    creates an administrator. *)
Theorem registered_user_is_plain (get_password_hash : string → string)
    (user : UserCreate.t) (nextval : Z) (w : World) (created : User.t) :
  let out := LegacyUsers.create_user_endpoint get_password_hash user nextval w in
  let row := registered_row get_password_hash user nextval in
  returned out = Some created →
  User.username created = UserCreate.username user
  ∧ User.roles created = ["user"] ∧ User.disabled created = false
  ∧ users (db out.2) = users (db w) ++ [row]
  ∧ ∀ decode token,
      decode token = Return (Some (UserCreate.username user)) →
      (LegacyDeps.current_active_user decode token out.2).1 = Return row
      ∧ (LegacyDeps.current_admin_user decode token out.2).1
        = Raise (HTTPException 403 "Not enough permissions").
Proof.
  intros out row Hcreated.
  destruct (create_user_endpoint_cases get_password_hash user nextval w)
    as [[Hnone _]|(Hout & Hfree & _)]; fold out in Hnone || fold out in Hout.
  { rewrite Hnone in Hcreated. discriminate. }
  rewrite Hout in Hcreated |- *. injection Hcreated as <-. simpl.
  split; [reflexivity|]. split; [reflexivity|]. split; [reflexivity|].
  split; [reflexivity|].
  intros decode token Hsub.
  pose proof (proj2 (guard_cases decode token
                       (with_db w (PgUsers.with_users (db w) (users (db w) ++ [row]))))
                _ Hsub) as Hguard.
  subst row. rewrite (stored_after_registration get_password_hash user nextval w Hfree)
    in Hguard.
  exact Hguard.
Qed.

Lemma registered_user_is_plain_witness :
  let out := LegacyUsers.create_user_endpoint sample_hash sample_registration 4
               world_with_accounts in
  map UserInDB.username (users (db out.2)) = ["alice"; "root"; "ghost"; "bob"]
  ∧ (LegacyDeps.current_admin_user sample_decode "bob" out.2).1
    = Raise (HTTPException 403 "Not enough permissions")
  ∧ credentials_match sample_verify
      {| form_username := "bob"; form_password := "builder" |} out.2 = true.
Proof.
  intros out.
  assert (returned out
          = Some {| User.id := 4; User.username := "bob";
                    User.email := Some "bob@example.org"; User.disabled := false;
                    User.roles := ["user"] |}) as Hcreated by (vm_compute; reflexivity).
  destruct (registered_user_is_plain sample_hash sample_registration 4 world_with_accounts
              _ Hcreated) as (_ & _ & _ & Hrows & Hguard).
  fold out in Hrows, Hguard.
  split; [by rewrite Hrows|].
  split; [exact (proj2 (Hguard sample_decode "bob" eq_refl))|].
  unfold credentials_match, stored_user. rewrite Hrows. vm_compute. reflexivity.
Defined.

(** X21: whatever a registration answers, it leaves the files, the
    directories, the ledger of versions and every stored user row as they
    were, adding at most one row behind them; and it never stores a second
    row under a user name: user names that were unique stay unique. *)
Theorem registration_keeps_accounts (get_password_hash : string → string)
    (user : UserCreate.t) (nextval : Z) (w : World) :
  let out := LegacyUsers.create_user_endpoint get_password_hash user nextval w in
  fs out.2 = fs w ∧ versions (db out.2) = versions (db w) ∧ trace out.2 = trace w
  ∧ (∃ more, users (db out.2) = users (db w) ++ more ∧ (length more ≤ 1)%nat)
  ∧ (NoDup (map UserInDB.username (users (db w))) →
     NoDup (map UserInDB.username (users (db out.2)))).
Proof.
  intros out.
  destruct (create_user_endpoint_cases get_password_hash user nextval w)
    as [[_ Hw]|(Hout & _ & Hkey)]; fold out in Hw || fold out in Hout.
  - rewrite Hw. split; [reflexivity|]. split; [reflexivity|]. split; [reflexivity|].
    split; [|auto]. exists []. split; [by rewrite app_nil_r | simpl; lia].
  - rewrite Hout. simpl. split; [reflexivity|]. split; [reflexivity|].
    split; [reflexivity|]. split.
    + eexists [_]. split; [reflexivity | simpl; lia].
    + intros Hnd. rewrite map_app. simpl. apply NoDup_app. split; [exact Hnd|]. split.
      * intros y Hy ->%list_elem_of_singleton.
        by apply (key_taken_username _ _ _ Hkey).
      * apply NoDup_singleton.
Qed.

Lemma registration_keeps_accounts_witness :
  NoDup (map UserInDB.username (users (db world_with_accounts)))
  ∧ NoDup (map UserInDB.username
             (users (db (LegacyUsers.create_user_endpoint sample_hash sample_registration 4
                           world_with_accounts).2)))
  ∧ NoDup (map UserInDB.username
             (users (db (LegacyUsers.create_user_endpoint sample_hash
                           {| UserCreate.username := "alice"; UserCreate.email := None;
                              UserCreate.password := "again" |} 4
                           world_with_accounts).2))).
Proof.
  assert (NoDup (map UserInDB.username (users (db world_with_accounts)))) as Hnd.
  { apply (bool_decide_unpack _). vm_compute. exact I. }
  split; [exact Hnd|]. split.
  - by apply (registration_keeps_accounts sample_hash sample_registration 4
                world_with_accounts).
  - by apply (registration_keeps_accounts sample_hash
                {| UserCreate.username := "alice"; UserCreate.email := None;
                   UserCreate.password := "again" |} 4 world_with_accounts).
Defined.

(** X22: only an enabled administrator registers users: whenever a request
    to [POST /users/] returns a record or changes anything, its token
    carries the name of a stored user who is enabled and holds the role
    [admin]. *)
Theorem only_administrators_register (decode : string → result (option string))
    (get_password_hash : string → string) (token : string) (user : UserCreate.t)
    (nextval : Z) (w : World) :
  let out := LegacyUsers.create_user_route decode get_password_hash token user nextval w in
  returned out ≠ None ∨ out.2 ≠ w →
  ∃ username admin,
    decode token = Return (Some username)
    ∧ stored_user username w = Some admin
    ∧ UserInDB.disabled admin = false
    ∧ "admin" ∈ UserInDB.roles admin.
Proof.
  intros out. subst out. unfold LegacyUsers.create_user_route. unfold_monad.
  destruct (LegacyDeps.current_admin_user decode token w) as [[admin|e] w1] eqn:E.
  - intros _.
    destruct (guard_sound_cases decode token w admin) as (_ & _ & _ & Hsound).
    rewrite E in Hsound.
    destruct (Hsound eq_refl) as (Hrole & username & Hsub & Hstored & Hd). eauto 10.
  - destruct (guard_sound_cases decode token w sample_user) as (_ & Hw & _).
    rewrite E in Hw. simpl in Hw. subst w1. simpl. intros [H|H]; by destruct H.
Qed.

Lemma only_administrators_register_witness :
  returned (LegacyUsers.create_user_route sample_decode sample_hash "root"
              sample_registration 4 world_with_accounts) ≠ None
  ∧ ∃ username admin,
      sample_decode "root" = Return (Some username)
      ∧ stored_user username world_with_accounts = Some admin
      ∧ UserInDB.disabled admin = false
      ∧ "admin" ∈ UserInDB.roles admin.
Proof.
  assert (returned (LegacyUsers.create_user_route sample_decode sample_hash "root"
                      sample_registration 4 world_with_accounts) ≠ None) as Hdone
    by (vm_compute; discriminate).
  split; [exact Hdone|].
  exact (only_administrators_register sample_decode sample_hash "root"
           sample_registration 4 world_with_accounts (or_introl Hdone)).
Defined.
